(** * NavFleet to OVD converter: a shallow embedding of [Navfleet_2_OVD.py]

    The development follows the source file function by function:
    [convert_decimal_to_dms], [adjust_to_utc], [map_values],
    [map_fuel_type_consumption], [process_event],
    [transform_navfleet_data], [update_voyage_columns], and then
    [get_vessel_name], [load_file] and the two commands of the window,
    [process_transformation] and [process_update]. [main], which builds
    the window and runs its event loop, is not modelled.

    Modelling conventions.
    - A table cell is a [pyval]: the Python objects a pandas column of
      this program can hold.
    - A [DataFrame] is a [frame]: its number of rows and its columns by
      name. The order of the columns is not modelled.
    - Python floats are idealised as exact rationals ([Q], brought to lowest
      terms by [Qred] where the model computes one); NaN and the two
      infinities are constructors of their own.
    - Times are kept to the second.
    - Text is ASCII: [strip], [lower] and [upper] act on the ASCII range.
    - A function that can raise returns a [result]; [OutOfBounds] stands
      for the out-of-bounds exceptions of pandas.
    - The parsers and printers of Python and pandas that the program calls
      are a parameter, the record [pylib]. The theorems hold for every
      [pylib]; [iso_lib] is an instance to run the model with.
    - The answers of the user, the clock and the files are a parameter
      too, the record [world]; a command of the window is the trace of
      what it does to them. *)

From Stdlib Require Import ZArith QArith Qround Qabs String Ascii List Lia Lqa
  Bool DecimalString DecimalPos.
From stdpp Require Import base option list strings gmap fin_maps sorting.

Local Open Scope string_scope.
Local Open Scope Z_scope.

(** ** Exceptions and the error monad *)

Inductive exn :=
| KeyError | TypeError | ValueError | OverflowError | AttributeError
| OutOfBounds.

Inductive result (A : Type) :=
| Ok (a : A)
| Raise (e : exn).
Arguments Ok {A} a.
Arguments Raise {A} e.

Definition rbind {A B} (r : result A) (k : A -> result B) : result B :=
  match r with
  | Ok a => k a
  | Raise e => Raise e
  end.

Notation "x <-- r ;; k" := (rbind r (fun x => k))
  (at level 100, r at next level, right associativity).

(** [traverse f l] runs [f] on the cells of a column from the first to the
    last and stops at the first exception. *)
Fixpoint traverse {A B} (f : A -> result B) (l : list A) : result (list B) :=
  match l with
  | [] => Ok []
  | a :: l' => b <-- f a ;; bs <-- traverse f l' ;; Ok (b :: bs)
  end.

(** ** Dates, times and cells *)

Record date := Date { year : Z; month : Z; day : Z }.
Record time := Time { hour : Z; minute : Z; second : Z }.
Record datetime := DateTime { dt_date : date; dt_time : time }.

Inductive pyval :=
| VNone                  (* None *)
| VNaN                   (* float('nan'), NaT *)
| VInt (z : Z)           (* int *)
| VFloat (q : Q)         (* a finite float *)
| VInf (negative : bool) (* float('inf'), float('-inf') *)
| VStr (s : string)      (* str *)
| VDate (d : date)       (* datetime.date *)
| VTime (t : time)       (* datetime.time *)
| VTimestamp (dt : datetime). (* pd.Timestamp *)

#[global] Instance Q_eq_dec : EqDecision Q.
Proof. solve_decision. Defined.
#[global] Instance date_eq_dec : EqDecision date.
Proof. solve_decision. Defined.
#[global] Instance time_eq_dec : EqDecision time.
Proof. solve_decision. Defined.
#[global] Instance datetime_eq_dec : EqDecision datetime.
Proof. solve_decision. Defined.
#[global] Instance pyval_eq_dec : EqDecision pyval.
Proof. solve_decision. Defined.

(** [pd.isna] on a scalar. *)
Definition isna (v : pyval) : bool :=
  match v with
  | VNone | VNaN => true
  | _ => false
  end.

(** ** Text *)

(** The ASCII characters [str.isspace] accepts. *)
Definition is_space (c : ascii) : bool :=
  let n := nat_of_ascii c in
  ((9 <=? n)%nat && (n <=? 13)%nat) || ((28 <=? n)%nat && (n <=? 32)%nat).

Fixpoint lstrip (s : string) : string :=
  match s with
  | String c s' => if is_space c then lstrip s' else s
  | EmptyString => EmptyString
  end.

Fixpoint rstrip (s : string) : string :=
  match s with
  | String c s' =>
      match rstrip s' with
      | EmptyString => if is_space c then EmptyString else String c EmptyString
      | r => String c r
      end
  | EmptyString => EmptyString
  end.

Definition strip (s : string) : string := rstrip (lstrip s).

Definition lower_ascii (c : ascii) : ascii :=
  let n := nat_of_ascii c in
  if ((65 <=? n)%nat && (n <=? 90)%nat) then ascii_of_nat (n + 32) else c.

Definition upper_ascii (c : ascii) : ascii :=
  let n := nat_of_ascii c in
  if ((97 <=? n)%nat && (n <=? 122)%nat) then ascii_of_nat (n - 32) else c.

Fixpoint map_string (f : ascii -> ascii) (s : string) : string :=
  match s with
  | String c s' => String (f c) (map_string f s')
  | EmptyString => EmptyString
  end.

Definition lower : string -> string := map_string lower_ascii.
Definition upper : string -> string := map_string upper_ascii.

(** [startswith p s] is [s.startswith(p)]. *)
Fixpoint startswith (p s : string) : bool :=
  match p, s with
  | EmptyString, _ => true
  | String a p', String b s' => if Ascii.eqb a b then startswith p' s' else false
  | String _ _, EmptyString => false
  end.

(** [contains sub s] is [sub in s]. *)
Fixpoint contains (sub s : string) : bool :=
  startswith sub s ||
  match s with
  | String _ s' => contains sub s'
  | EmptyString => false
  end.

(** [take_string n s] is [s[:n]]. *)
Fixpoint take_string (n : nat) (s : string) : string :=
  match n, s with
  | S n', String c s' => String c (take_string n' s')
  | _, _ => EmptyString
  end.

(** ** The coordinate converter *)

(** [round(x, 1)] on a float: the nearest multiple of one tenth, a tie going
    to the even tenth. *)
Definition round_half_even (x : Q) : Z :=
  let n := Qfloor x in
  let r := (x - inject_Z n)%Q in
  match (r ?= 1 # 2)%Q with
  | Lt => n
  | Gt => n + 1
  | Eq => if Z.even n then n else n + 1
  end.

Definition round1 (x : Q) : Q := Qred (inject_Z (round_half_even (x * 10)) / 10).

(** [int(x)] on a finite float: truncation towards zero. *)
Definition trunc (x : Q) : Z := Z.quot (Qnum x) (Z.pos (Qden x)).

(** [decimal >= 0]; comparing text, a date or a time with an int raises. *)
Definition ge_zero (v : pyval) : result bool :=
  match v with
  | VInt z => Ok (0 <=? z)
  | VFloat q => Ok (Qle_bool 0 q)
  | VInf negative => Ok (negb negative)
  | VNaN => Ok false
  | VNone | VStr _ | VDate _ | VTime _ | VTimestamp _ => Raise TypeError
  end.

Definition convert_decimal_to_dms (decimal : pyval) (is_latitude : bool)
  : result (pyval * pyval * pyval) :=
  if isna decimal then Ok (VNone, VNone, VNone) else
  nonneg <-- ge_zero decimal ;;
  let direction :=
    if nonneg && is_latitude then "N"
    else if is_latitude then "S"
    else if nonneg then "E" else "W" in
  match decimal with
  | VInt z =>
      let decimal := Z.abs z in
      let degrees := decimal in
      (* round((decimal - degrees) * 60, 1) on ints stays an int *)
      Ok (VInt degrees, VInt ((decimal - degrees) * 60), VStr direction)
  | VFloat q =>
      let decimal := Qabs q in
      let degrees := trunc decimal in
      let minutes := round1 ((decimal - inject_Z degrees) * 60) in
      Ok (VInt degrees, VFloat minutes, VStr direction)
  | VInf _ => Raise OverflowError        (* int(inf) *)
  | _ => Raise TypeError
  end.

(** ** Printing cells: [str(x)] *)

Definition str_of_Z (z : Z) : string := NilZero.string_of_int (Z.to_int z).

(** [zfill n s] pads [s] with zeros on the left up to [n] characters. *)
Definition zfill (n : nat) (s : string) : string :=
  String.concat "" (repeat "0" (n - String.length s)) ++ s.

Definition isoformat_date (d : date) : string :=
  zfill 4 (str_of_Z (year d)) ++ "-" ++ zfill 2 (str_of_Z (month d))
  ++ "-" ++ zfill 2 (str_of_Z (day d)).

Definition isoformat_time (t : time) : string :=
  zfill 2 (str_of_Z (hour t)) ++ ":" ++ zfill 2 (str_of_Z (minute t))
  ++ ":" ++ zfill 2 (str_of_Z (second t)).

(** A float as a parser returns it. *)
Inductive pyfloat :=
| FFin (q : Q)
| FInf (negative : bool)
| FNaN.

Definition of_float (f : pyfloat) : pyval :=
  match f with
  | FFin q => VFloat (Qred q)
  | FInf negative => VInf negative
  | FNaN => VNaN
  end.

(** ** Library functions the program calls

    The parsers and printers of the Python and pandas libraries are not
    part of the program; the model takes them as a record of functions.
    - [strptime text fmt] is [datetime.datetime.strptime(text, fmt)],
      [None] standing for its [ValueError];
    - [to_datetime dayfirst v] is [pd.to_datetime(v, errors='coerce',
      dayfirst=dayfirst)] on one cell, [Ok None] standing for [NaT];
    - [timestamp_ok dt] tells whether pandas can hold the instant [dt] in a
      [Timestamp];
    - [float_repr q] is [str(x)] on a finite float;
    - [float_of_text s] is [float(s)], [None] standing for its
      [ValueError]. *)
Record pylib := PyLib {
  strptime : string -> string -> option datetime;
  to_datetime : bool -> pyval -> result (option datetime);
  timestamp_ok : datetime -> bool;
  float_repr : Q -> string;
  float_of_text : string -> option pyfloat
}.

Definition py_str (lib : pylib) (v : pyval) : string :=
  match v with
  | VNone => "None"
  | VNaN => "nan"
  | VInt z => str_of_Z z
  | VFloat q => float_repr lib q
  | VInf negative => if negative then "-inf" else "inf"
  | VStr s => s
  | VDate d => isoformat_date d
  | VTime t => isoformat_time t
  | VTimestamp dt =>
      isoformat_date (dt_date dt) ++ " " ++ isoformat_time (dt_time dt)
  end.

(** ** Calendar arithmetic of [datetime] *)

Definition is_leap (y : Z) : bool :=
  (y mod 4 =? 0) && (negb (y mod 100 =? 0) || (y mod 400 =? 0)).

Definition days_before_year (y : Z) : Z :=
  let y := y - 1 in y * 365 + y / 4 - y / 100 + y / 400.

Definition DAYS_IN_MONTH (m : Z) : Z :=
  match m with
  | 1 => 31 | 2 => 28 | 3 => 31 | 4 => 30 | 5 => 31 | 6 => 30
  | 7 => 31 | 8 => 31 | 9 => 30 | 10 => 31 | 11 => 30 | 12 => 31
  | _ => -1
  end.

Definition DAYS_BEFORE_MONTH (m : Z) : Z :=
  match m with
  | 1 => 0 | 2 => 31 | 3 => 59 | 4 => 90 | 5 => 120 | 6 => 151
  | 7 => 181 | 8 => 212 | 9 => 243 | 10 => 273 | 11 => 304 | 12 => 334
  | _ => -1
  end.

Definition days_before_month (y m : Z) : Z :=
  DAYS_BEFORE_MONTH m + (if (2 <? m) && is_leap y then 1 else 0).

(** [date.toordinal()]: 1 for 1 January of year 1. *)
Definition toordinal (d : date) : Z :=
  days_before_year (year d) + days_before_month (year d) (month d) + day d.

(** [date.fromordinal(n)]. *)
Definition fromordinal (n : Z) : date :=
  let n := n - 1 in
  let n400 := n / 146097 in
  let n := n mod 146097 in
  let n100 := n / 36524 in
  let n := n mod 36524 in
  let n4 := n / 1461 in
  let n := n mod 1461 in
  let n1 := n / 365 in
  let n := n mod 365 in
  let y := n400 * 400 + 1 + n100 * 100 + n4 * 4 + n1 in
  if (n1 =? 4) || (n100 =? 4) then Date (y - 1) 12 31 else
  let leapyear := (n1 =? 3) && (negb (n4 =? 24) || (n100 =? 3)) in
  let m := (n + 50) / 32 in
  let preceding :=
    DAYS_BEFORE_MONTH m + (if (2 <? m) && leapyear then 1 else 0) in
  if n <? preceding then
    let m := m - 1 in
    let preceding :=
      preceding - (DAYS_IN_MONTH m + (if (m =? 2) && leapyear then 1 else 0)) in
    Date y m (n - preceding + 1)
  else Date y m (n - preceding + 1).

Definition MAXORDINAL : Z := 3652059.   (* date(9999, 12, 31).toordinal() *)

Definition seconds_of_time (t : time) : Z :=
  hour t * 3600 + minute t * 60 + second t.

Definition time_of_seconds (s : Z) : time :=
  Time (s / 3600) ((s mod 3600) / 60) (s mod 60).

(** Seconds elapsed since the midnight before 1 January of year 1. *)
Definition seconds_of (dt : datetime) : Z :=
  toordinal (dt_date dt) * 86400 + seconds_of_time (dt_time dt).

(** The day and the second of the day that lie [n] hours before [dt]. *)
Definition hours_before (dt : datetime) (n : Z) : datetime :=
  let total := seconds_of dt - n * 3600 in
  DateTime (fromordinal (total / 86400)) (time_of_seconds (total mod 86400)).

(** [pd.to_timedelta(offset, unit='h')]: the span must fit the 64-bit
    nanosecond counter of a [Timedelta]. *)
Definition MAX_TIMEDELTA_HOURS : Z := 2562047.

Definition to_timedelta_hours (offset : Z) : result Z :=
  if (- MAX_TIMEDELTA_HOURS <=? offset) && (offset <=? MAX_TIMEDELTA_HOURS)
  then Ok offset else Raise OutOfBounds.

(** What the parsing stage of [adjust_to_utc] leaves in [report_to_dt]: a
    [datetime.datetime] from [strptime] or a [Timestamp] from pandas. *)
Inductive stamp :=
| PyDatetime (dt : datetime)
| PdTimestamp (dt : datetime).

Definition stamp_value (st : stamp) : datetime :=
  match st with PyDatetime dt | PdTimestamp dt => dt end.

(** Whether [report_to_dt - delta] can be held: a [datetime] must stay
    within the years 1 to 9999, a [Timestamp] within what pandas can hold. *)
Definition representable (lib : pylib) (st : stamp) (hours : Z) : bool :=
  let days := (seconds_of (stamp_value st) - hours * 3600) / 86400 in
  match st with
  | PyDatetime _ => (0 <? days) && (days <=? MAXORDINAL)
  | PdTimestamp _ => timestamp_ok lib (hours_before (stamp_value st) hours)
  end.

(** [report_to_dt - delta], of the class of [report_to_dt]. *)
Definition stamp_sub (lib : pylib) (st : stamp) (hours : Z) : result stamp :=
  let r := hours_before (stamp_value st) hours in
  if representable lib st hours then
    Ok (match st with
        | PyDatetime _ => PyDatetime r
        | PdTimestamp _ => PdTimestamp r
        end)
  else
    Raise (match st with
           | PyDatetime _ => OverflowError
           | PdTimestamp _ => OutOfBounds
           end).

(** ** The timezone normalizer *)

Definition is_digit (c : ascii) : bool :=
  let n := nat_of_ascii c in (48 <=? n)%nat && (n <=? 57)%nat.

(** The longest run of digits at the head of [s], read as a number with
    [acc] as the digits seen so far; [None] when [s] starts with no digit. *)
Fixpoint read_digits (s : string) (acc : option Z) : option Z :=
  match s with
  | String c s' =>
      if is_digit c then
        read_digits s'
          (Some (match acc with Some a => a | None => 0 end * 10
                 + Z.of_nat (nat_of_ascii c - 48)))
      else acc
  | EmptyString => acc
  end.

Fixpoint drop_string (n : nat) (s : string) : string :=
  match n, s with
  | S n', String _ s' => drop_string n' s'
  | _, _ => s
  end.

(** The pattern [TVA/GMT([+-]\d+)] anchored at the head of [s]; the value is
    [int(match.group(1))]. *)
Definition match_offset_at (s : string) : option Z :=
  if startswith "TVA/GMT" s then
    match drop_string 7 s with
    | String c rest =>
        if Ascii.eqb c "+" then read_digits rest None
        else if Ascii.eqb c "-" then Z.opp <$> read_digits rest None
        else None
    | EmptyString => None
    end
  else None.

(** [re.search(r'TVA/GMT([+-]\d+)', s)]: the leftmost match. *)
Fixpoint search_offset (s : string) : option Z :=
  match match_offset_at s with
  | Some z => Some z
  | None =>
      match s with
      | String _ s' => search_offset s'
      | EmptyString => None
      end
  end.

(** [bool(x)]. *)
Definition truthy (v : pyval) : bool :=
  match v with
  | VNone => false
  | VStr s => negb (s =? "")%string
  | VInt z => negb (z =? 0)
  | VFloat q => negb (Qeq_bool q 0)
  | VNaN | VInf _ | VDate _ | VTime _ | VTimestamp _ => true
  end.

(** Only text has a [strip] method. *)
Definition as_text (v : pyval) : result string :=
  match v with
  | VStr s => Ok s
  | _ => Raise AttributeError
  end.

Definition formats : list string :=
  ["%d/%m/%Y %H:%M"; "%m/%d/%Y %H:%M"; "%Y-%m-%d %H:%M"].

(** The [for fmt in formats] loop: the first layout that parses wins. *)
Fixpoint try_formats (lib : pylib) (text : string) (fmts : list string)
  : option datetime :=
  match fmts with
  | [] => None
  | fmt :: fmts' =>
      match strptime lib text fmt with
      | Some dt => Some dt
      | None => try_formats lib text fmts'
      end
  end.

(** Lines 57 to 69: the stamp left in [report_to_dt], [None] for [NaT]. *)
Definition parse_report_to (lib : pylib) (report_to : pyval)
  : result (option stamp) :=
  match try_formats lib (py_str lib report_to) formats with
  | Some dt => Ok (Some (PyDatetime dt))
  | None =>
      r <-- to_datetime lib true report_to ;;
      Ok (PdTimestamp <$> r)
  end.

(** The body of the [try] block. *)
Definition adjust_to_utc_try (lib : pylib) (report_to timezone : pyval)
  : result (pyval * pyval) :=
  report_to_dt <-- parse_report_to lib report_to ;;
  match report_to_dt with
  | None => Ok (VNone, VNone)
  | Some st =>
      if negb (truthy timezone) then Ok (VNone, VNone) else
      tz <-- as_text timezone ;;
      if (upper (strip tz) =? "UTC")%string then
        Ok (VTime (dt_time (stamp_value st)), VDate (dt_date (stamp_value st)))
      else
        match search_offset tz with
        | Some offset =>
            delta <-- to_timedelta_hours offset ;;
            adjusted_time <-- stamp_sub lib st delta ;;
            Ok (VTime (dt_time (stamp_value adjusted_time)),
                VDate (dt_date (stamp_value adjusted_time)))
        | None => Ok (VNone, VNone)
        end
  end.

(** [adjust_to_utc]: [except Exception] turns every exception of the body
    into [(None, None)]. The pair is (time, date). *)
Definition adjust_to_utc (lib : pylib) (report_to timezone : pyval)
  : pyval * pyval :=
  match adjust_to_utc_try lib report_to timezone with
  | Ok r => r
  | Raise _ => (VNone, VNone)
  end.

(** ** Arithmetic on cells *)

Definition as_float (v : pyval) : option pyfloat :=
  match v with
  | VInt z => Some (FFin (inject_Z z))
  | VFloat q => Some (FFin q)
  | VInf negative => Some (FInf negative)
  | VNaN => Some FNaN
  | _ => None
  end.

Definition float_add (a b : pyfloat) : pyfloat :=
  match a, b with
  | FFin x, FFin y => FFin (x + y)
  | FNaN, _ | _, FNaN => FNaN
  | FInf s, FFin _ | FFin _, FInf s => FInf s
  | FInf s, FInf s' => if Bool.eqb s s' then FInf s else FNaN
  end.

(** [a + b] on two Python objects. *)
Definition py_add (a b : pyval) : result pyval :=
  match a, b with
  | VInt x, VInt y => Ok (VInt (x + y))
  | VStr x, VStr y => Ok (VStr (x ++ y))
  | _, _ =>
      match as_float a, as_float b with
      | Some x, Some y => Ok (of_float (float_add x y))
      | _, _ => Raise TypeError
      end
  end.

(** One position of [left + right] on two pandas columns: a missing
    operand gives a missing result, without evaluating the sum. *)
Definition series_add (a b : pyval) : result pyval :=
  if isna a || isna b then Ok VNaN else py_add a b.

(** One cell of [Series.astype(float)]. *)
Definition astype_float (lib : pylib) (v : pyval) : result pyval :=
  match v with
  | VNone | VNaN => Ok VNaN
  | VInt z => Ok (VFloat (inject_Z z))
  | VFloat q => Ok (VFloat q)
  | VInf negative => Ok (VInf negative)
  | VStr s =>
      match float_of_text lib s with
      | Some f => Ok (of_float f)
      | None => Raise ValueError
      end
  | VDate _ | VTime _ | VTimestamp _ => Raise TypeError
  end.

(** One cell of [Series.fillna(x)]. *)
Definition fillna (x v : pyval) : pyval := if isna v then x else v.

(** ** Tables

    A [DataFrame] is its number of rows and its columns by name; every
    column of a well-formed frame has [nrows] cells. The order of the
    columns is not modelled. *)
Record frame := Frame {
  nrows : nat;
  cols : gmap string (list pyval)
}.

Definition wf_frame (df : frame) : Prop :=
  map_Forall (fun _ (c : list pyval) => length c = nrows df) (cols df).

(** [col in df]. *)
Definition has_col (df : frame) (col : string) : bool :=
  bool_decide (is_Some (cols df !! col)).

(** [df[col]]. *)
Definition get_col (df : frame) (col : string) : result (list pyval) :=
  match cols df !! col with
  | Some c => Ok c
  | None => Raise KeyError
  end.

(** [df[col] = c]. *)
Definition set_col (df : frame) (col : string) (c : list pyval) : frame :=
  Frame (nrows df) (<[col := c]> (cols df)).

(** [df[col] = x] with a scalar [x]. *)
Definition set_scalar (df : frame) (col : string) (x : pyval) : frame :=
  set_col df col (replicate (nrows df) x).

(** A [for] loop whose body can raise. *)
Fixpoint for_each {A S} (body : S -> A -> result S) (l : list A) (s : S)
  : result S :=
  match l with
  | [] => Ok s
  | a :: l' => s' <-- body s a ;; for_each body l' s'
  end.

(** ** The fuel consumption aggregator *)

Definition fuel_type_to_ME_column : list (string * string) :=
  [ ("hfo", "ME_Consumption_HFO");
    ("vlsfo2020", "ME_Consumption_HFO");
    ("lfo", "ME_Consumption_LFO");
    ("mgo", "ME_Consumption_MGO");
    ("ulsmgo2020", "ME_Consumption_MGO");
    ("mdo", "ME_Consumption_MDO");
    ("lng", "ME_Consumption_LNG");
    ("lpgp", "ME_Consumption_LPGP");
    ("lpgb", "ME_Consumption_LPGB");
    ("m", "ME_Consumption_M");
    ("e", "ME_Consumption_E") ].

Definition fuel_type_to_AE_column : list (string * string) :=
  [ ("hfo", "AE_Consumption_HFO");
    ("vlsfo2020", "AE_Consumption_HFO");
    ("lfo", "AE_Consumption_LFO");
    ("mgo", "AE_Consumption_MGO");
    ("ulsmgo2020", "ME_Consumption_MGO");
    ("mdo", "AE_Consumption_MDO");
    ("lng", "AE_Consumption_LNG");
    ("lpgp", "AE_Consumption_LPGP");
    ("lpgb", "AE_Consumption_LPGB");
    ("m", "AE_Consumption_M");
    ("e", "AE_Consumption_E") ].

Definition fuel_type_to_Boiler_column : list (string * string) :=
  [ ("hfo", "Boiler_Consumption_HFO");
    ("vlsfo2020", "Boiler_Consumption_HFO");
    ("lfo", "Boiler_Consumption_LFO");
    ("mgo", "Boiler_Consumption_MGO");
    ("ulsmgo2020", "ME_Consumption_MGOO");
    ("mdo", "Boiler_Consumption_MDO");
    ("lng", "Boiler_Consumption_LNG");
    ("lpgp", "Boiler_Consumption_LPGP");
    ("lpgb", "Boiler_Consumption_LPGB");
    ("m", "Boiler_Consumption_M");
    ("e", "Boiler_Consumption_E") ].

(** The body of the three initialisation loops: a target column that is
    missing is created as [0.0], one that exists is cast to float. *)
Definition ensure_float (lib : pylib) (df : frame) (col : string)
  : result frame :=
  match cols df !! col with
  | None => Ok (set_scalar df col (VFloat 0))
  | Some c => c' <-- traverse (astype_float lib) c ;; Ok (set_col df col c')
  end.

(** [df.loc[mask, target] += quantity]: the rows outside the mask keep
    their cell. *)
Fixpoint masked_add (mask : list bool) (target quantity : list pyval)
  : result (list pyval) :=
  match mask, target, quantity with
  | m :: mask', t :: target', q :: quantity' =>
      t' <-- (if m then series_add t q else Ok t) ;;
      rest <-- masked_add mask' target' quantity' ;;
      Ok (t' :: rest)
  | _, _, _ => Ok []
  end.

(** The body of a [for fuel_type, target_col in table.items()] loop. *)
Definition add_fuel (lib : pylib) (type_col quantity_col : string)
  (df : frame) (entry : string * string) : result frame :=
  let '(fuel_type, target_col) := entry in
  types <-- get_col df type_col ;;
  let mask :=
    (fun v => (lower (strip (py_str lib v)) =? fuel_type)%string) <$> types in
  quantity <-- get_col df quantity_col ;;
  target <-- get_col df target_col ;;
  target' <-- masked_add mask target (fillna (VInt 0) <$> quantity) ;;
  Ok (set_col df target_col target').

(** One of the five [if ... in navfleet_data and ... in navfleet_data]
    blocks. *)
Definition map_slot (lib : pylib) (type_col quantity_col : string)
  (table : list (string * string)) (df : frame) : result frame :=
  if has_col df type_col && has_col df quantity_col then
    types <-- get_col df type_col ;;
    let df := set_col df type_col ((fun v => VStr (py_str lib v)) <$> types) in
    for_each (add_fuel lib type_col quantity_col) table df
  else Ok df.

Definition map_fuel_type_consumption (lib : pylib) (navfleet_data : frame)
  : result frame :=
  df <-- for_each (ensure_float lib) (snd <$> fuel_type_to_ME_column)
           navfleet_data ;;
  df <-- for_each (ensure_float lib) (snd <$> fuel_type_to_AE_column) df ;;
  df <-- for_each (ensure_float lib) (snd <$> fuel_type_to_Boiler_column) df ;;
  df <-- map_slot lib "Fuel Type 1" "Fuel Type 1 ME (MT)"
           fuel_type_to_ME_column df ;;
  df <-- map_slot lib "Fuel Type 1" "Fuel Type 1 AE (MT)"
           fuel_type_to_ME_column df ;;
  df <-- map_slot lib "Fuel Type 1" "Fuel Type 1 Aux. Boiler (MT)"
           fuel_type_to_ME_column df ;;
  df <-- map_slot lib "Fuel Type 2" "Fuel Type 2 Total (MT)"
           fuel_type_to_AE_column df ;;
  df <-- map_slot lib "Fuel Type 3" "Fuel Type 3 Total (MT)"
           fuel_type_to_Boiler_column df ;;
  Ok df.

(** ** The event normalizer *)

Definition process_event (lib : pylib) (event_text : pyval) : pyval :=
  if isna event_text then event_text else
  let event_text := strip (py_str lib event_text) in
  if contains "Sea" event_text then VStr "Noon (Position) - Sea passage"
  else if contains "Port" event_text then VStr "Noon (Position) Port"
  else if contains "Arrival" event_text then VStr "Arrival"
  else if contains "Departure" event_text then VStr "Departure"
  else VStr event_text.

(** ** The record transformer *)

(** [Series.shift(1)]. *)
Definition shift1 (c : list pyval) : list pyval :=
  match c with
  | [] => []
  | _ => VNaN :: removelast c
  end.

(** One cell of [pd.to_numeric(col, errors='coerce').fillna(0).astype(int)];
    a cell that is not a number counts as 0, an infinite one cannot be cast
    to int. *)
Definition to_int_coerce (lib : pylib) (v : pyval) : result pyval :=
  let of_pyfloat f :=
    match f with
    | FFin q => Ok (VInt (trunc q))
    | FNaN => Ok (VInt 0)
    | FInf _ => Raise ValueError
    end in
  match v with
  | VInt z => Ok (VInt z)
  | VFloat q => Ok (VInt (trunc q))
  | VInf _ => Raise ValueError
  | VStr s =>
      match float_of_text lib s with
      | Some f => of_pyfloat f
      | None => Ok (VInt 0)
      end
  | VNone | VNaN | VDate _ | VTime _ | VTimestamp _ => Ok (VInt 0)
  end.

(** [transformed[col] = navfleet_data[col]] for every column of
    [navfleet_data] whose name starts with [pre]. *)
Definition copy_prefixed (pre : string) (navfleet_data transformed : frame)
  : frame :=
  Frame (nrows transformed)
    (filter (fun kv => startswith pre kv.1 = true) (cols navfleet_data)
     ∪ cols transformed).

(** One cell of the combined column: [pd.to_datetime] on the text
    [str(date) + ' ' + str(time)]. *)
Definition combine_key (lib : pylib) (d t : pyval) : result pyval :=
  r <-- to_datetime lib false (VStr (py_str lib d ++ " " ++ py_str lib t)) ;;
  Ok (match r with Some dt => VTimestamp dt | None => VNaN end).

(** The rank of a cell of a datetime column; [None] for a missing one. *)
Definition key_rank (v : pyval) : option Z :=
  match v with
  | VTimestamp dt => Some (seconds_of dt)
  | _ => None
  end.

(** The positions of the cells on which [f] is defined, each with the value
    [f] gives. *)
Fixpoint ranked_from {A} (f : pyval -> option A) (i : nat) (items : list pyval)
  : list (nat * A) :=
  match items with
  | [] => []
  | v :: items' =>
      match f v with
      | Some a => (i, a) :: ranked_from f (S i) items'
      | None => ranked_from f (S i) items'
      end
  end.

(** The order of [sort_values]: pandas sorts the positions of the valid
    keys by key and appends the positions of the missing keys
    ([na_position='last']). The order numpy gives to equal keys is not
    specified; the model has the order of a merge sort. *)
Definition rank_le (a b : nat * Z) : Prop := a.2 <= b.2.

#[global] Instance rank_le_dec : RelDecision rank_le.
Proof. intros a b. unfold rank_le. apply Z_le_dec. Defined.

Definition missing_key (v : pyval) : option unit :=
  match key_rank v with
  | Some _ => None
  | None => Some tt
  end.

Definition nargsort (items : list pyval) : list nat :=
  (fst <$> merge_sort rank_le (ranked_from key_rank 0 items))
  ++ (fst <$> ranked_from missing_key 0 items).

(** [col.take(indexer)]. *)
Definition take_rows (indexer : list nat) (c : list pyval) : list pyval :=
  (fun i => default VNaN (c !! i)) <$> indexer.

(** [df.sort_values(by=col).reset_index(drop=True)]. *)
Definition sort_values (df : frame) (by_col : string) : result frame :=
  keys <-- get_col df by_col ;;
  Ok (Frame (nrows df) (take_rows (nargsort keys) <$> cols df)).

(** [df.drop(columns=[col])]. *)
Definition drop_col (df : frame) (col : string) : result frame :=
  if has_col df col then Ok (Frame (nrows df) (delete col (cols df)))
  else Raise KeyError.

Definition dms_part {A} (part : pyval * pyval * pyval -> A) (is_latitude : bool)
  (x : pyval) : result A :=
  r <-- convert_decimal_to_dms x is_latitude ;; Ok (part r).

(** The table built by the [pd.DataFrame({...})] expression. *)
Definition build_transformed (lib : pylib) (navfleet_data : frame)
  : result frame :=
  let col := get_col navfleet_data in
  imo <-- col "IMO No" ;;
  report_to <-- col "Report To" ;;
  timezone <-- col "Timezone" ;;
  let date_utc :=
    zip_with (fun r t => (adjust_to_utc lib r t).2) report_to timezone in
  let time_utc :=
    zip_with (fun r t => (adjust_to_utc lib r t).1) report_to timezone in
  type <-- col "Type" ;;
  let event := process_event lib <$> type in
  report_period <-- col "Report Period" ;;
  distance <-- col "GPS Dist." ;;
  latitude <-- col "Latitude" ;;
  lat_deg <-- traverse (dms_part (fun r => r.1.1) true) latitude ;;
  lat_min <-- traverse (dms_part (fun r => r.1.2) true) latitude ;;
  lat_dir <-- traverse (dms_part (fun r => r.2) true) latitude ;;
  longitude <-- col "Longitude" ;;
  lon_deg <-- traverse (dms_part (fun r => r.1.1) false) longitude ;;
  lon_min <-- traverse (dms_part (fun r => r.1.2) false) longitude ;;
  lon_dir <-- traverse (dms_part (fun r => r.2) false) longitude ;;
  next_port <-- col "Next Port" ;;
  cargo <-- col "Cargo Quantity" ;;
  wind_force <-- col "True Wind Force" ;;
  wind_speed <-- col "WNI Relative Wind Speed" ;;
  wind_dir <-- col "WNI Relative Wind Direction" ;;
  wind_dir <-- traverse (to_int_coerce lib) wind_dir ;;
  sea_swell <-- col "Sea Swell" ;;
  current_speed <-- col "WNI Current Speed" ;;
  current_dir <-- col "WNI Current Direction" ;;
  current_dir <-- traverse (to_int_coerce lib) current_dir ;;
  log_speed <-- col "Log Speed" ;;
  gps_speed <-- col "GPS Speed" ;;
  comments <-- col "Comments" ;;
  Ok (Frame (nrows navfleet_data) (list_to_map [
    ("IMO", imo);
    ("Date_UTC", date_utc);
    ("Time_UTC", time_utc);
    ("Event", event);
    ("Time_Since_Previous_Report", report_period);
    ("Distance", distance);
    ("Latitude_Degree", lat_deg);
    ("Latitude_Minutes", lat_min);
    ("Latitude_North_South", lat_dir);
    ("Longitude_Degree", lon_deg);
    ("Longitude_Minutes", lon_min);
    ("Longitude_East_West", lon_dir);
    ("Voyage_From", shift1 next_port);
    ("Voyage_To", next_port);
    ("Cargo_Mt", cargo);
    ("Time_Elapsed_Sailing", report_period);
    ("Wind_Force_Bft", wind_force);
    ("Wind_Force_Kn", wind_speed);
    ("Wind_Dir_Degree", wind_dir);
    ("Sea_state_Force_Douglas", sea_swell);
    ("Current_Speed", current_speed);
    ("Current_Dir", current_dir);
    ("Speed_Through_Water", log_speed);
    ("Speed_GPS", gps_speed);
    ("Comments", comments) ])).

(** The table as it stands before the chronological sort. *)
Definition transform_unsorted (lib : pylib) (navfleet_data : frame)
  : result frame :=
  transformed <-- build_transformed lib navfleet_data ;;
  navfleet_data <-- map_fuel_type_consumption lib navfleet_data ;;
  let transformed := copy_prefixed "ME_Consumption_" navfleet_data transformed in
  let transformed := copy_prefixed "AE_Consumption_" navfleet_data transformed in
  let transformed :=
    copy_prefixed "Boiler_Consumption_" navfleet_data transformed in
  Ok transformed.

(** The column [DateTime_UTC] of a table. *)
Definition datetime_utc (lib : pylib) (transformed : frame)
  : result (list pyval) :=
  dates <-- get_col transformed "Date_UTC" ;;
  times <-- get_col transformed "Time_UTC" ;;
  traverse (fun dt : pyval * pyval => combine_key lib dt.1 dt.2) (zip dates times).

Definition transform_navfleet_data (lib : pylib) (navfleet_data : frame)
  : result frame :=
  transformed <-- transform_unsorted lib navfleet_data ;;
  keys <-- datetime_utc lib transformed ;;
  let transformed := set_col transformed "DateTime_UTC" keys in
  transformed <-- sort_values transformed "DateTime_UTC" ;;
  drop_col transformed "DateTime_UTC".

(** ** The port code resolver *)

(** The [.str] accessor: pandas raises [AttributeError] on a column whose
    objects are numbers or dates only. pandas decides by the dtype of the
    column, which the model does not keep: a column with text in it, or with
    nothing but missing cells, is accepted here. *)
Definition str_accessor (c : list pyval) : result (list pyval) :=
  if forallb isna c
     || existsb (fun v => match v with VStr _ => true | _ => false end) c
  then Ok c else Raise AttributeError.

(** One cell of a [.str] method: what is not text becomes missing. *)
Definition str_method (f : string -> string) (v : pyval) : pyval :=
  match v with
  | VStr s => VStr (f s)
  | _ => VNaN
  end.

(** [col.str.lower().str.strip()]. *)
Definition str_lower_strip (c : list pyval) : result (list pyval) :=
  c <-- str_accessor c ;;
  c <-- str_accessor (str_method lower <$> c) ;;
  Ok (str_method strip <$> c).

(** [dict(zip(keys, values))] as the list of its pairs; [dict_get] reads
    the pair written last. The keys of this program are text; a missing
    cell is taken to have no entry. *)
Definition dict_get (d : list (pyval * pyval)) (k : pyval) : option pyval :=
  match k with
  | VStr s =>
      snd <$> last (filter (fun kv : pyval * pyval => kv.1 = VStr s) d)
  | _ => None
  end.

(** [column.map(reference_map).fillna(column)]. *)
Definition map_values (column : list pyval) (reference_df : frame)
  (reference_key target_key : string) : result (list pyval) :=
  keys <-- get_col reference_df reference_key ;;
  values <-- get_col reference_df target_key ;;
  let reference_map := zip keys values in
  let mapped :=
    (fun v => default VNaN (dict_get reference_map v)) <$> column in
  Ok (zip_with fillna column mapped).

(** One cell of [pd.to_datetime(col, errors='coerce').dt.date]. *)
Definition to_date (lib : pylib) (v : pyval) : result pyval :=
  r <-- to_datetime lib false v ;;
  Ok (match r with Some dt => VDate (dt_date dt) | None => VNaN end).

(** The body of [for column in ['Voyage_From', 'Voyage_To']]. *)
Definition update_column (reference_data output_data : frame) (column : string)
  : result frame :=
  if has_col output_data column then
    c <-- get_col output_data column ;;
    c <-- str_lower_strip c ;;
    c <-- map_values c reference_data "NameWoDiacritics" "PortCode" ;;
    Ok (set_col output_data column c)
  else Ok output_data.

(** Lines 297 and 298: the names are normalized in place and the column
    [PortCode] is added to the reference table. *)
Definition prepare_reference (reference_data : frame) : result frame :=
  names <-- get_col reference_data "NameWoDiacritics" ;;
  names <-- str_lower_strip names ;;
  let reference_data := set_col reference_data "NameWoDiacritics" names in
  country <-- get_col reference_data "Country" ;;
  location <-- get_col reference_data "Location" ;;
  codes <-- traverse (fun cl : pyval * pyval => series_add cl.1 cl.2)
              (zip country location) ;;
  codes <-- str_accessor codes ;;
  Ok (set_col reference_data "PortCode" (str_method (take_string 5) <$> codes)).

Definition update_voyage_columns (lib : pylib)
  (output_data reference_data : frame) : result frame :=
  reference_data <-- prepare_reference reference_data ;;
  output_data <-- for_each (update_column reference_data)
                    ["Voyage_From"; "Voyage_To"] output_data ;;
  if has_col output_data "Date_UTC" then
    dates <-- get_col output_data "Date_UTC" ;;
    dates <-- traverse (to_date lib) dates ;;
    Ok (set_col output_data "Date_UTC" dates)
  else Ok output_data.


(** ** Dialogs and files

    What the user answers and what the files hold is not part of the
    program; the model takes them as a record:
    - [askopenfilename title] is the path chosen in the file dialog of that
      title, the empty text when the dialog is cancelled;
    - [askstring] is the text typed for the vessel name, [None] when the
      dialog is cancelled;
    - [asksaveasfilename initialfile] is the path chosen in the save dialog
      opened on the name [initialfile], the empty text when it is cancelled;
    - [now] is [datetime.datetime.now().strftime("%Y%m%d_%H%M%S")];
    - [read_csv path encoding] and [read_excel path] are the readers of
      pandas, and [to_excel path df] is [df.to_excel(path, index=False)]. *)
Record world := World {
  askopenfilename : string -> string;
  askstring : option string;
  asksaveasfilename : string -> string;
  now : string;
  read_csv : string -> string -> result frame;
  read_excel : string -> result frame;
  to_excel : string -> frame -> result unit
}.

Definition get_vessel_name (w : world) : result string :=
  let vessel_name :=
    match askstring w with Some s => VStr s | None => VNone end in
  if negb (truthy vessel_name) then Raise ValueError else
  s <-- as_text vessel_name ;; Ok (strip s).

Definition default_encodings : list string :=
  ["utf-8"; "latin1"; "windows-1252"].

(** The [for encoding in encodings] loop of [load_file]: an exception of a
    reader moves on to the next encoding, and so does a file type that is
    neither of the two; the [raise] follows the loop. *)
Fixpoint load_file_loop (w : world) (file_path file_type : string)
  (encodings : list string) : result frame :=
  match encodings with
  | [] => Raise ValueError
  | encoding :: encodings' =>
      let attempt :=
        if (file_type =? "csv")%string
        then Some (read_csv w file_path encoding)
        else if (file_type =? "excel")%string
        then Some (read_excel w file_path)
        else None in
      match attempt with
      | Some (Ok df) => Ok df
      | Some (Raise _) | None =>
          load_file_loop w file_path file_type encodings'
      end
  end.

Definition load_file (w : world) (file_path file_type : string)
  (encodings : option (list string)) : result frame :=
  load_file_loop w file_path file_type (default default_encodings encodings).

(** ** The two commands of the window

    A command is modelled by the trace of what it does to the outside: the
    dialogs it opens, the files it reads and writes, the message boxes it
    shows. [ShowInfo title path] is the box that names the saved file;
    [ShowError title prefix e] is the box whose message is [prefix]
    followed by the text of the exception [e]. *)
Inductive event :=
| AskOpen (title : string)
| ReadFile (file_path file_type : string)
| AskName
| AskSave (initialfile : string)
| Save (path : string) (df : frame)
| ShowInfo (title path : string)
| ShowError (title prefix : string) (e : exn).

(** A computation that leaves a trace and can raise. *)
Definition gui (A : Type) : Type := list event * result A.

Definition gbind {A B} (m : gui A) (k : A -> gui B) : gui B :=
  match m with
  | (t, Ok a) => let '(t', r) := k a in ((t ++ t')%list, r)
  | (t, Raise e) => (t, Raise e)
  end.

Definition emit (e : event) : gui unit := ([e], Ok tt).
Definition lift {A} (r : result A) : gui A := ([], r).

Notation "x <~~ m ;; k" := (gbind m (fun x => k))
  (at level 100, m at next level, right associativity).

(** The [try] block closed by [except Exception as e: showerror(...)]. *)
Definition handled (prefix : string) (body : gui unit) : list event :=
  match body with
  | (t, Ok _) => t
  | (t, Raise e) => (t ++ [ShowError "Error" prefix e])%list
  end.

Definition process_transformation (lib : pylib) (w : world) : list event :=
  handled "Transformation failed: " (
    _ <~~ emit (AskOpen "Select NavFleet CSV File") ;;
    let file_path := askopenfilename w "Select NavFleet CSV File" in
    if (file_path =? "")%string then lift (Raise ValueError) else
    _ <~~ emit (ReadFile file_path "csv") ;;
    navfleet_data <~~ lift (load_file w file_path "csv" None) ;;
    transformed_data <~~ lift (transform_navfleet_data lib navfleet_data) ;;
    _ <~~ emit AskName ;;
    vessel_name <~~ lift (get_vessel_name w) ;;
    let timestamp := now w in
    let default_name :=
      vessel_name ++ "_Step1_Formatting_" ++ timestamp ++ ".xlsx" in
    _ <~~ emit (AskSave default_name) ;;
    let save_path := asksaveasfilename w default_name in
    if (save_path =? "")%string then lift (Ok tt) else
    _ <~~ emit (Save save_path transformed_data) ;;
    _ <~~ lift (to_excel w save_path transformed_data) ;;
    emit (ShowInfo "Success" save_path)).

Definition process_update (lib : pylib) (w : world) : list event :=
  handled "Update failed: " (
    _ <~~ emit (AskOpen "Select Output File to Update") ;;
    let output_file := askopenfilename w "Select Output File to Update" in
    _ <~~ emit (AskOpen "Select PortCode File") ;;
    let update_file := askopenfilename w "Select PortCode File" in
    if (output_file =? "")%string || (update_file =? "")%string
    then lift (Raise ValueError) else
    _ <~~ emit (ReadFile output_file "excel") ;;
    output_data <~~ lift (load_file w output_file "excel" None) ;;
    _ <~~ emit (ReadFile update_file "csv") ;;
    reference_data <~~ lift (load_file w update_file "csv" None) ;;
    updated_data <~~
      lift (update_voyage_columns lib output_data reference_data) ;;
    let timestamp := now w in
    let default_name := "OVD_READY_" ++ timestamp ++ ".xlsx" in
    _ <~~ emit (AskSave default_name) ;;
    let save_path := asksaveasfilename w default_name in
    if (save_path =? "")%string then lift (Ok tt) else
    _ <~~ emit (Save save_path updated_data) ;;
    _ <~~ lift (to_excel w save_path updated_data) ;;
    emit (ShowInfo "Success" save_path)).

(** ** An instance of the library for running the model

    [iso_lib] reads the zero-padded layout [YYYY-MM-DD HH:MM] (with
    [:SS] for [to_datetime]) and nothing else, holds every instant in a
    [Timestamp], and reads a float from a run of digits only. It is enough
    to run the model on the examples below; the theorems hold for every
    [pylib]. *)

Definition digit_value (c : ascii) : option Z :=
  if is_digit c then Some (Z.of_nat (nat_of_ascii c - 48)) else None.

Fixpoint read_fixed (n : nat) (s : string) (acc : Z) : option (Z * string) :=
  match n, s with
  | O, _ => Some (acc, s)
  | S n', String c s' =>
      d ← digit_value c; read_fixed n' s' (acc * 10 + d)
  | S _, EmptyString => None
  end.

Definition expect (c : ascii) (s : string) : option string :=
  match s with
  | String c' s' => if Ascii.eqb c c' then Some s' else None
  | EmptyString => None
  end.

Definition days_in_month (y m : Z) : Z :=
  if (m =? 2) && is_leap y then 29 else DAYS_IN_MONTH m.

Definition valid_datetime (dt : datetime) : bool :=
  let d := dt_date dt in
  let t := dt_time dt in
  (1 <=? year d) && (year d <=? 9999) && (1 <=? month d) && (month d <=? 12)
  && (1 <=? day d) && (day d <=? days_in_month (year d) (month d))
  && (0 <=? hour t) && (hour t <? 24) && (0 <=? minute t) && (minute t <? 60)
  && (0 <=? second t) && (second t <? 60).

Definition parse_iso (with_seconds : bool) (s : string) : option datetime :=
  '(y, s) ← read_fixed 4 s 0;
  s ← expect "-" s;
  '(m, s) ← read_fixed 2 s 0;
  s ← expect "-" s;
  '(d, s) ← read_fixed 2 s 0;
  s ← expect " " s;
  '(hh, s) ← read_fixed 2 s 0;
  s ← expect ":" s;
  '(mm, s) ← read_fixed 2 s 0;
  '(ss, s) ← (if with_seconds
              then s ← expect ":" s; read_fixed 2 s 0
              else Some (0, s));
  let dt := DateTime (Date y m d) (Time hh mm ss) in
  if (s =? "")%string && valid_datetime dt then Some dt else None.

Definition iso_lib : pylib := {|
  strptime text fmt :=
    if (fmt =? "%Y-%m-%d %H:%M")%string then parse_iso false text else None;
  to_datetime _ v :=
    Ok (match v with
        | VStr s => parse_iso true s
        | VTimestamp dt => Some dt
        | VDate d => Some (DateTime d (Time 0 0 0))
        | _ => None
        end);
  timestamp_ok _ := true;
  float_repr q := str_of_Z (Qnum q) ++ "/" ++ str_of_Z (Z.pos (Qden q));
  float_of_text s :=
    match read_digits s None with
    | Some z => if (str_of_Z z =? s)%string then Some (FFin (inject_Z z)) else None
    | None => None
    end
|}.

(** ** Notions used to state the properties *)

(** [sub] occurs in [s]. *)
Definition Substring (sub s : string) : Prop :=
  exists pre post, s = pre ++ sub ++ post.

(** A row whose first fuel slot declares heavy fuel oil, with 10 for the
    main engine, 2 for the auxiliary engine and 3 for the boiler. *)
Definition slot1_row : frame :=
  Frame 1 (list_to_map [
    ("Fuel Type 1", [VStr "hfo"]);
    ("Fuel Type 1 ME (MT)", [VInt 10]);
    ("Fuel Type 1 AE (MT)", [VInt 2]);
    ("Fuel Type 1 Aux. Boiler (MT)", [VInt 3]) ]).

(** A reference table with one port, and an output table whose destination
    is a port the reference does not know. *)
Definition rotterdam_reference : frame :=
  Frame 1 (list_to_map [
    ("NameWoDiacritics", [VStr "Rotterdam"]);
    ("Country", [VStr "NL"]);
    ("Location", [VStr "ROTT"]) ]).

Definition le_havre_output : frame :=
  Frame 2 (list_to_map [
    ("Voyage_From", [VNaN; VStr " ROTTERDAM"]);
    ("Voyage_To", [VStr " ROTTERDAM"; VStr "Le Havre "]) ]).

(** Four reports, out of chronological order, the third with a timestamp
    that does not parse; the first burns 7 of low-sulphur fuel oil in the
    main engine. *)
Definition sample_reports : frame :=
  Frame 4 (list_to_map [
    ("IMO No", [VInt 9; VInt 9; VInt 9; VInt 9]);
    ("Report To", [VStr "2024-03-02 10:00"; VStr "2024-03-01 02:00";
                   VStr "soon"; VStr "2024-03-03 00:00"]);
    ("Timezone", [VStr "UTC"; VStr "TVA/GMT+3"; VStr "UTC"; VStr "TVA/GMT-2"]);
    ("Type", [VStr " At Sea "; VStr "In Port"; VNaN; VStr "Standby"]);
    ("Report Period", [VInt 24; VInt 24; VInt 24; VInt 24]);
    ("GPS Dist.", [VInt 240; VInt 0; VInt 100; VInt 250]);
    ("Latitude", [VFloat (-1275 # 100); VNaN; VInt 3; VFloat (1 # 3)]);
    ("Longitude", [VFloat (1025 # 10); VNaN; VInt (-3); VFloat (-1 # 3)]);
    ("Next Port", [VStr "Rotterdam"; VStr "Oslo"; VStr "Oslo"; VStr "Le Havre"]);
    ("Cargo Quantity", [VInt 500; VInt 500; VInt 500; VInt 0]);
    ("True Wind Force", [VInt 4; VInt 3; VInt 5; VInt 2]);
    ("WNI Relative Wind Speed", [VInt 12; VInt 9; VInt 20; VInt 5]);
    ("WNI Relative Wind Direction", [VInt 90; VStr "n/a"; VFloat (7 # 2); VStr "12"]);
    ("Sea Swell", [VInt 2; VInt 1; VInt 3; VInt 1]);
    ("WNI Current Speed", [VInt 1; VInt 1; VInt 1; VInt 1]);
    ("WNI Current Direction", [VInt 180; VNaN; VInt 10; VInt 20]);
    ("Log Speed", [VInt 12; VInt 0; VInt 11; VInt 13]);
    ("GPS Speed", [VInt 12; VInt 0; VInt 11; VInt 13]);
    ("Comments", [VNaN; VNaN; VNaN; VNaN]);
    ("Fuel Type 1", [VStr "vlsfo2020"; VNaN; VStr "MGO "; VStr "x"]);
    ("Fuel Type 1 ME (MT)", [VInt 7; VInt 1; VInt 2; VInt 3]) ]).

(** A cell of a float column. *)
Definition is_float (v : pyval) : bool :=
  match v with
  | VFloat _ | VNaN | VInf _ => true
  | _ => false
  end.

(** The target columns the three mapping tables name. *)
Definition consumption_columns : list string :=
  (fuel_type_to_ME_column ++ fuel_type_to_AE_column
   ++ fuel_type_to_Boiler_column)%list.*2.

(** The five blocks of the aggregator: the column of the fuel type, the
    column of the quantity and the mapping table each of them uses. *)
Definition fuel_slots : list (string * string * list (string * string)) :=
  [ ("Fuel Type 1", "Fuel Type 1 ME (MT)", fuel_type_to_ME_column);
    ("Fuel Type 1", "Fuel Type 1 AE (MT)", fuel_type_to_ME_column);
    ("Fuel Type 1", "Fuel Type 1 Aux. Boiler (MT)", fuel_type_to_ME_column);
    ("Fuel Type 2", "Fuel Type 2 Total (MT)", fuel_type_to_AE_column);
    ("Fuel Type 3", "Fuel Type 3 Total (MT)", fuel_type_to_Boiler_column) ].

(** The mask of one loop round at row [i]: the fuel type of the row,
    trimmed and lower-cased, is [fuel_type]. *)
Definition declares (lib : pylib) (df : frame) (type_col fuel_type : string)
  (i : nat) : bool :=
  match cols df !! type_col with
  | Some types =>
      match types !! i with
      | Some v => (lower (strip (py_str lib v)) =? fuel_type)%string
      | None => false
      end
  | None => false
  end.

(** Row [i] of the input contributes to the column [target]: one of the
    five blocks runs on the input, and its table sends the fuel type the
    row declares to [target]. *)
Definition feeds (lib : pylib) (df : frame) (target : string) (i : nat)
  : bool :=
  existsb (fun slot : string * string * list (string * string) =>
             has_col df slot.1.1 && has_col df slot.1.2
             && existsb (fun entry : string * string =>
                           (entry.2 =? target)%string
                           && declares lib df slot.1.1 entry.1 i)
                  slot.2)
    fuel_slots.

(** The column [col] of the table a computation returns. *)
Definition column_of (r : result frame) (col : string) : option (list pyval) :=
  match r with
  | Ok df => cols df !! col
  | Raise _ => None
  end.

(** The table the transformer returns on [sample_reports]. *)
Definition sample_output : frame :=
  match transform_navfleet_data iso_lib sample_reports with
  | Ok out => out
  | Raise _ => Frame 0 ∅
  end.

(** The parser of the combined key reads back the date and the time that
    [str] printed. *)
Definition reads_back (lib : pylib) (d : date) (t : time) : Prop :=
  to_datetime lib false (VStr (isoformat_date d ++ " " ++ isoformat_time t))
  = Ok (Some (DateTime d t)).

(** The valid keys of a column grow with the position. *)
Definition chronological (keys : list pyval) : Prop :=
  forall i j a b, (i < j)%nat ->
    keys !! i = Some (VTimestamp a) -> keys !! j = Some (VTimestamp b) ->
    seconds_of a <= seconds_of b.

(** No valid key of a column comes after a missing one. *)
Definition missing_last (keys : list pyval) : Prop :=
  forall i j v w, (i < j)%nat ->
    keys !! i = Some v -> keys !! j = Some w ->
    isna v = true -> isna w = true.

(** The number of characters of [s] that are not white space. *)
Fixpoint ink (s : string) : nat :=
  match s with
  | String c s' => (if is_space c then 0 else 1) + ink s'
  | EmptyString => 0
  end.

(** The number a cell holds, when it holds a finite one. *)
Definition number (v : pyval) : option Q :=
  match v with
  | VInt z => Some (inject_Z z)
  | VFloat q => Some q
  | _ => None
  end.

(** The columns that hold the fuel type of a slot. *)
Definition type_columns : list string :=
  ["Fuel Type 1"; "Fuel Type 2"; "Fuel Type 3"].

(** [c] is a column of [df] and holds floats only. *)
Definition float_column (df : frame) (c : string) : Prop :=
  exists v, cols df !! c = Some v /\ Forall (fun x => is_float x = true) v.

(** What holds of the table while the three initialisation loops run on the
    input [df0]: only target columns change, and a target column the input
    lacks is missing still or holds zeros. *)
Definition init_inv (df0 df : frame) : Prop :=
  nrows df = nrows df0
  /\ wf_frame df
  /\ (forall c, c ∉ consumption_columns -> cols df !! c = cols df0 !! c)
  /\ (forall c, cols df0 !! c = None ->
      cols df !! c = None
      \/ cols df !! c = Some (replicate (nrows df0) (VFloat 0))).

(** What holds of the table while the five blocks run: the columns that
    are neither targets nor fuel types are those of the input, the fuel
    types print as in the input, and every target column holds floats, with
    zero wherever the input had no such column and does not feed the
    cell. *)
Definition fuel_inv (lib : pylib) (df0 df : frame) : Prop :=
  nrows df = nrows df0
  /\ wf_frame df
  /\ (forall c, c ∉ consumption_columns -> c ∉ type_columns ->
      cols df !! c = cols df0 !! c)
  /\ (forall c, c ∈ type_columns ->
      fmap (py_str lib) <$> cols df !! c = fmap (py_str lib) <$> cols df0 !! c)
  /\ (forall c, c ∈ consumption_columns ->
      exists v, cols df !! c = Some v
        /\ Forall (fun x => is_float x = true) v
        /\ (cols df0 !! c = None ->
            forall i, (i < nrows df0)%nat -> feeds lib df0 c i = false ->
            v !! i = Some (VFloat 0))).

(** What the constants of a block satisfy: the columns it reads are not
    target columns, and the targets of its table are. *)
Definition slot_ok (slot : string * string * list (string * string)) : Prop :=
  (slot.1.1 ∈ type_columns)
  /\ (slot.1.2 ∉ consumption_columns) /\ (slot.1.2 ∉ type_columns)
  /\ Forall (fun entry : string * string => entry.2 ∈ consumption_columns)
       slot.2.

(** [s] holds white space only. *)
Definition blank (s : string) : Prop := ink s = 0%nat.

(** The text is empty or starts with a character that is not a digit. *)
Definition no_digit_ahead (rest : string) : Prop :=
  match rest with
  | String c _ => is_digit c = false
  | EmptyString => True
  end.

(** A cell that holds text. *)
Definition is_text (v : pyval) : bool :=
  match v with
  | VStr _ => true
  | _ => false
  end.

(** The columns [update_voyage_columns] can write. *)
Definition resolver_columns : list string :=
  ["Voyage_From"; "Voyage_To"; "Date_UTC"].

(** An output table as it is read back from a file: its dates have become
    timestamps or text, its second destination is a number, and it has no
    column [Voyage_From]. *)
Definition reloaded_output : frame :=
  Frame 2 (list_to_map [
    ("IMO", [VInt 9; VInt 9]);
    ("Date_UTC", [VTimestamp (DateTime (Date 2024 3 2) (Time 10 0 0));
                  VStr "soon"]);
    ("Voyage_To", [VStr "Rotterdam "; VInt 7]) ]).

(** The table the resolver returns on [reloaded_output] with
    [rotterdam_reference]. *)
Definition reloaded_resolved : frame :=
  Frame 2 (list_to_map [
    ("IMO", [VInt 9; VInt 9]);
    ("Date_UTC", [VDate (Date 2024 3 2); VNaN]);
    ("Voyage_To", [VStr "NLROT"; VNaN]) ]).

(** The first value an association list gives to a key. *)
Fixpoint assoc {A} (k : string) (l : list (string * A)) : option A :=
  match l with
  | [] => None
  | (k', a) :: l' => if (k =? k')%string then Some a else assoc k l'
  end.

(** The columns the transformer reads; it raises [KeyError] when one of
    them is missing. *)
Definition required_columns : list string :=
  ["IMO No"; "Report To"; "Timezone"; "Type"; "Report Period"; "GPS Dist.";
   "Latitude"; "Longitude"; "Next Port"; "Cargo Quantity"; "True Wind Force";
   "WNI Relative Wind Speed"; "WNI Relative Wind Direction"; "Sea Swell";
   "WNI Current Speed"; "WNI Current Direction"; "Log Speed"; "GPS Speed";
   "Comments"].

(** The columns of the [pd.DataFrame({...})] expression. *)
Definition output_columns : list string :=
  ["IMO"; "Date_UTC"; "Time_UTC"; "Event"; "Time_Since_Previous_Report";
   "Distance"; "Latitude_Degree"; "Latitude_Minutes"; "Latitude_North_South";
   "Longitude_Degree"; "Longitude_Minutes"; "Longitude_East_West";
   "Voyage_From"; "Voyage_To"; "Cargo_Mt"; "Time_Elapsed_Sailing";
   "Wind_Force_Bft"; "Wind_Force_Kn"; "Wind_Dir_Degree";
   "Sea_state_Force_Douglas"; "Current_Speed"; "Current_Dir";
   "Speed_Through_Water"; "Speed_GPS"; "Comments"].

(** The output columns that are an input column as it is, each with the
    input column it comes from. *)
Definition copied_columns : list (string * string) :=
  [ ("IMO", "IMO No");
    ("Time_Since_Previous_Report", "Report Period");
    ("Distance", "GPS Dist.");
    ("Voyage_To", "Next Port");
    ("Cargo_Mt", "Cargo Quantity");
    ("Time_Elapsed_Sailing", "Report Period");
    ("Wind_Force_Bft", "True Wind Force");
    ("Wind_Force_Kn", "WNI Relative Wind Speed");
    ("Sea_state_Force_Douglas", "Sea Swell");
    ("Current_Speed", "WNI Current Speed");
    ("Speed_Through_Water", "Log Speed");
    ("Speed_GPS", "GPS Speed");
    ("Comments", "Comments") ].

(** The name starts with one of the three prefixes of the copy loops. *)
Definition consumption_named (c : string) : bool :=
  startswith "ME_Consumption_" c || startswith "AE_Consumption_" c
  || startswith "Boiler_Consumption_" c.

(** The input row each output row comes from: the order [sort_values]
    gives to the combined keys of the unsorted table. *)
Definition row_order (lib : pylib) (navfleet_data : frame) : list nat :=
  match (transformed <-- transform_unsorted lib navfleet_data ;;
         datetime_utc lib transformed) with
  | Ok keys => nargsort keys
  | Raise _ => []
  end.

(** The computation returns. *)
Definition returns {A} (r : result A) : Prop := exists a, r = Ok a.

(** A cell the coordinate converter returns on: a finite number or a
    missing value. *)
Definition is_coordinate (v : pyval) : bool :=
  match v with
  | VNone | VNaN | VInt _ | VFloat _ => true
  | VInf _ | VStr _ | VDate _ | VTime _ | VTimestamp _ => false
  end.

(** A cell the cast of a direction returns on: anything but an infinite
    float, and but text that reads as one. *)
Definition is_direction (lib : pylib) (v : pyval) : bool :=
  match v with
  | VInf _ => false
  | VStr s =>
      match float_of_text lib s with
      | Some (FInf _) => false
      | _ => true
      end
  | _ => true
  end.

(** The cell of the column [c] at row [i]. *)
Definition cell (df : frame) (c : string) (i : nat) : option pyval :=
  col ← cols df !! c; col !! i.

(** The table of the block [slot] sends the fuel type that row [i]
    declares to the column [target]. *)
Definition sends (lib : pylib) (df : frame)
  (slot : string * string * list (string * string)) (target : string) (i : nat)
  : bool :=
  existsb (fun entry : string * string =>
             (entry.2 =? target)%string && declares lib df slot.1.1 entry.1 i)
    slot.2.

(** What the block [slot] adds to the cell of [target] at row [i], when it
    adds anything: the quantity of the row, 0 for a missing one. *)
Definition contribution (lib : pylib) (df : frame) (target : string) (i : nat)
  (slot : string * string * list (string * string)) : option pyval :=
  if has_col df slot.1.1 && has_col df slot.1.2 && sends lib df slot target i
  then fillna (VInt 0) <$> cell df slot.1.2 i
  else None.

(** The quantities added to the cell of [target] at row [i], in the order
    of the five blocks. *)
Definition contributions (lib : pylib) (df : frame) (target : string) (i : nat)
  : list pyval :=
  omap (contribution lib df target i) fuel_slots.

(** The value the cell of [target] at row [i] has after the initialisation
    loops: 0.0 in a column the input lacks, the cell of the input cast to
    float otherwise. *)
Definition starts_from (lib : pylib) (df : frame) (target : string) (i : nat)
  (start : pyval) : Prop :=
  match cols df !! target with
  | None => start = VFloat 0
  | Some col => exists x, col !! i = Some x /\ astype_float lib x = Ok start
  end.

(** The column [c] has been through an initialisation loop. *)
Definition cast_done (lib : pylib) (df0 df : frame) (c : string) : Prop :=
  forall i, (i < nrows df0)%nat ->
    exists start,
      starts_from lib df0 c i start
      /\ cell df c i = Some start /\ is_float start = true.

(** What holds of the target cells after the blocks [done]: each is the
    sum, from its starting value, of what these blocks add to it. *)
Definition cells_inv (lib : pylib) (df0 : frame)
  (done : list (string * string * list (string * string))) (df : frame)
  : Prop :=
  forall c i, c ∈ consumption_columns -> (i < nrows df0)%nat ->
    exists start cur,
      starts_from lib df0 c i start
      /\ for_each series_add (omap (contribution lib df0 c i) done) start
         = Ok cur
      /\ cell df c i = Some cur.

(** The table the aggregator returns on [slot1_row]. *)
Definition slot1_aggregated : frame :=
  match map_fuel_type_consumption iso_lib slot1_row with
  | Ok df => df
  | Raise _ => Frame 0 ∅
  end.

(** A cell that holds a number or is missing. *)
Definition is_number_or_missing (v : pyval) : bool :=
  match v with
  | VNone | VNaN | VInt _ | VFloat _ | VInf _ => true
  | VStr _ | VDate _ | VTime _ | VTimestamp _ => false
  end.

(** The columns the five blocks read the quantities from. *)
Definition quantity_columns : list string := fuel_slots.*1.*2.

(** What a computation ends in: a result, or an exception that [E]
    allows. *)
Definition ends_in {A} (E : exn -> Prop) (r : result A) : Prop :=
  match r with
  | Ok _ => True
  | Raise e => E e
  end.

(** A row whose heavy fuel oil column holds text that is not a number. *)
Definition bad_fuel_row : frame :=
  Frame 1 (list_to_map [("ME_Consumption_HFO", [VStr "n/a"])]).

(** A world to run the commands in: the user picks [reports.csv], which
    reads as [sample_reports] in the second encoding only, names the vessel
    with blanks around the name and accepts the proposed file name. *)
Definition sample_world : world := {|
  askopenfilename title :=
    if (title =? "Select NavFleet CSV File")%string then "reports.csv"
    else if (title =? "Select Output File to Update")%string then "step1.xlsx"
    else "ports.csv";
  askstring := Some " Aurora ";
  asksaveasfilename initialfile := initialfile;
  now := "20240301_120000";
  read_csv path encoding :=
    if (path =? "reports.csv")%string && (encoding =? "latin1")%string
    then Ok sample_reports
    else if (path =? "ports.csv")%string then Ok rotterdam_reference
    else Raise ValueError;
  read_excel path :=
    if (path =? "step1.xlsx")%string then Ok reloaded_output
    else Raise ValueError;
  to_excel _ _ := Ok tt
|}.

#[global] Instance rank_le_trans : Transitive rank_le.
Proof. intros a b c. unfold rank_le. lia. Qed.

#[global] Instance rank_le_total : Total rank_le.
Proof. intros a b. unfold rank_le. lia. Qed.

(** ** Tactics *)

(** Opens the first bind of a chain that is known to return, without
    unfolding what follows it. *)
Ltac bind_step H x E :=
  match type of H with
  | rbind ?r _ = Ok _ =>
      destruct r as [x|] eqn:E; cbn [rbind] in H; [| discriminate H]
  end.

Tactic Notation "bind_steps" integer(n) hyp(H) :=
  do n (let x := fresh "x" in let E := fresh "E" in bind_step H x E).

(** Evaluates the month tables at a constant. *)
Ltac eval_tables :=
  repeat match goal with
  | |- context [DAYS_BEFORE_MONTH ?c] =>
      let t := eval vm_compute in (DAYS_BEFORE_MONTH c) in
      change (DAYS_BEFORE_MONTH c) with t
  | |- context [DAYS_IN_MONTH ?c] =>
      let t := eval vm_compute in (DAYS_IN_MONTH c) in
      change (DAYS_IN_MONTH c) with t
  end.

(** Splits on the comparisons of the goal. *)
Ltac split_tests :=
  repeat (match goal with
          | |- context [?x <? ?c] => destruct (Z.ltb_spec x c)
          | |- context [?x =? ?c] => destruct (Z.eqb_spec x c)
          end; cbn [andb orb negb] in *).

(** Runs a command up to its next test. *)
Ltac run_gui := cbn [handled gbind emit lift app].

(** Splits the membership of an event in a trace that is written out. *)
Ltac in_trace H :=
  repeat (apply elem_of_cons in H as [H | H]; [try discriminate H |]);
  try (apply elem_of_nil in H; contradiction).

(** * Properties *)

(** ** Properties of text *)

Lemma append_cons (a : ascii) (p q : string) :
  String a p ++ q = String a (p ++ q).
Proof. reflexivity. Qed.

Lemma append_empty (q : string) : "" ++ q = q.
Proof. reflexivity. Qed.

Lemma startswith_spec (p s : string) :
  startswith p s = true <-> exists post, s = p ++ post.
Proof.
  revert s. induction p as [|a p IH]; intros s; cbn [startswith].
  - split; [intros _; exists s; reflexivity | reflexivity].
  - destruct s as [|b s].
    + split; [discriminate | intros [post H]; discriminate].
    + destruct (Ascii.eqb_spec a b) as [->|Hne].
      * rewrite IH. split; intros [post H]; exists post;
          rewrite append_cons in *; congruence.
      * split; [discriminate |].
        intros [post H]. rewrite append_cons in H. congruence.
Qed.

Lemma contains_spec (sub s : string) :
  contains sub s = true <-> Substring sub s.
Proof.
  unfold Substring. induction s as [|c s IH]; cbn [contains].
  - rewrite orb_false_r, startswith_spec. split.
    + intros [post H]. exists "", post. exact H.
    + intros (pre & post & H). destruct pre as [|c pre].
      * rewrite append_empty in H. eauto.
      * rewrite append_cons in H. discriminate.
  - rewrite orb_true_iff, startswith_spec, IH. split.
    + intros [[post H] | (pre & post & H)].
      * exists "", post. exact H.
      * exists (String c pre), post. rewrite append_cons. congruence.
    + intros (pre & post & H). destruct pre as [|c' pre].
      * left. rewrite append_empty in H. eauto.
      * right. rewrite append_cons in H. exists pre, post. congruence.
Qed.

Lemma contains_false (sub s : string) :
  ~ Substring sub s -> contains sub s = false.
Proof.
  intros H. destruct (contains sub s) eqn:E; [| reflexivity].
  apply contains_spec in E. contradiction.
Qed.

(** ** Properties of the coordinate converter *)

Example dms_1 :
  convert_decimal_to_dms (VFloat (-1275 # 100)) true
  = Ok (VInt 12, VFloat 45, VStr "S").
Proof. reflexivity. Qed.

Example dms_2 :
  convert_decimal_to_dms (VFloat (109999 # 10000)) false
  = Ok (VInt 10, VFloat 60, VStr "E").
Proof. reflexivity. Qed.

Lemma trunc_nonneg (x : Q) : (0 <= x)%Q -> trunc x = Qfloor x.
Proof.
  destruct x as [n d]. unfold trunc, Qfloor, Qle. simpl. intros H.
  apply Z.quot_div_nonneg; lia.
Qed.

Lemma trunc_bounds (x : Q) :
  (0 <= x)%Q -> (inject_Z (trunc x) <= x /\ x < inject_Z (trunc x) + 1)%Q.
Proof.
  intros H. rewrite (trunc_nonneg x H). split.
  - apply Qfloor_le.
  - pose proof (Qlt_floor x) as L. rewrite inject_Z_plus in L. exact L.
Qed.

Lemma round_half_even_close (y : Q) :
  (Qabs (inject_Z (round_half_even y) - y) <= 1 # 2)%Q.
Proof.
  unfold round_half_even.
  pose proof (Qfloor_le y) as L.
  pose proof (Qlt_floor y) as U. rewrite inject_Z_plus in U.
  change (inject_Z 1) with 1%Q in U.
  apply Qabs_Qle_condition.
  destruct (y - inject_Z (Qfloor y) ?= 1 # 2)%Q eqn:C.
  - apply Qeq_alt in C.
    destruct (Z.even (Qfloor y));
      [| rewrite inject_Z_plus; change (inject_Z 1) with 1%Q];
      set (f := inject_Z (Qfloor y)) in *; split; lra.
  - apply Qlt_alt in C. set (f := inject_Z (Qfloor y)) in *. split; lra.
  - apply Qgt_alt in C. rewrite inject_Z_plus.
    change (inject_Z 1) with 1%Q.
    set (f := inject_Z (Qfloor y)) in *. split; lra.
Qed.

Lemma round_half_even_comp (x y : Q) :
  (x == y)%Q -> round_half_even x = round_half_even y.
Proof.
  intros E. unfold round_half_even.
  assert (F : Qfloor x = Qfloor y) by (apply Qfloor_comp; exact E).
  rewrite F.
  assert (C : (x - inject_Z (Qfloor y) ?= 1 # 2)%Q
              = (y - inject_Z (Qfloor y) ?= 1 # 2)%Q).
  { apply Qcompare_comp; [rewrite E |]; reflexivity. }
  rewrite C. reflexivity.
Qed.

Lemma round1_comp (x y : Q) : (x == y)%Q -> round1 x = round1 y.
Proof.
  intros E. unfold round1.
  rewrite (round_half_even_comp (x * 10) (y * 10)) by (rewrite E; reflexivity).
  reflexivity.
Qed.

Lemma round1_tenths (x : Q) :
  (round1 x * 10 == inject_Z (round_half_even (x * 10)))%Q.
Proof. unfold round1. rewrite Qred_correct. field. Qed.

Lemma round1_close (x : Q) : (Qabs (round1 x - x) <= 1 # 20)%Q.
Proof.
  pose proof (round_half_even_close (x * 10)) as H.
  apply Qabs_Qle_condition in H. apply Qabs_Qle_condition.
  pose proof (round1_tenths x) as T. split; lra.
Qed.

(** C3 (the claim as written fails). Text in the place of a coordinate is
    not absent for [pd.isna], so the converter goes on to compare it with 0
    and raises [TypeError]: it does not return the all-absent triple. *)
Lemma C3_text_input_raises :
  convert_decimal_to_dms (VStr "12.5N") true = Raise TypeError
  /\ convert_decimal_to_dms (VStr "12.5N") true <> Ok (VNone, VNone, VNone).
Proof. split; [reflexivity | discriminate]. Qed.

(** C3 (amended). The converter returns the all-absent triple exactly on the
    absent inputs [None] and [NaN]; on a finite number it returns a triple of
    degrees, minutes and hemisphere; an infinite float raises
    [OverflowError] and every other object (text, a date, a time) raises
    [TypeError]. *)
Theorem C3_convert_absent_or_raises (decimal : pyval) (is_latitude : bool) :
  match decimal with
  | VNone | VNaN =>
      convert_decimal_to_dms decimal is_latitude = Ok (VNone, VNone, VNone)
  | VInt _ | VFloat _ =>
      exists degrees minutes direction,
        convert_decimal_to_dms decimal is_latitude
        = Ok (VInt degrees, minutes, VStr direction)
  | VInf _ => convert_decimal_to_dms decimal is_latitude = Raise OverflowError
  | VStr _ | VDate _ | VTime _ | VTimestamp _ =>
      convert_decimal_to_dms decimal is_latitude = Raise TypeError
  end.
Proof.
  destruct decimal; try reflexivity; cbn; eauto.
Qed.



(** ** Calendar arithmetic *)

Lemma year_parts (n400 n100 n4 n1 : Z) :
  0 <= n100 <= 3 -> 0 <= n4 <= 24 -> 0 <= n1 <= 3 ->
  let y := n400 * 400 + 1 + n100 * 100 + n4 * 4 + n1 in
  days_before_year y = n400 * 146097 + n100 * 36524 + n4 * 1461 + n1 * 365
  /\ is_leap y = (n1 =? 3) && (negb (n4 =? 24) || (n100 =? 3)).
Proof.
  intros H100 H4 H1 y. unfold days_before_year, is_leap. subst y.
  split.
  - Z.div_mod_to_equations. lia.
  - destruct (n1 =? 3) eqn:E1, (n4 =? 24) eqn:E4, (n100 =? 3) eqn:E100; cbn;
    repeat match goal with
    | |- context [?a =? ?b] => destruct (Z.eqb_spec a b)
    end; cbn; try reflexivity; exfalso;
    repeat match goal with H : (_ =? _) = _ |- _ => first [apply Z.eqb_eq in H | apply Z.eqb_neq in H] end;
    Z.div_mod_to_equations; lia.
Qed.

Lemma month_cases (m : Z) : 1 <= m <= 12 ->
  m = 1 \/ m = 2 \/ m = 3 \/ m = 4 \/ m = 5 \/ m = 6 \/ m = 7 \/ m = 8
  \/ m = 9 \/ m = 10 \/ m = 11 \/ m = 12.
Proof. lia. Qed.

Lemma toordinal_fromordinal (k : Z) : toordinal (fromordinal k) = k.
Proof.
  unfold fromordinal.
  set (a := k - 1).
  set (n400 := a / 146097). set (r400 := a mod 146097).
  set (n100 := r400 / 36524). set (r100 := r400 mod 36524).
  set (n4 := r100 / 1461). set (r4 := r100 mod 1461).
  set (n1 := r4 / 365). set (n := r4 mod 365).
  assert (B400 : 0 <= r400 < 146097) by (apply Z.mod_pos_bound; lia).
  assert (B100 : 0 <= r100 < 36524) by (apply Z.mod_pos_bound; lia).
  assert (B4 : 0 <= r4 < 1461) by (apply Z.mod_pos_bound; lia).
  assert (Bn : 0 <= n < 365) by (apply Z.mod_pos_bound; lia).
  assert (E400 : a = 146097 * n400 + r400) by (apply Z.div_mod; lia).
  assert (E100 : r400 = 36524 * n100 + r100) by (apply Z.div_mod; lia).
  assert (E4 : r100 = 1461 * n4 + r4) by (apply Z.div_mod; lia).
  assert (E1 : r4 = 365 * n1 + n) by (apply Z.div_mod; lia).
  assert (R100 : 0 <= n100 <= 4) by lia.
  assert (R4 : 0 <= n4 <= 24) by lia.
  assert (R1 : 0 <= n1 <= 4) by lia.
  clearbody n400 r400 n100 r100 n4 r4 n1 n.
  destruct ((n1 =? 4) || (n100 =? 4)) eqn:Early.
  - (* the last day of a leap year *)
    assert (Hcase : (n1 = 4 /\ n = 0 /\ n100 <= 3) \/ (n100 = 4 /\ n4 = 0 /\ n1 = 0 /\ n = 0))
      by (apply orb_true_iff in Early as [E|E]; apply Z.eqb_eq in E; lia).
    unfold toordinal, days_before_month. cbn [year month day DAYS_BEFORE_MONTH].
    destruct Hcase as [(-> & -> & L)|(-> & -> & -> & ->)].
    + replace (n400 * 400 + 1 + n100 * 100 + n4 * 4 + 4 - 1)
        with (n400 * 400 + 1 + n100 * 100 + n4 * 4 + 3) by lia.
      destruct (year_parts n400 n100 n4 3) as [D Lp]; try lia.
      cbn zeta in D, Lp. rewrite D, Lp.
      assert (n4 <> 24 \/ n100 = 3) by lia.
      replace ((2 <? 12) && ((3 =? 3) && (negb (n4 =? 24) || (n100 =? 3)))) with true.
      * lia.
      * symmetry. cbn. destruct (Z.eqb_spec n4 24), (Z.eqb_spec n100 3); cbn; try reflexivity. lia.
    + replace (n400 * 400 + 1 + 4 * 100 + 0 * 4 + 0 - 1)
        with (n400 * 400 + 1 + 3 * 100 + 24 * 4 + 3) by lia.
      destruct (year_parts n400 3 24 3) as [D Lp]; try lia.
      cbn zeta in D, Lp. rewrite D, Lp. cbn. lia.
  - apply orb_false_iff in Early as [Ea Eb].
    apply Z.eqb_neq in Ea, Eb.
    destruct (year_parts n400 n100 n4 n1) as [D Lp]; try lia.
    cbn zeta in D, Lp.
    set (leapyear := (n1 =? 3) && (negb (n4 =? 24) || (n100 =? 3))) in *.
    set (y := n400 * 400 + 1 + n100 * 100 + n4 * 4 + n1) in *.
    set (m := (n + 50) / 32).
    assert (Em : 32 * m <= n + 50 < 32 * m + 32).
    { unfold m. pose proof (Z.div_mod (n + 50) 32 ltac:(lia)).
      pose proof (Z.mod_pos_bound (n + 50) 32 ltac:(lia)). lia. }
    assert (Rm : 1 <= m <= 12) by lia.
    clearbody m.
    assert (Goal1 : forall mm dd, 1 <= mm <= 12 ->
       DAYS_BEFORE_MONTH mm + (if (2 <? mm) && leapyear then 1 else 0) + dd = n + 1 ->
       toordinal (Date y mm dd) = k).
    { intros mm dd Hmm Hdd. unfold toordinal, days_before_month.
      cbn [year month day]. rewrite D, Lp. lia. }
    destruct (month_cases m Rm) as [->|[->|[->|[->|[->|[->|[->|[->|[->|[->|[->| ->]]]]]]]]]]];
      destruct leapyear; eval_tables; split_tests; apply Goal1;
      eval_tables; split_tests; lia.
Qed.

Lemma seconds_of_time_of_seconds (s : Z) :
  0 <= s < 86400 -> seconds_of_time (time_of_seconds s) = s.
Proof.
  intros H. unfold seconds_of_time, time_of_seconds. cbn [hour minute second].
  Z.div_mod_to_equations. lia.
Qed.

(** [hours_before dt n] lies exactly [n] hours before [dt] on the time
    line, whatever midnights are crossed. *)
Lemma seconds_of_hours_before (dt : datetime) (n : Z) :
  seconds_of (hours_before dt n) = seconds_of dt - 3600 * n.
Proof.
  unfold hours_before. set (total := seconds_of dt - n * 3600).
  unfold seconds_of at 1. cbn [dt_date dt_time].
  rewrite toordinal_fromordinal.
  rewrite seconds_of_time_of_seconds by (apply Z.mod_pos_bound; lia).
  pose proof (Z.div_mod total 86400 ltac:(lia)). lia.
Qed.

(** ** Properties of the timezone normalizer *)

Example search_offset_plain : search_offset "TVA/GMT+3" = Some 3.
Proof. reflexivity. Qed.

Example search_offset_inside : search_offset "zone TVA/GMT-11 (x)" = Some (-11).
Proof. reflexivity. Qed.

Example search_offset_no_digit : search_offset "TVA/GMT+" = None.
Proof. reflexivity. Qed.

Example search_offset_lower_case : search_offset "tva/gmt+3" = None.
Proof. reflexivity. Qed.

Lemma ink_lstrip (s : string) : ink (lstrip s) = ink s.
Proof.
  induction s as [|c s IH]; [reflexivity |].
  cbn. destruct (is_space c) eqn:E; [exact IH |]. cbn. rewrite E. reflexivity.
Qed.

Lemma ink_rstrip (s : string) : ink (rstrip s) = ink s.
Proof.
  induction s as [|c s IH]; [reflexivity |].
  cbn. destruct (rstrip s) as [|c' r] eqn:R.
  - cbn in IH. rewrite <- IH. destruct (is_space c) eqn:E; cbn.
    + reflexivity.
    + rewrite E. reflexivity.
  - cbn [ink] in *. rewrite IH. reflexivity.
Qed.

Lemma ink_strip (s : string) : ink (strip s) = ink s.
Proof. unfold strip. rewrite ink_rstrip. apply ink_lstrip. Qed.

Lemma ink_le_length (s : string) : (ink s <= String.length s)%nat.
Proof.
  induction s as [|c s IH]; cbn; [lia |]. destruct (is_space c); lia.
Qed.

Lemma length_map_string (f : ascii -> ascii) (s : string) :
  String.length (map_string f s) = String.length s.
Proof. induction s as [|c s IH]; cbn; congruence. Qed.

Lemma startswith_ink (p s : string) :
  startswith p s = true -> (ink p <= ink s)%nat.
Proof.
  revert s. induction p as [|a p IH]; intros s H; cbn; [lia |].
  destruct s as [|b s]; [discriminate |]. cbn in H.
  destruct (Ascii.eqb_spec a b) as [->|]; [| discriminate].
  specialize (IH s H). cbn. lia.
Qed.

Lemma search_offset_ink (s : string) (n : Z) :
  search_offset s = Some n -> (7 <= ink s)%nat.
Proof.
  induction s as [|c s IH]; intros H.
  - discriminate.
  - cbn [search_offset] in H.
    destruct (match_offset_at (String c s)) as [z|] eqn:M.
    + unfold match_offset_at in M.
      destruct (startswith "TVA/GMT" (String c s)) eqn:P; [| discriminate].
      apply startswith_ink in P. exact P.
    + specialize (IH H). cbn. lia.
Qed.

(** A descriptor in which the search succeeds holds the pattern: the
    letters [TVA/GMT] occur in it, and the offset is read right after an
    occurrence. *)
Lemma search_offset_sound (s : string) (n : Z) :
  search_offset s = Some n ->
  exists pre rest,
    s = pre ++ "TVA/GMT" ++ rest
    /\ match_offset_at ("TVA/GMT" ++ rest) = Some n.
Proof.
  induction s as [|c s IH]; intros H.
  - discriminate.
  - cbn [search_offset] in H.
    destruct (match_offset_at (String c s)) as [z|] eqn:M.
    + injection H as ->. pose proof M as M'. unfold match_offset_at in M'.
      destruct (startswith "TVA/GMT" (String c s)) eqn:P; [| discriminate].
      apply startswith_spec in P as [rest Hrest].
      exists "", rest. rewrite append_empty, <- Hrest. split; [reflexivity | exact M].
    + destruct (IH H) as (pre & rest & Hs & Hm).
      exists (String c pre), rest. rewrite append_cons, <- Hs.
      split; [reflexivity | exact Hm].
Qed.

(** A descriptor that holds the offset pattern is neither empty nor the
    word UTC. *)
Lemma search_offset_not_utc (s : string) (n : Z) :
  search_offset s = Some n ->
  truthy (VStr s) = true /\ (upper (strip s) =? "UTC")%string = false.
Proof.
  intros H. apply search_offset_ink in H. split.
  - destruct s; [cbn in H; lia | reflexivity].
  - destruct (String.eqb_spec (upper (strip s)) "UTC") as [E|]; [| reflexivity].
    exfalso.
    assert (L : String.length (strip s) = 3%nat).
    { unfold upper in E. rewrite <- (length_map_string upper_ascii), E.
      reflexivity. }
    pose proof (ink_le_length (strip s)). rewrite ink_strip in *. lia.
Qed.

(** The result of the normalizer is the pair found by the [try] body, or
    the absent pair when the body raised. *)
Lemma adjust_to_utc_shape (lib : pylib) (report_to timezone : pyval) :
  (exists t d, adjust_to_utc lib report_to timezone = (VTime t, VDate d))
  \/ adjust_to_utc lib report_to timezone = (VNone, VNone).
Proof.
  unfold adjust_to_utc, adjust_to_utc_try.
  destruct (parse_report_to lib report_to) as [[st|]|e]; cbn; auto.
  destruct (truthy timezone); cbn; auto.
  destruct (as_text timezone) as [tz|e]; cbn; auto.
  destruct (upper (strip tz) =? "UTC")%string; [left; eauto |].
  destruct (search_offset tz) as [offset|]; auto.
  destruct (to_timedelta_hours offset) as [delta|e]; cbn; auto.
  destruct (stamp_sub lib st delta) as [adjusted|e]; cbn; [left; eauto | auto].
Qed.

(** C4. The normalizer returns a time together with a date, or the absent
    pair, and nothing else. It returns the absent pair when the timestamp
    does not parse, when parsing raises, when the descriptor is empty (or
    any other false object), when the descriptor is text of neither shape,
    and whenever the body raises. *)
Theorem C4_adjust_to_utc_all_or_nothing
  (lib : pylib) (report_to timezone : pyval) :
  ((exists t d, adjust_to_utc lib report_to timezone = (VTime t, VDate d))
   \/ adjust_to_utc lib report_to timezone = (VNone, VNone))
  /\ (parse_report_to lib report_to = Ok None ->
      adjust_to_utc lib report_to timezone = (VNone, VNone))
  /\ (forall e, parse_report_to lib report_to = Raise e ->
      adjust_to_utc lib report_to timezone = (VNone, VNone))
  /\ (truthy timezone = false ->
      adjust_to_utc lib report_to timezone = (VNone, VNone))
  /\ (forall s, timezone = VStr s -> upper (strip s) <> "UTC" ->
      search_offset s = None ->
      adjust_to_utc lib report_to timezone = (VNone, VNone))
  /\ (forall e, adjust_to_utc_try lib report_to timezone = Raise e ->
      adjust_to_utc lib report_to timezone = (VNone, VNone)).
Proof.
  split; [apply adjust_to_utc_shape |].
  unfold adjust_to_utc, adjust_to_utc_try.
  repeat split.
  - intros ->. reflexivity.
  - intros e ->. reflexivity.
  - intros Hf. destruct (parse_report_to lib report_to) as [[st|]|e]; cbn;
      try reflexivity. rewrite Hf. reflexivity.
  - intros s -> Hutc Hnone.
    destruct (parse_report_to lib report_to) as [[st|]|e]; cbn;
      try reflexivity.
    destruct (negb (s =? "")%string); [| reflexivity]. cbn.
    destruct (String.eqb_spec (upper (strip s)) "UTC") as [E|_];
      [contradiction |].
    rewrite Hnone. reflexivity.
  - intros e ->. reflexivity.
Qed.

Lemma C4_adjust_to_utc_all_or_nothing_witness :
  adjust_to_utc iso_lib (VStr "2024-03-01 02:00") (VStr "GMT+3")
  = (VNone, VNone)
  /\ adjust_to_utc iso_lib (VStr "soon") (VStr "UTC") = (VNone, VNone)
  /\ adjust_to_utc iso_lib (VStr "2024-03-01 02:00") (VStr "") = (VNone, VNone).
Proof.
  split; [| split].
  - destruct (C4_adjust_to_utc_all_or_nothing iso_lib
                (VStr "2024-03-01 02:00") (VStr "GMT+3"))
      as (_ & _ & _ & _ & H & _).
    apply (H "GMT+3"); [reflexivity | discriminate | reflexivity].
  - destruct (C4_adjust_to_utc_all_or_nothing iso_lib (VStr "soon")
                (VStr "UTC")) as (_ & H & _).
    apply H. reflexivity.
  - destruct (C4_adjust_to_utc_all_or_nothing iso_lib
                (VStr "2024-03-01 02:00") (VStr "")) as (_ & _ & _ & H & _).
    apply H. reflexivity.
Defined.

Example midnight_rolls_back :
  adjust_to_utc iso_lib (VStr "2024-03-01 02:00") (VStr "TVA/GMT+3")
  = (VTime (Time 23 0 0), VDate (Date 2024 2 29)).
Proof. reflexivity. Qed.

Example midnight_rolls_forward :
  adjust_to_utc iso_lib (VStr "2023-12-31 23:30") (VStr "TVA/GMT-1")
  = (VTime (Time 0 30 0), VDate (Date 2024 1 1)).
Proof. reflexivity. Qed.




(** ** Properties of the event normalizer *)

Example event_sea :
  process_event iso_lib (VStr "At Sea - noon report")
  = VStr "Noon (Position) - Sea passage".
Proof. reflexivity. Qed.

Example event_arrival :
  process_event iso_lib (VStr "Arrival Pilot Station") = VStr "Arrival".
Proof. reflexivity. Qed.

Example event_standby : process_event iso_lib (VStr "Standby") = VStr "Standby".
Proof. reflexivity. Qed.

Example event_sea_before_port :
  process_event iso_lib (VStr " Seaport Departure ")
  = VStr "Noon (Position) - Sea passage".
Proof. reflexivity. Qed.

(** C9. An absent event is passed through. Otherwise, with [t] the trimmed
    text of the event, the first rule that applies gives the label: [t]
    contains Sea; else Port; else Arrival; else Departure; and when [t]
    contains none of the four it is returned as it is. *)
Theorem C9_process_event_first_match_wins (lib : pylib) (event_text : pyval) :
  (isna event_text = true -> process_event lib event_text = event_text)
  /\ (isna event_text = false ->
      let t := strip (py_str lib event_text) in
      (Substring "Sea" t ->
       process_event lib event_text = VStr "Noon (Position) - Sea passage")
      /\ (~ Substring "Sea" t -> Substring "Port" t ->
          process_event lib event_text = VStr "Noon (Position) Port")
      /\ (~ Substring "Sea" t -> ~ Substring "Port" t -> Substring "Arrival" t ->
          process_event lib event_text = VStr "Arrival")
      /\ (~ Substring "Sea" t -> ~ Substring "Port" t ->
          ~ Substring "Arrival" t -> Substring "Departure" t ->
          process_event lib event_text = VStr "Departure")
      /\ (~ Substring "Sea" t -> ~ Substring "Port" t ->
          ~ Substring "Arrival" t -> ~ Substring "Departure" t ->
          process_event lib event_text = VStr t))
  /\ (forall s, py_str lib (VStr s) = s).
Proof.
  unfold process_event. split; [intros ->; reflexivity |].
  split; [| reflexivity].
  intros ->. cbn zeta.
  repeat split; intros;
    repeat match goal with
    | H : Substring _ _ |- _ => apply contains_spec in H; rewrite H
    | H : ~ Substring _ _ |- _ => apply contains_false in H; rewrite H
    end; reflexivity.
Qed.

Lemma C9_process_event_first_match_wins_witness :
  process_event iso_lib (VStr " Port Arrival ") = VStr "Noon (Position) Port"
  /\ process_event iso_lib (VStr " Standby ") = VStr "Standby"
  /\ process_event iso_lib VNaN = VNaN.
Proof.
  split; [| split].
  - destruct (C9_process_event_first_match_wins iso_lib (VStr " Port Arrival "))
      as (_ & H & _).
    destruct (H eq_refl) as (_ & HPort & _). apply HPort.
    + intros E. apply contains_spec in E. discriminate E.
    + apply contains_spec. reflexivity.
  - destruct (C9_process_event_first_match_wins iso_lib (VStr " Standby "))
      as (_ & H & _).
    destruct (H eq_refl) as (_ & _ & _ & _ & HNone).
    apply HNone; intros E; apply contains_spec in E; discriminate E.
  - destruct (C9_process_event_first_match_wins iso_lib VNaN) as (H & _).
    apply H. reflexivity.
Defined.

(** ** Properties of the fuel consumption aggregator *)

(** C1 (the code departs from the claim). On a row whose first slot
    declares heavy fuel oil with 10 for the main engine, 2 for the auxiliary
    engine and 3 for the boiler, the three quantities are all added into the
    main-engine column: it ends at 15, and the auxiliary-engine and boiler
    columns of that fuel stay at 0. *)
Theorem C1_slot1_quantities_all_reach_main_engine (lib : pylib) :
  column_of (map_fuel_type_consumption lib slot1_row) "ME_Consumption_HFO"
  = Some [VFloat 15]
  /\ column_of (map_fuel_type_consumption lib slot1_row) "AE_Consumption_HFO"
     = Some [VFloat 0]
  /\ column_of (map_fuel_type_consumption lib slot1_row)
       "Boiler_Consumption_HFO"
     = Some [VFloat 0].
Proof. repeat split; vm_compute; reflexivity. Qed.

(** ** Properties of the port code resolver *)

Lemma rbind_Ok {A B} (r : result A) (k : A -> result B) (b : B) :
  rbind r k = Ok b -> exists a, r = Ok a /\ k a = Ok b.
Proof. destruct r as [a|e]; cbn; [eauto | discriminate]. Qed.

Lemma Ok_inj {A} (a b : A) : Ok a = Ok b -> a = b.
Proof. congruence. Qed.

Lemma get_col_Ok (df : frame) (col : string) (c : list pyval) :
  get_col df col = Ok c <-> cols df !! col = Some c.
Proof.
  unfold get_col. destruct (cols df !! col); split; intros H;
    try discriminate; congruence.
Qed.

Lemma has_col_true (df : frame) (col : string) :
  has_col df col = true <-> exists c, cols df !! col = Some c.
Proof.
  unfold has_col. rewrite bool_decide_eq_true. reflexivity.
Qed.

Lemma str_accessor_Ok (c c' : list pyval) : str_accessor c = Ok c' -> c' = c.
Proof.
  unfold str_accessor. destruct (_ || _); [congruence | discriminate].
Qed.

Lemma str_lower_strip_Ok (c c' : list pyval) :
  str_lower_strip c = Ok c' ->
  c' = str_method strip <$> (str_method lower <$> c).
Proof.
  unfold str_lower_strip. intros H.
  bind_step H c1 H1. bind_step H c2 H2.
  apply str_accessor_Ok in H1, H2. subst. congruence.
Qed.

Lemma dict_get_None (d : list (pyval * pyval)) (k : string) :
  dict_get d (VStr k) = None <-> VStr k ∉ d.*1.
Proof.
  unfold dict_get. rewrite fmap_None, last_None. split.
  - intros Hnil Hin. apply list_elem_of_fmap in Hin as ([k' v] & Hk & Hin).
    cbn in Hk. subst k'.
    assert (Hf : (VStr k, v)
                 ∈ filter (fun kv : pyval * pyval => kv.1 = VStr k) d)
      by (apply list_elem_of_filter; split; [reflexivity | exact Hin]).
    rewrite Hnil in Hf. inversion Hf.
  - intros Hnot.
    destruct (filter (fun kv : pyval * pyval => kv.1 = VStr k) d)
      as [|[k' v] l] eqn:F; [reflexivity |].
    exfalso. apply Hnot.
    assert (Hf : (k', v) ∈ filter (fun kv : pyval * pyval => kv.1 = VStr k) d)
      by (rewrite F; left).
    apply list_elem_of_filter in Hf as [Hk Hin]. cbn in Hk. subst k'.
    apply list_elem_of_fmap. exists (VStr k, v). split; [reflexivity | exact Hin].
Qed.

Lemma dict_get_Some (d : list (pyval * pyval)) (k : string) (v : pyval) :
  dict_get d (VStr k) = Some v -> (VStr k, v) ∈ d.
Proof.
  unfold dict_get. intros H. apply fmap_Some in H as ([k' v'] & Hl & ->).
  apply last_Some_elem_of in Hl.
  apply list_elem_of_filter in Hl as [Hk Hin]. cbn in Hk. subst k'. exact Hin.
Qed.

(** What [update_column] does to the table: the column it names is
    replaced, the others stay. *)
Lemma update_column_spec (reference_data output_data out : frame)
  (column : string) :
  update_column reference_data output_data column = Ok out ->
  (forall other, other <> column ->
     cols out !! other = cols output_data !! other)
  /\ (forall c, cols output_data !! column = Some c ->
      exists names codes,
        cols reference_data !! "NameWoDiacritics" = Some names
        /\ cols reference_data !! "PortCode" = Some codes
        /\ cols out !! column
           = Some (zip_with fillna
                     (str_method strip <$> (str_method lower <$> c))
                     ((fun v => default VNaN (dict_get (zip names codes) v))
                      <$> (str_method strip <$> (str_method lower <$> c))))).
Proof.
  unfold update_column. destruct (has_col output_data column) eqn:Hhas.
  - intros H. apply rbind_Ok in H as (c0 & Hc0 & H).
    apply rbind_Ok in H as (c1 & Hc1 & H).
    apply rbind_Ok in H as (c2 & Hc2 & H). apply Ok_inj in H. subst out.
    apply get_col_Ok in Hc0. apply str_lower_strip_Ok in Hc1. subst c1.
    unfold map_values in Hc2.
    apply rbind_Ok in Hc2 as (names & Hnames & Hc2).
    apply rbind_Ok in Hc2 as (codes & Hcodes & Hc2).
    apply Ok_inj in Hc2. subst c2.
    apply get_col_Ok in Hnames, Hcodes. split.
    + intros other Hne. cbn. apply lookup_insert_ne. congruence.
    + intros c Hc. rewrite Hc0 in Hc. apply (inj Some) in Hc. subst c0.
      exists names, codes. repeat split; try assumption.
      cbn. apply lookup_insert_eq.
  - intros H. apply Ok_inj in H. subst out. split; [reflexivity |].
    intros c Hc. exfalso.
    assert (has_col output_data column = true) by (apply has_col_true; eauto).
    congruence.
Qed.

(** The voyage columns of the result are those of the two passes of
    [update_column]; the date pass leaves them alone. *)
Lemma update_voyage_columns_inv (lib : pylib)
  (output_data reference_data out : frame) :
  update_voyage_columns lib output_data reference_data = Ok out ->
  exists ref out1 out2,
    prepare_reference reference_data = Ok ref
    /\ update_column ref output_data "Voyage_From" = Ok out1
    /\ update_column ref out1 "Voyage_To" = Ok out2
    /\ cols out !! "Voyage_From" = cols out2 !! "Voyage_From"
    /\ cols out !! "Voyage_To" = cols out2 !! "Voyage_To".
Proof.
  unfold update_voyage_columns. intros H.
  apply rbind_Ok in H as (ref & Href & H).
  apply rbind_Ok in H as (out2 & Hloop & H).
  cbn [for_each] in Hloop.
  apply rbind_Ok in Hloop as (out1 & Hfrom & Hloop).
  apply rbind_Ok in Hloop as (out2' & Hto & Hloop).
  apply Ok_inj in Hloop. subst out2'.
  exists ref, out1, out2. repeat split; try assumption.
  - destruct (has_col out2 "Date_UTC"); [| congruence].
    apply rbind_Ok in H as (dates & _ & H).
    apply rbind_Ok in H as (dates' & _ & H). apply Ok_inj in H. subst out.
    cbn. apply lookup_insert_ne. discriminate.
  - destruct (has_col out2 "Date_UTC"); [| congruence].
    apply rbind_Ok in H as (dates & _ & H).
    apply rbind_Ok in H as (dates' & _ & H). apply Ok_inj in H. subst out.
    cbn. apply lookup_insert_ne. discriminate.
Qed.

Example resolver_rotterdam :
  column_of (update_voyage_columns iso_lib le_havre_output rotterdam_reference)
    "Voyage_From"
  = Some [VNaN; VStr "NLROT"].
Proof. vm_compute. reflexivity. Qed.

(** C2 (the claim as written fails). The destination [Le Havre ] has no
    entry in the mapping built from the reference table, whose only name is
    [rotterdam], and the resolver does not leave it as it was: the output
    holds the lower-cased, trimmed text [le havre]. *)
Lemma C2_unmatched_port_is_rewritten :
  column_of (prepare_reference rotterdam_reference) "NameWoDiacritics"
  = Some [VStr "rotterdam"]
  /\ column_of (prepare_reference rotterdam_reference) "PortCode"
     = Some [VStr "NLROT"]
  /\ cols le_havre_output !! "Voyage_To"
     = Some [VStr " ROTTERDAM"; VStr "Le Havre "]
  /\ column_of
       (update_voyage_columns iso_lib le_havre_output rotterdam_reference)
       "Voyage_To"
     = Some [VStr "NLROT"; VStr "le havre"]
  /\ VStr "le havre" <> VStr "Le Havre ".
Proof. repeat split; try (vm_compute; reflexivity). discriminate. Qed.

(** C2 (amended). For a text value [s] of [Voyage_From] or [Voyage_To], let
    [key] be [s] lower-cased and trimmed. When [key] is not among the
    normalized reference names the output holds [key] (the normalized text:
    not the original text, and not a missing value). When it is, the output
    holds the [PortCode] of the last reference row of that name, or [key]
    if that row has no code. *)
Theorem C2_port_is_code_or_normalized_text (lib : pylib)
  (output_data reference_data out : frame) (column : string)
  (c : list pyval) (i : nat) (s : string) :
  update_voyage_columns lib output_data reference_data = Ok out ->
  column = "Voyage_From" \/ column = "Voyage_To" ->
  cols output_data !! column = Some c ->
  c !! i = Some (VStr s) ->
  exists ref names codes c',
    prepare_reference reference_data = Ok ref
    /\ cols ref !! "NameWoDiacritics" = Some names
    /\ cols ref !! "PortCode" = Some codes
    /\ cols out !! column = Some c'
    /\ (VStr (strip (lower s)) ∉ (zip names codes).*1 ->
        c' !! i = Some (VStr (strip (lower s))))
    /\ (forall code,
          dict_get (zip names codes) (VStr (strip (lower s))) = Some code ->
          (VStr (strip (lower s)), code) ∈ zip names codes
          /\ c' !! i = Some (if isna code then VStr (strip (lower s)) else code)).
Proof.
  intros Hrun Hcolumn Hc Hi.
  apply update_voyage_columns_inv in Hrun
    as (ref & out1 & out2 & Hprep & Hfrom & Hto & Efrom & Eto).
  apply update_column_spec in Hfrom as [Hfrom_other Hfrom].
  apply update_column_spec in Hto as [Hto_other Hto].
  assert (Hcol : exists names codes,
             cols ref !! "NameWoDiacritics" = Some names
             /\ cols ref !! "PortCode" = Some codes
             /\ cols out !! column
                = Some (zip_with fillna
                          (str_method strip <$> (str_method lower <$> c))
                          ((fun v => default VNaN (dict_get (zip names codes) v))
                           <$> (str_method strip <$> (str_method lower <$> c))))).
  { destruct Hcolumn as [-> | ->].
    - destruct (Hfrom c Hc) as (names & codes & Hn & Hcd & Hout).
      exists names, codes. repeat split; try assumption.
      rewrite Efrom, Hto_other by discriminate. exact Hout.
    - assert (Hc1 : cols out1 !! "Voyage_To" = Some c)
        by (rewrite Hfrom_other by discriminate; exact Hc).
      destruct (Hto c Hc1) as (names & codes & Hn & Hcd & Hout).
      exists names, codes. repeat split; try assumption.
      rewrite Eto. exact Hout. }
  destruct Hcol as (names & codes & Hn & Hcd & Hout).
  exists ref, names, codes. eexists.
  repeat split; try eassumption.
  - intros Hnot. apply dict_get_None in Hnot.
    rewrite lookup_zip_with, !list_lookup_fmap, Hi.
    cbn -[dict_get strip lower]. rewrite Hnot. reflexivity.
  - apply dict_get_Some. assumption.
  - rewrite lookup_zip_with, !list_lookup_fmap, Hi.
    cbn -[dict_get strip lower]. rewrite H. reflexivity.
Qed.

Lemma resolver_le_havre :
  update_voyage_columns iso_lib le_havre_output rotterdam_reference
  = Ok (Frame 2 (list_to_map [
          ("Voyage_From", [VNaN; VStr "NLROT"]);
          ("Voyage_To", [VStr "NLROT"; VStr "le havre"]) ])).
Proof. vm_compute. reflexivity. Qed.

Lemma C2_port_is_code_or_normalized_text_witness :
  exists ref names codes c',
    prepare_reference rotterdam_reference = Ok ref
    /\ cols ref !! "NameWoDiacritics" = Some names
    /\ cols ref !! "PortCode" = Some codes
    /\ cols (Frame 2 (list_to_map [
                ("Voyage_From", [VNaN; VStr "NLROT"]);
                ("Voyage_To", [VStr "NLROT"; VStr "le havre"]) ]))
         !! "Voyage_To" = Some c'
    /\ (VStr (strip (lower "Le Havre ")) ∉ (zip names codes).*1 ->
        c' !! 1%nat = Some (VStr (strip (lower "Le Havre "))))
    /\ (forall code,
          dict_get (zip names codes) (VStr (strip (lower "Le Havre ")))
          = Some code ->
          (VStr (strip (lower "Le Havre ")), code) ∈ zip names codes
          /\ c' !! 1%nat
             = Some (if isna code then VStr (strip (lower "Le Havre "))
                     else code)).
Proof.
  apply (C2_port_is_code_or_normalized_text iso_lib le_havre_output
           rotterdam_reference _ "Voyage_To"
           [VStr " ROTTERDAM"; VStr "Le Havre "] 1 "Le Havre ").
  - exact resolver_le_havre.
  - right. reflexivity.
  - reflexivity.
  - reflexivity.
Defined.

(** ** Properties of the chronological sort *)

Lemma ranked_from_elem {A} (f : pyval -> option A) (i : nat) (items : list pyval) j a :
  (j, a) ∈ ranked_from f i items <->
  exists v, (i <= j)%nat /\ items !! (j - i)%nat = Some v /\ f v = Some a.
Proof.
  revert i. induction items as [|v items IH]; intros i; cbn.
  - split; [intros H; inversion H | intros (v & _ & H & _); discriminate].
  - destruct (f v) as [a'|] eqn:F.
    + rewrite elem_of_cons, IH. split.
      * intros [E | (w & Hle & Hw & Hf)].
        -- injection E as -> ->. exists v. rewrite Nat.sub_diag. auto.
        -- exists w. split; [lia |]. split; [| exact Hf].
           replace (j - i)%nat with (S (j - S i)) by lia. exact Hw.
      * intros (w & Hle & Hw & Hf).
        destruct (decide (j = i)) as [->|Hne].
        -- left. rewrite Nat.sub_diag in Hw. cbn in Hw. congruence.
        -- right. exists w. split; [lia |]. split; [| exact Hf].
           replace (j - i)%nat with (S (j - S i)) in Hw by lia. exact Hw.
    + rewrite IH. split.
      * intros (w & Hle & Hw & Hf). exists w. split; [lia |]. split; [| exact Hf].
        replace (j - i)%nat with (S (j - S i)) by lia. exact Hw.
      * intros (w & Hle & Hw & Hf).
        destruct (decide (j = i)) as [->|Hne].
        -- rewrite Nat.sub_diag in Hw. cbn in Hw. congruence.
        -- exists w. split; [lia |]. split; [| exact Hf].
           replace (j - i)%nat with (S (j - S i)) in Hw by lia. exact Hw.
Qed.

Lemma missing_key_spec (v : pyval) :
  (missing_key v = None <-> exists a, key_rank v = Some a)
  /\ (forall u, missing_key v = Some u -> key_rank v = None).
Proof.
  unfold missing_key. destruct (key_rank v) as [a|]; split; try split;
    intros; try discriminate; eauto.
  destruct H as [a H]. discriminate.
Qed.

Lemma ranked_split (i : nat) (items : list pyval) :
  (fst <$> ranked_from key_rank i items)
  ++ (fst <$> ranked_from missing_key i items)
  ≡ₚ seq i (length items).
Proof.
  revert i. induction items as [|v items IH]; intros i; [reflexivity |].
  cbn [ranked_from length seq]. unfold missing_key at 1.
  destruct (key_rank v) as [a|]; cbn.
  - constructor. apply IH.
  - rewrite <- Permutation_middle. constructor. apply IH.
Qed.

Lemma nargsort_Permutation (items : list pyval) :
  nargsort items ≡ₚ seq 0 (length items).
Proof.
  unfold nargsort. rewrite merge_sort_Permutation. apply ranked_split.
Qed.

Lemma nargsort_length (items : list pyval) :
  length (nargsort items) = length items.
Proof. rewrite nargsort_Permutation. apply length_seq. Qed.

Lemma nargsort_in_range (items : list pyval) (j i : nat) :
  nargsort items !! j = Some i -> (i < length items)%nat.
Proof.
  intros H. apply list_elem_of_lookup_2 in H.
  rewrite nargsort_Permutation in H. apply elem_of_seq in H. lia.
Qed.

Lemma take_rows_length (p : list nat) (c : list pyval) :
  length (take_rows p c) = length p.
Proof. unfold take_rows. apply length_fmap. Qed.

Lemma take_rows_lookup (p : list nat) (c : list pyval) (j i : nat) (v : pyval) :
  p !! j = Some i -> c !! i = Some v -> take_rows p c !! j = Some v.
Proof.
  intros Hp Hc. unfold take_rows. rewrite list_lookup_fmap, Hp. cbn.
  rewrite Hc. reflexivity.
Qed.

Lemma ranks_of_valid (items : list pyval) (L : list (nat * Z)) :
  (forall j a, (j, a) ∈ L -> exists v, items !! j = Some v /\ key_rank v = Some a) ->
  key_rank <$> take_rows (fst <$> L) items = Some <$> (snd <$> L).
Proof.
  induction L as [|[j a] L IH]; intros H; [reflexivity |].
  cbn. destruct (H j a) as (v & Hv & Hk); [left |].
  rewrite Hv. cbn. rewrite Hk. f_equal. apply IH.
  intros j' a' Hin. apply H. right. exact Hin.
Qed.

Lemma ranks_of_missing (items : list pyval) (M : list (nat * unit)) :
  (forall j u, (j, u) ∈ M -> exists v, items !! j = Some v /\ key_rank v = None) ->
  key_rank <$> take_rows (fst <$> M) items = replicate (length M) None.
Proof.
  induction M as [|[j u] M IH]; intros H; [reflexivity |].
  cbn. destruct (H j u) as (v & Hv & Hk); [left |].
  rewrite Hv. cbn. rewrite Hk. f_equal. apply IH.
  intros j' a' Hin. apply (H j' a'). right. exact Hin.
Qed.

(** The keys in the order of [nargsort]: the valid ones in ascending order,
    then the missing ones. *)
Lemma nargsort_ranks (items : list pyval) :
  exists (L : list Z) (k : nat),
    key_rank <$> take_rows (nargsort items) items
    = ((Some <$> L) ++ replicate k None)%list
    /\ StronglySorted Z.le L.
Proof.
  unfold nargsort.
  set (S := merge_sort rank_le (ranked_from key_rank 0 items)).
  set (M := ranked_from missing_key 0 items).
  exists (snd <$> S), (length M). split.
  - unfold take_rows. rewrite !fmap_app. f_equal.
    + apply ranks_of_valid. intros j a Hin. unfold S in Hin.
      rewrite merge_sort_Permutation in Hin.
      apply ranked_from_elem in Hin as (v & _ & Hv & Hk).
      rewrite Nat.sub_0_r in Hv. eauto.
    + apply ranks_of_missing. intros j u Hin.
      apply ranked_from_elem in Hin as (v & _ & Hv & Hk).
      rewrite Nat.sub_0_r in Hv. exists v. split; [exact Hv |].
      eapply missing_key_spec. exact Hk.
  - apply (StronglySorted_fmap snd rank_le Z.le).
    + intros a b H. exact H.
    + apply StronglySorted_merge_sort; apply _.
Qed.


Lemma sorted_lookup_le (L : list Z) (i j : nat) (x y : Z) :
  StronglySorted Z.le L -> (i < j)%nat ->
  L !! i = Some x -> L !! j = Some y -> x <= y.
Proof.
  intros HS. revert i j. induction HS as [|z L HS IH Hall]; intros i j Hij Hi Hj.
  - discriminate.
  - destruct j as [|j]; [lia |]. cbn in Hj. destruct i as [|i].
    + cbn in Hi. injection Hi as ->.
      rewrite Forall_forall in Hall. apply Hall.
      eapply list_elem_of_lookup_2. exact Hj.
    + cbn in Hi. apply (IH i j); [lia | assumption | assumption].
Qed.

Lemma ranks_chronological (keys : list pyval) (L : list Z) (k : nat) :
  key_rank <$> keys = ((Some <$> L) ++ replicate k None)%list ->
  StronglySorted Z.le L ->
  forall i j a b, (i < j)%nat ->
    keys !! i = Some (VTimestamp a) -> keys !! j = Some (VTimestamp b) ->
    seconds_of a <= seconds_of b.
Proof.
  intros Hk HS i j a b Hij Hi Hj.
  assert (Ri : (key_rank <$> keys) !! i = Some (Some (seconds_of a)))
    by (rewrite list_lookup_fmap, Hi; reflexivity).
  assert (Rj : (key_rank <$> keys) !! j = Some (Some (seconds_of b)))
    by (rewrite list_lookup_fmap, Hj; reflexivity).
  rewrite Hk in Ri, Rj.
  assert (Vi : L !! i = Some (seconds_of a)).
  { apply lookup_app_Some in Ri as [Ri | [_ Ri]].
    - rewrite list_lookup_fmap in Ri.
      destruct (L !! i); cbn in Ri; congruence.
    - apply lookup_replicate in Ri as [Ri _]. discriminate. }
  assert (Vj : L !! j = Some (seconds_of b)).
  { apply lookup_app_Some in Rj as [Rj | [_ Rj]].
    - rewrite list_lookup_fmap in Rj.
      destruct (L !! j); cbn in Rj; congruence.
    - apply lookup_replicate in Rj as [Rj _]. discriminate. }
  eapply sorted_lookup_le; eauto.
Qed.

Lemma ranks_missing_last (keys : list pyval) (L : list Z) (k : nat) :
  key_rank <$> keys = ((Some <$> L) ++ replicate k None)%list ->
  forall i j v w, (i < j)%nat ->
    keys !! i = Some v -> keys !! j = Some w ->
    key_rank v = None -> key_rank w = None.
Proof.
  intros Hk i j v w Hij Hi Hj Hv.
  assert (Ri : (key_rank <$> keys) !! i = Some None)
    by (rewrite list_lookup_fmap, Hi; cbn; congruence).
  assert (Rj : (key_rank <$> keys) !! j = Some (key_rank w))
    by (rewrite list_lookup_fmap, Hj; reflexivity).
  rewrite Hk in Ri, Rj.
  apply lookup_app_Some in Ri as [Ri | [Hlen Ri]].
  { rewrite list_lookup_fmap in Ri. destruct (L !! i); cbn in Ri; congruence. }
  apply lookup_app_Some in Rj as [Rj | [_ Rj]].
  { apply lookup_lt_Some in Rj. lia. }
  apply lookup_replicate in Rj as [Rj _]. congruence.
Qed.

Lemma traverse_Ok_lookup {A B} (f : A -> result B) (l : list A) (l' : list B) :
  traverse f l = Ok l' ->
  length l' = length l
  /\ forall i x, l !! i = Some x -> exists y, l' !! i = Some y /\ f x = Ok y.
Proof.
  revert l'. induction l as [|a l IH]; intros l' H; cbn in H.
  - injection H as <-. split; [reflexivity |]. intros i x Hx. discriminate.
  - apply rbind_Ok in H as (b & Hb & H). apply rbind_Ok in H as (bs & Hbs & H).
    injection H as <-. destruct (IH _ Hbs) as [Hlen Hall]. split.
    + cbn. congruence.
    + intros [|i] x Hx; cbn in *.
      * injection Hx as <-. eauto.
      * apply Hall. exact Hx.
Qed.

Lemma traverse_indices {A B} (f : A -> result B) (l : list A) (l' : list B)
  (da : A) (db : B) (p : list nat) :
  traverse f l = Ok l' ->
  (forall i, i ∈ p -> (i < length l)%nat) ->
  traverse f ((fun i => default da (l !! i)) <$> p)
  = Ok ((fun i => default db (l' !! i)) <$> p).
Proof.
  intros H. destruct (traverse_Ok_lookup f l l' H) as [_ Hall].
  induction p as [|i p IH]; intros Hp; [reflexivity |].
  cbn. destruct (lookup_lt_is_Some_2 l i) as [x Hx]; [apply Hp; left |].
  destruct (Hall i x Hx) as (y & Hy & Hf).
  rewrite Hx, Hy. cbn. rewrite Hf. cbn.
  rewrite IH by (intros j Hj; apply Hp; right; exact Hj). reflexivity.
Qed.

Lemma zip_take_rows (p : list nat) (c1 c2 : list pyval) :
  (forall i, i ∈ p -> (i < length (zip c1 c2))%nat) ->
  zip (take_rows p c1) (take_rows p c2)
  = (fun i => default (VNaN, VNaN) (zip c1 c2 !! i)) <$> p.
Proof.
  unfold take_rows.
  induction p as [|i p IH]; intros Hp; [reflexivity |].
  rewrite !fmap_cons. cbn [zip_with].
  rewrite IH by (intros j Hj; apply Hp; right; exact Hj). f_equal.
  destruct (lookup_lt_is_Some_2 (zip_with pair c1 c2) i) as [[x y] Hxy];
    [apply Hp; left |].
  rewrite Hxy. cbn. rewrite lookup_zip_with in Hxy.
  destruct (c1 !! i) as [x'|]; [| discriminate].
  destruct (c2 !! i) as [y'|]; [| discriminate].
  cbn in Hxy. injection Hxy as -> ->. reflexivity.
Qed.

(** The table returned by the transformer is the unsorted table with its
    rows taken in the order [nargsort] gives to the combined keys, and
    without the key column. *)
Lemma transform_inv (lib : pylib) (navfleet_data out : frame) :
  transform_navfleet_data lib navfleet_data = Ok out ->
  exists pre keys,
    transform_unsorted lib navfleet_data = Ok pre
    /\ datetime_utc lib pre = Ok keys
    /\ nrows out = nrows pre
    /\ cols out = take_rows (nargsort keys) <$> delete "DateTime_UTC" (cols pre).
Proof.
  unfold transform_navfleet_data. intros H.
  apply rbind_Ok in H as (pre & Hpre & H).
  apply rbind_Ok in H as (keys & Hkeys & H).
  apply rbind_Ok in H as (sorted & Hsorted & H).
  exists pre, keys. split; [assumption |]. split; [assumption |].
  unfold sort_values in Hsorted.
  apply rbind_Ok in Hsorted as (keys' & Hkeys' & Hsorted).
  injection Hsorted as <-.
  apply get_col_Ok in Hkeys'. cbn in Hkeys'. rewrite lookup_insert_eq in Hkeys'.
  injection Hkeys' as <-.
  unfold drop_col in H. destruct (has_col _ _); [| discriminate].
  injection H as <-. cbn. split; [reflexivity |].
  rewrite <- fmap_delete, delete_insert_eq. reflexivity.
Qed.

(** The combined keys of the returned rows are the combined keys of the
    unsorted rows, in the order of [nargsort]. *)
Lemma datetime_utc_sorted (lib : pylib) (out pre : frame) (keys : list pyval) :
  datetime_utc lib pre = Ok keys ->
  cols out = take_rows (nargsort keys) <$> delete "DateTime_UTC" (cols pre) ->
  datetime_utc lib out = Ok (take_rows (nargsort keys) keys).
Proof.
  intros Hkeys Hout. unfold datetime_utc in *.
  apply rbind_Ok in Hkeys as (a & Ha & Hkeys).
  apply rbind_Ok in Hkeys as (a0 & Ha0 & Hkeys).
  apply get_col_Ok in Ha, Ha0.
  assert (Hd : get_col out "Date_UTC" = Ok (take_rows (nargsort keys) a)).
  { apply get_col_Ok. rewrite Hout, lookup_fmap, lookup_delete_ne, Ha by discriminate.
    reflexivity. }
  assert (Ht : get_col out "Time_UTC" = Ok (take_rows (nargsort keys) a0)).
  { apply get_col_Ok. rewrite Hout, lookup_fmap, lookup_delete_ne, Ha0 by discriminate.
    reflexivity. }
  rewrite Hd, Ht. cbn [rbind].
  destruct (traverse_Ok_lookup _ _ _ Hkeys) as [Hlen _].
  assert (Hp : forall i, i ∈ nargsort keys -> (i < length (zip a a0))%nat).
  { intros i Hi. rewrite nargsort_Permutation in Hi. apply elem_of_seq in Hi.
    lia. }
  rewrite zip_take_rows by exact Hp.
  apply (traverse_indices _ _ _ (VNaN, VNaN) VNaN _ Hkeys Hp).
Qed.

Lemma combine_key_cases (lib : pylib) (d t k : pyval) :
  combine_key lib d t = Ok k -> k = VNaN \/ exists dt, k = VTimestamp dt.
Proof.
  unfold combine_key. intros H. apply rbind_Ok in H as (r & _ & H).
  injection H as <-. destruct r; eauto.
Qed.

Lemma datetime_utc_cases (lib : pylib) (df : frame) (keys : list pyval) :
  datetime_utc lib df = Ok keys ->
  Forall (fun k => k = VNaN \/ exists dt, k = VTimestamp dt) keys.
Proof.
  unfold datetime_utc. intros H.
  apply rbind_Ok in H as (dates & _ & H).
  apply rbind_Ok in H as (times & _ & H).
  destruct (traverse_Ok_lookup _ _ _ H) as [Hlen Hall].
  apply Forall_lookup. intros i k Hk.
  destruct (lookup_lt_is_Some_2 (zip dates times) i) as [[d t] Hdt].
  { rewrite <- Hlen. eapply lookup_lt_Some. exact Hk. }
  destruct (Hall i _ Hdt) as (k' & Hk' & Hc). cbn in Hc.
  rewrite Hk in Hk'. injection Hk' as <-.
  eapply combine_key_cases. exact Hc.
Qed.

Lemma datetime_utc_lookup (lib : pylib) (df : frame)
  (keys dates times : list pyval) (i : nat) (d t : pyval) :
  datetime_utc lib df = Ok keys ->
  cols df !! "Date_UTC" = Some dates -> cols df !! "Time_UTC" = Some times ->
  dates !! i = Some d -> times !! i = Some t ->
  exists k, keys !! i = Some k /\ combine_key lib d t = Ok k.
Proof.
  unfold datetime_utc. intros H Hd Ht Hi Hj.
  apply get_col_Ok in Hd, Ht. rewrite Hd, Ht in H. cbn [rbind] in H.
  destruct (traverse_Ok_lookup _ _ _ H) as [_ Hall].
  apply (Hall i (d, t)). rewrite lookup_zip_with, Hi, Hj. reflexivity.
Qed.

Lemma combine_key_reads_back (lib : pylib) (d : date) (t : time) :
  reads_back lib d t ->
  combine_key lib (VDate d) (VTime t) = Ok (VTimestamp (DateTime d t)).
Proof.
  unfold reads_back, combine_key. cbn [py_str]. intros ->. reflexivity.
Qed.

Lemma combine_key_absent (lib : pylib) :
  to_datetime lib false (VStr "None None") = Ok None ->
  combine_key lib VNone VNone = Ok VNaN.
Proof.
  unfold combine_key. cbn [py_str].
  change ("None" ++ " " ++ "None") with "None None". intros ->. reflexivity.
Qed.

Lemma sample_transformed :
  transform_navfleet_data iso_lib sample_reports = Ok sample_output.
Proof. vm_compute. reflexivity. Qed.

Example sample_reports_sorted :
  cols sample_output !! "Date_UTC"
  = Some [VDate (Date 2024 2 29); VDate (Date 2024 3 2);
          VDate (Date 2024 3 3); VNone]
  /\ cols sample_output !! "Time_UTC"
     = Some [VTime (Time 23 0 0); VTime (Time 10 0 0);
             VTime (Time 2 0 0); VNone]
  /\ cols sample_output !! "Voyage_To"
     = Some [VStr "Oslo"; VStr "Rotterdam"; VStr "Le Havre"; VStr "Oslo"]
  /\ cols sample_output !! "ME_Consumption_HFO"
     = Some [VFloat 0; VFloat 7; VFloat 0; VFloat 0].
Proof. repeat split; vm_compute; reflexivity. Qed.

(** C8. The transformer combines the UTC date and time of each row into
    one key ([datetime_utc]), returns the rows of the unsorted table in an
    order in which the valid keys ascend, and returns no column
    [DateTime_UTC]. Where the parser of the key reads back the date and the
    time of two returned rows, the earlier row holds the earlier instant. *)
Theorem C8_rows_sorted_by_combined_key
  (lib : pylib) (navfleet_data out : frame) :
  transform_navfleet_data lib navfleet_data = Ok out ->
  cols out !! "DateTime_UTC" = None
  /\ (exists pre keys order,
        transform_unsorted lib navfleet_data = Ok pre
        /\ datetime_utc lib pre = Ok keys
        /\ order ≡ₚ seq 0 (length keys)
        /\ (forall col, col <> "DateTime_UTC" ->
              cols out !! col = take_rows order <$> cols pre !! col)
        /\ datetime_utc lib out = Ok (take_rows order keys)
        /\ chronological (take_rows order keys))
  /\ (forall dates times i j d1 t1 d2 t2,
        cols out !! "Date_UTC" = Some dates ->
        cols out !! "Time_UTC" = Some times ->
        (i < j)%nat ->
        dates !! i = Some (VDate d1) -> times !! i = Some (VTime t1) ->
        dates !! j = Some (VDate d2) -> times !! j = Some (VTime t2) ->
        reads_back lib d1 t1 -> reads_back lib d2 t2 ->
        seconds_of (DateTime d1 t1) <= seconds_of (DateTime d2 t2)).
Proof.
  intros H. apply transform_inv in H as (pre & keys & Hpre & Hkeys & Hn & Hout).
  pose proof (datetime_utc_sorted lib out pre keys Hkeys Hout) as Hsorted.
  assert (Hchrono : chronological (take_rows (nargsort keys) keys)).
  { destruct (nargsort_ranks keys) as (L & k & HL & HS).
    exact (ranks_chronological _ L k HL HS). }
  split.
  { rewrite Hout, lookup_fmap, lookup_delete_eq. reflexivity. }
  split.
  { exists pre, keys, (nargsort keys). repeat split; try assumption.
    - apply nargsort_Permutation.
    - intros col Hne.
      rewrite Hout, lookup_fmap, lookup_delete_ne by congruence. reflexivity. }
  intros dates times i j d1 t1 d2 t2 Hd Ht Hij Hdi Hti Hdj Htj R1 R2.
  destruct (datetime_utc_lookup lib out _ dates times i _ _ Hsorted Hd Ht Hdi Hti)
    as (k1 & Hk1 & C1).
  destruct (datetime_utc_lookup lib out _ dates times j _ _ Hsorted Hd Ht Hdj Htj)
    as (k2 & Hk2 & C2).
  rewrite (combine_key_reads_back lib d1 t1 R1) in C1.
  rewrite (combine_key_reads_back lib d2 t2 R2) in C2.
  apply Ok_inj in C1, C2. subst k1 k2.
  exact (Hchrono i j _ _ Hij Hk1 Hk2).
Qed.

Lemma C8_rows_sorted_by_combined_key_witness :
  cols sample_output !! "DateTime_UTC" = None
  /\ (exists keys,
        datetime_utc iso_lib sample_output = Ok keys /\ chronological keys)
  /\ seconds_of (DateTime (Date 2024 2 29) (Time 23 0 0))
     <= seconds_of (DateTime (Date 2024 3 2) (Time 10 0 0)).
Proof.
  destruct (C8_rows_sorted_by_combined_key iso_lib sample_reports sample_output
              sample_transformed)
    as (Hnone & (pre & keys & order & _ & _ & _ & _ & Hkeys & Hchrono) & Hrows).
  split; [exact Hnone |]. split; [eauto |].
  apply (Hrows
           [VDate (Date 2024 2 29); VDate (Date 2024 3 2);
            VDate (Date 2024 3 3); VNone]
           [VTime (Time 23 0 0); VTime (Time 10 0 0);
            VTime (Time 2 0 0); VNone] 0%nat 1%nat);
    first [ vm_compute; reflexivity | lia ].
Defined.



(** ** Properties of the consumption columns *)

Lemma for_each_inv {A S} (P : S -> Prop) (Q : A -> Prop)
  (body : S -> A -> result S) (l : list A) (s s' : S) :
  (forall s a s', P s -> Q a -> body s a = Ok s' -> P s') ->
  Forall Q l -> P s -> for_each body l s = Ok s' -> P s'.
Proof.
  intros Hstep HQ. revert s. induction HQ as [|a l Ha HQ IH]; intros s HP H.
  - cbn in H. injection H as <-. exact HP.
  - cbn in H. apply rbind_Ok in H as (s1 & H1 & H).
    apply (IH s1); [| exact H]. eapply Hstep; eassumption.
Qed.

Lemma astype_float_is_float (lib : pylib) (v v' : pyval) :
  astype_float lib v = Ok v' -> is_float v' = true.
Proof.
  destruct v; cbn; intros H; try discriminate; try (injection H as <-; reflexivity).
  destruct (float_of_text lib s) as [[q| |]|]; try discriminate;
    injection H as <-; reflexivity.
Qed.

Lemma astype_float_id (lib : pylib) (v : pyval) :
  is_float v = true -> astype_float lib v = Ok v.
Proof. destruct v; cbn; intros H; try discriminate; reflexivity. Qed.

Lemma traverse_id {A} (f : A -> result A) (l : list A) :
  Forall (fun a => f a = Ok a) l -> traverse f l = Ok l.
Proof.
  induction 1 as [|a l Ha _ IH]; [reflexivity |].
  cbn. rewrite Ha. cbn. rewrite IH. reflexivity.
Qed.

Lemma traverse_Forall {A B} (f : A -> result B) (P : B -> Prop)
  (l : list A) (l' : list B) :
  (forall a b, f a = Ok b -> P b) -> traverse f l = Ok l' -> Forall P l'.
Proof.
  intros Hf H. destruct (traverse_Ok_lookup f l l' H) as [Hlen Hall].
  apply Forall_lookup. intros i b Hb.
  destruct (lookup_lt_is_Some_2 l i) as [a Ha].
  { rewrite <- Hlen. eapply lookup_lt_Some. exact Hb. }
  destruct (Hall i a Ha) as (b' & Hb' & Hfa). rewrite Hb in Hb'.
  injection Hb' as <-. eapply Hf. exact Hfa.
Qed.

(** What one round of the initialisation loops does. *)
Lemma ensure_float_spec (lib : pylib) (df df' : frame) (col : string) :
  ensure_float lib df col = Ok df' ->
  nrows df' = nrows df
  /\ (forall c, c <> col -> cols df' !! c = cols df !! c)
  /\ float_column df' col
  /\ (cols df !! col = None ->
      cols df' !! col = Some (replicate (nrows df) (VFloat 0)))
  /\ (forall v, cols df !! col = Some v ->
      exists v', cols df' !! col = Some v' /\ length v' = length v
                 /\ (Forall (fun x => is_float x = true) v -> v' = v)).
Proof.
  unfold ensure_float. destruct (cols df !! col) as [v|] eqn:E.
  - intros H. apply rbind_Ok in H as (v' & Hv' & H). injection H as <-.
    split; [reflexivity |]. split.
    { intros c Hne. cbn. apply lookup_insert_ne. congruence. }
    split.
    { exists v'. split; [cbn; apply lookup_insert_eq |].
      eapply traverse_Forall; [| exact Hv']. apply astype_float_is_float. }
    split; [discriminate |].
    intros v0 Hv0. injection Hv0 as <-. exists v'.
    split; [cbn; apply lookup_insert_eq |]. split.
    + apply (traverse_Ok_lookup _ _ _ Hv').
    + intros Hfl. rewrite traverse_id in Hv'; [congruence |].
      eapply Forall_impl; [exact Hfl |]. intros x. apply astype_float_id.
  - intros H. injection H as <-. split; [reflexivity |]. split.
    { intros c Hne. cbn. apply lookup_insert_ne. congruence. }
    split.
    { eexists. split; [cbn; apply lookup_insert_eq |].
      apply Forall_replicate. reflexivity. }
    split; [intros _; cbn; apply lookup_insert_eq | discriminate].
Qed.

Lemma wf_set_col (df : frame) (col : string) (c : list pyval) :
  wf_frame df -> length c = nrows df -> wf_frame (set_col df col c).
Proof.
  intros Hwf Hlen. unfold wf_frame, set_col. cbn.
  apply map_Forall_insert_2; assumption.
Qed.

Lemma ensure_float_init_inv (lib : pylib) (df0 df df' : frame) (col : string) :
  init_inv df0 df -> col ∈ consumption_columns ->
  ensure_float lib df col = Ok df' -> init_inv df0 df'.
Proof.
  intros (Hn & Hwf & Hother & Hzero) Hcol H.
  pose proof (ensure_float_spec lib df df' col H)
    as (Hn' & Hne & [v [Hv Hfl]] & Hnew & Hold).
  split; [congruence |]. split.
  { intros c w Hw. destruct (decide (c = col)) as [->|Hc].
    - destruct (cols df !! col) as [v0|] eqn:E.
      + destruct (Hold v0 eq_refl) as (v' & Hv' & Hlen & _).
        rewrite Hw in Hv'. injection Hv' as <-. rewrite Hlen, Hn'.
        exact (Hwf col v0 E).
      + rewrite (Hnew eq_refl) in Hw. injection Hw as <-.
        rewrite length_replicate. congruence.
    - rewrite Hne in Hw by exact Hc. rewrite Hn'. exact (Hwf c w Hw). }
  split.
  { intros c Hc. rewrite Hne; [apply Hother; exact Hc |]. congruence. }
  intros c Hc0. destruct (decide (c = col)) as [->|Hc].
  - right. destruct (Hzero col Hc0) as [E|E].
    + rewrite (Hnew E). congruence.
    + destruct (Hold _ E) as (v' & Hv' & _ & Hid). rewrite Hv'. f_equal.
      apply Hid. apply Forall_replicate. reflexivity.
  - rewrite Hne by exact Hc. apply Hzero. exact Hc0.
Qed.

Lemma ensure_float_columns (lib : pylib) (l : list string) (df df' : frame) :
  for_each (ensure_float lib) l df = Ok df' ->
  forall c, c ∈ l \/ float_column df c -> float_column df' c.
Proof.
  revert df. induction l as [|col l IH]; intros df H c Hc.
  - cbn in H. injection H as <-. destruct Hc as [Hc|Hc]; [inversion Hc | exact Hc].
  - cbn in H. apply rbind_Ok in H as (df1 & H1 & H).
    apply (IH df1 H).
    pose proof (ensure_float_spec lib df df1 col H1) as (_ & Hne & Hfl & _).
    destruct (decide (c = col)) as [->|Hneq]; [right; exact Hfl |].
    destruct Hc as [Hc|[v [Hv Hf]]].
    + apply elem_of_cons in Hc as [Hc|Hc]; [contradiction | left; exact Hc].
    + right. exists v. rewrite Hne by exact Hneq. split; assumption.
Qed.

Lemma for_each_app {A S} (body : S -> A -> result S) (l1 l2 : list A) (s : S) :
  for_each body (l1 ++ l2) s = (s1 <-- for_each body l1 s ;; for_each body l2 s1).
Proof.
  revert s. induction l1 as [|a l1 IH]; intros s; [reflexivity |].
  cbn. destruct (body s a) as [s1|e]; cbn; [apply IH | reflexivity].
Qed.

Lemma consumption_columns_disjoint :
  Forall (fun c => c ∉ type_columns) consumption_columns.
Proof. compute_done. Qed.

(** The table after the three initialisation loops. *)
Lemma init_fuel_inv (lib : pylib) (df0 df : frame) :
  wf_frame df0 ->
  for_each (ensure_float lib) consumption_columns df0 = Ok df ->
  fuel_inv lib df0 df.
Proof.
  intros Hwf H.
  assert (Hinit : init_inv df0 df).
  { apply (for_each_inv (init_inv df0) (fun c => c ∈ consumption_columns)
             (ensure_float lib) consumption_columns df0 df).
    - intros s a s' HP HQ Hs. eapply ensure_float_init_inv; eassumption.
    - apply Forall_forall. auto.
    - repeat split; auto.
    - exact H. }
  destruct Hinit as (Hn & Hwf' & Hother & Hzero).
  split; [exact Hn |]. split; [exact Hwf' |]. split; [auto |]. split.
  { intros c Hc. rewrite Hother; [reflexivity |].
    intros Hcc. pose proof consumption_columns_disjoint as D.
    rewrite Forall_forall in D. exact (D c Hcc Hc). }
  intros c Hc.
  destruct (ensure_float_columns lib _ _ _ H c (or_introl Hc)) as [v [Hv Hfl]].
  exists v. split; [exact Hv |]. split; [exact Hfl |].
  intros Hc0 i Hi _. destruct (Hzero c Hc0) as [E|E]; [congruence |].
  rewrite Hv in E. injection E as ->. apply lookup_replicate_2. exact Hi.
Qed.

Lemma masked_add_spec (mask : list bool) (target quantity target' : list pyval) :
  masked_add mask target quantity = Ok target' ->
  length mask = length target -> length quantity = length target ->
  length target' = length target
  /\ forall i t, target !! i = Some t ->
     exists (m : bool) (q t' : pyval),
       mask !! i = Some m /\ quantity !! i = Some q /\ target' !! i = Some t'
       /\ (if m then series_add t q = Ok t' else t' = t).
Proof.
  revert target quantity target'.
  induction mask as [|m mask IH]; intros target quantity target' H Hm Hq.
  - destruct target as [|t0 target]; [| discriminate]. cbn in H.
    injection H as <-. split; [reflexivity |]. intros i t Ht. discriminate.
  - destruct target as [|t0 target]; [discriminate |].
    destruct quantity as [|q0 quantity]; [discriminate |].
    cbn in H. apply rbind_Ok in H as (t0' & Ht0' & H).
    apply rbind_Ok in H as (rest & Hrest & H). injection H as <-.
    cbn in Hm, Hq.
    destruct (IH target quantity rest Hrest) as [Hlen Hall]; [lia | lia |].
    split; [cbn; lia |].
    intros [|i] t Ht; cbn in Ht.
    + injection Ht as <-. exists m, q0, t0'. repeat split.
      destruct m; [exact Ht0' | congruence].
    + exact (Hall i t Ht).
Qed.

Lemma of_float_is_float (f : pyfloat) : is_float (of_float f) = true.
Proof. destruct f; reflexivity. Qed.

Lemma series_add_is_float (t q t' : pyval) :
  is_float t = true -> series_add t q = Ok t' -> is_float t' = true.
Proof.
  intros Ht H. unfold series_add in H.
  destruct (isna t || isna q) eqn:E; [injection H as <-; reflexivity |].
  destruct t; try discriminate Ht; try discriminate E;
    destruct q; cbn in H; try discriminate H; injection H as <-;
    first [reflexivity | apply of_float_is_float].
Qed.

Lemma has_col_lookup (df df' : frame) (c : string) :
  is_Some (cols df !! c) <-> is_Some (cols df' !! c) ->
  has_col df c = has_col df' c.
Proof.
  intros H. unfold has_col. apply bool_decide_ext. exact H.
Qed.

Lemma fuel_inv_declares (lib : pylib) (df0 df : frame) (c ft : string) (i : nat) :
  fuel_inv lib df0 df -> c ∈ type_columns ->
  declares lib df c ft i = declares lib df0 c ft i.
Proof.
  intros (_ & _ & _ & Htypes & _) Hc. specialize (Htypes c Hc).
  unfold declares.
  destruct (cols df !! c) as [t|], (cols df0 !! c) as [t0|];
    cbn in Htypes; try discriminate; [| reflexivity].
  injection Htypes as E.
  assert (Ei : (py_str lib <$> t) !! i = (py_str lib <$> t0) !! i) by congruence.
  rewrite !list_lookup_fmap in Ei.
  destruct (t !! i), (t0 !! i); cbn in Ei; try discriminate; [| reflexivity].
  injection Ei as ->. reflexivity.
Qed.

Lemma fuel_inv_has_type_col (lib : pylib) (df0 df : frame) (c : string) :
  fuel_inv lib df0 df -> c ∈ type_columns -> has_col df c = has_col df0 c.
Proof.
  intros (_ & _ & _ & Htypes & _) Hc. specialize (Htypes c Hc).
  apply has_col_lookup.
  destruct (cols df !! c), (cols df0 !! c); cbn in Htypes; try discriminate;
    split; intros [x Hx]; try discriminate; eauto.
Qed.

Lemma fuel_inv_has_other_col (lib : pylib) (df0 df : frame) (c : string) :
  fuel_inv lib df0 df -> c ∉ consumption_columns -> c ∉ type_columns ->
  has_col df c = has_col df0 c.
Proof.
  intros (_ & _ & Hother & _) H1 H2. unfold has_col.
  rewrite (Hother c H1 H2). reflexivity.
Qed.

Lemma fuel_slots_ok : Forall slot_ok fuel_slots.
Proof. unfold slot_ok. compute_done. Qed.

Lemma feeds_intro (lib : pylib) (df0 : frame)
  (slot : string * string * list (string * string)) (entry : string * string)
  (i : nat) :
  slot ∈ fuel_slots -> entry ∈ slot.2 ->
  has_col df0 slot.1.1 = true -> has_col df0 slot.1.2 = true ->
  declares lib df0 slot.1.1 entry.1 i = true ->
  feeds lib df0 entry.2 i = true.
Proof.
  intros Hslot Hentry H1 H2 Hd. unfold feeds.
  apply existsb_exists. exists slot. split; [apply list_elem_of_In; exact Hslot |].
  rewrite H1, H2. cbn. apply existsb_exists. exists entry.
  split; [apply list_elem_of_In; exact Hentry |].
  rewrite String.eqb_refl, Hd. reflexivity.
Qed.

(** One round of a block's loop keeps the invariant. *)
Lemma add_fuel_inv (lib : pylib) (df0 df df' : frame)
  (slot : string * string * list (string * string)) (entry : string * string) :
  slot ∈ fuel_slots -> entry ∈ slot.2 ->
  has_col df0 slot.1.1 = true -> has_col df0 slot.1.2 = true ->
  fuel_inv lib df0 df ->
  add_fuel lib slot.1.1 slot.1.2 df entry = Ok df' ->
  fuel_inv lib df0 df'.
Proof.
  intros Hslot Hentry Hhas1 Hhas2 Hinv H.
  pose proof fuel_slots_ok as Hok. rewrite Forall_forall in Hok.
  destruct (Hok slot Hslot) as (Htc & Hq1 & Hq2 & Htargets).
  rewrite Forall_forall in Htargets. specialize (Htargets entry Hentry).
  pose proof consumption_columns_disjoint as Hdisj.
  rewrite Forall_forall in Hdisj. pose proof (Hdisj _ Htargets) as Hnt.
  destruct slot as [[type_col quantity_col] table].
  destruct entry as [fuel_type target_col]. cbn [fst snd] in *.
  unfold add_fuel in H.
  apply rbind_Ok in H as (types & Htypes & H).
  apply rbind_Ok in H as (quantity & Hquantity & H).
  apply rbind_Ok in H as (target & Htarget & H).
  apply rbind_Ok in H as (target' & Hadd & H). injection H as <-.
  apply get_col_Ok in Htypes, Hquantity, Htarget.
  pose proof Hinv as (Hn & Hwf & Hother & Hty & Hcc).
  apply masked_add_spec in Hadd as [Hlen Hcells].
  2:{ rewrite length_fmap, (Hwf _ _ Htypes), (Hwf _ _ Htarget). reflexivity. }
  2:{ rewrite length_fmap, (Hwf _ _ Hquantity), (Hwf _ _ Htarget). reflexivity. }
  split; [exact Hn |]. split.
  { apply wf_set_col; [exact Hwf |]. rewrite Hlen. exact (Hwf _ _ Htarget). }
  split.
  { intros c Hc1 Hc2. cbn. rewrite lookup_insert_ne by congruence. auto. }
  split.
  { intros c Hc. cbn. rewrite lookup_insert_ne by congruence. auto. }
  intros c Hc. destruct (decide (c = target_col)) as [->|Hne].
  2:{ cbn. rewrite lookup_insert_ne by congruence. auto. }
  destruct (Hcc target_col Hc) as (v & Hv & Hfl & Hzero).
  rewrite Htarget in Hv. injection Hv as <-.
  exists target'. split; [cbn; apply lookup_insert_eq |]. split.
  - apply Forall_lookup. intros i t' Ht'.
    destruct (lookup_lt_is_Some_2 target i) as [t Ht].
    { rewrite <- Hlen. eapply lookup_lt_Some. exact Ht'. }
    destruct (Hcells i t Ht) as (m & q & t'' & _ & _ & Ht'' & Hm).
    rewrite Ht' in Ht''. injection Ht'' as <-.
    rewrite Forall_lookup in Hfl. specialize (Hfl i t Ht). cbn in Hfl.
    destruct m; [eapply series_add_is_float; eassumption | congruence].
  - intros Hc0 i Hi Hfeeds.
    destruct (lookup_lt_is_Some_2 target i) as [t Ht].
    { rewrite (Hwf _ _ Htarget), Hn. exact Hi. }
    destruct (Hcells i t Ht) as (m & q & t' & Hmask & _ & Ht' & Hm).
    rewrite Ht'. destruct m.
    + exfalso.
      assert (Hd : declares lib df type_col fuel_type i = true).
      { unfold declares. rewrite Htypes.
        rewrite list_lookup_fmap in Hmask.
        destruct (types !! i); cbn in Hmask; [| discriminate].
        injection Hmask as ->. reflexivity. }
      rewrite (fuel_inv_declares lib df0 df _ _ _ Hinv Htc) in Hd.
      pose proof (feeds_intro lib df0 (type_col, quantity_col, table)
                    (fuel_type, target_col) i Hslot Hentry Hhas1 Hhas2 Hd) as F.
      cbn [fst snd] in F. congruence.
    + subst t'. rewrite <- Ht. f_equal. symmetry.
      pose proof (Hzero Hc0 i Hi Hfeeds) as Z. congruence.
Qed.

(** One of the five blocks keeps the invariant. *)
Lemma map_slot_inv (lib : pylib) (df0 df df' : frame)
  (slot : string * string * list (string * string)) :
  slot ∈ fuel_slots ->
  fuel_inv lib df0 df ->
  map_slot lib slot.1.1 slot.1.2 slot.2 df = Ok df' ->
  fuel_inv lib df0 df'.
Proof.
  intros Hslot Hinv H.
  pose proof fuel_slots_ok as Hok. rewrite Forall_forall in Hok.
  destruct (Hok slot Hslot) as (Htc & Hq1 & Hq2 & Htargets).
  pose proof consumption_columns_disjoint as Hdisj.
  rewrite Forall_forall in Hdisj.
  unfold map_slot in H.
  destruct (has_col df slot.1.1 && has_col df slot.1.2) eqn:Hhas;
    [| injection H as <-; exact Hinv].
  apply andb_true_iff in Hhas as [Hhas1 Hhas2].
  rewrite (fuel_inv_has_type_col lib df0 df _ Hinv Htc) in Hhas1.
  rewrite (fuel_inv_has_other_col lib df0 df _ Hinv Hq1 Hq2) in Hhas2.
  apply rbind_Ok in H as (types & Htypes & H). apply get_col_Ok in Htypes.
  set (df1 := set_col df slot.1.1 ((fun v => VStr (py_str lib v)) <$> types)) in H.
  assert (Hinv1 : fuel_inv lib df0 df1).
  { destruct Hinv as (Hn & Hwf & Hother & Hty & Hcc).
    split; [exact Hn |]. split.
    { apply wf_set_col; [exact Hwf |]. rewrite length_fmap.
      exact (Hwf _ _ Htypes). }
    split.
    { intros c Hc1 Hc2. cbn. rewrite lookup_insert_ne by congruence. auto. }
    split.
    { intros c Hc. unfold df1, set_col. cbn [cols].
      destruct (decide (c = slot.1.1)) as [E|Hne].
      - subst c. rewrite lookup_insert_eq, <- (Hty _ Htc), Htypes.
        cbn [fmap option_fmap option_map]. f_equal.
        rewrite <- list_fmap_compose. apply list_fmap_ext. reflexivity.
      - rewrite lookup_insert_ne by congruence. auto. }
    intros c Hc. cbn. rewrite lookup_insert_ne; [auto |].
    intros E. subst c. exact (Hdisj _ Hc Htc). }
  revert H. apply for_each_inv with (Q := fun entry => entry ∈ slot.2).
  - intros s a s' HP HQ Hs.
    eapply (add_fuel_inv lib df0 s s' slot a); eassumption.
  - apply Forall_forall. auto.
  - exact Hinv1.
Qed.

(** The aggregator is the initialisation of the target columns followed by
    the five blocks. *)
Lemma map_fuel_type_consumption_loops (lib : pylib) (df0 : frame) :
  map_fuel_type_consumption lib df0
  = (df <-- for_each (ensure_float lib) consumption_columns df0 ;;
     for_each (fun df (slot : string * string * list (string * string)) =>
                 map_slot lib slot.1.1 slot.1.2 slot.2 df)
       fuel_slots df).
Proof.
  unfold map_fuel_type_consumption, consumption_columns.
  rewrite !fmap_app, for_each_app.
  destruct (for_each (ensure_float lib) (fuel_type_to_ME_column.*2) df0)
    as [df1|e]; [cbn [rbind] | reflexivity].
  rewrite for_each_app.
  destruct (for_each (ensure_float lib) (fuel_type_to_AE_column.*2) df1)
    as [df2|e]; [cbn [rbind] | reflexivity].
  destruct (for_each (ensure_float lib) (fuel_type_to_Boiler_column.*2) df2)
    as [df3|e]; [cbn [rbind] | reflexivity].
  cbn [for_each fuel_slots fst snd].
  repeat match goal with
  | |- rbind ?r _ = rbind ?r _ => destruct r; cbn [rbind]; [| reflexivity]
  end.
  reflexivity.
Qed.

(** The table the aggregator returns satisfies the invariant. *)
Lemma map_fuel_type_consumption_inv (lib : pylib) (df0 df : frame) :
  wf_frame df0 -> map_fuel_type_consumption lib df0 = Ok df ->
  fuel_inv lib df0 df.
Proof.
  intros Hwf H. rewrite map_fuel_type_consumption_loops in H.
  apply rbind_Ok in H as (df1 & Hinit & H).
  revert H. apply for_each_inv with (Q := fun slot => slot ∈ fuel_slots).
  - intros s a s' HP HQ Hs. eapply map_slot_inv; eassumption.
  - apply Forall_forall. auto.
  - apply init_fuel_inv; assumption.
Qed.

Lemma build_transformed_dates (lib : pylib) (df built : frame) :
  wf_frame df -> build_transformed lib df = Ok built ->
  nrows built = nrows df
  /\ exists d t,
       cols built !! "Date_UTC" = Some d /\ cols built !! "Time_UTC" = Some t
       /\ length d = nrows df /\ length t = nrows df.
Proof.
  intros Hwf H. unfold build_transformed in H. cbv zeta in H.
  bind_step H imo Himo.
  bind_step H report_to Hreport.
  bind_step H timezone Htimezone.
  bind_steps 24 H.
  apply Ok_inj in H. subst built. split; [reflexivity |].
  apply get_col_Ok in Hreport, Htimezone.
  pose proof (Hwf _ _ Hreport) as L1. pose proof (Hwf _ _ Htimezone) as L2.
  cbn [cols list_to_map foldr].
  do 2 eexists. split.
  { rewrite lookup_insert_ne by discriminate. apply lookup_insert_eq. }
  split.
  { rewrite !(lookup_insert_ne _ "IMO"), !(lookup_insert_ne _ "Date_UTC")
      by discriminate.
    apply lookup_insert_eq. }
  cbn beta in L1, L2. cbn [snd]. rewrite !length_zip_with. lia.
Qed.

Lemma copy_prefixed_lookup (pre : string) (src dst : frame) (c : string) :
  cols (copy_prefixed pre src dst) !! c
  = if startswith pre c
    then match cols src !! c with
         | Some v => Some v
         | None => cols dst !! c
         end
    else cols dst !! c.
Proof.
  unfold copy_prefixed. cbn [cols]. rewrite lookup_union.
  rewrite map_lookup_filter.
  destruct (cols src !! c) as [v|] eqn:E; cbn.
  - destruct (startswith pre c) eqn:P.
    + rewrite option_guard_True by reflexivity. cbn.
      destruct (cols dst !! c); reflexivity.
    + rewrite option_guard_False by discriminate. cbn.
      destruct (cols dst !! c); reflexivity.
  - destruct (startswith pre c); destruct (cols dst !! c); reflexivity.
Qed.

Lemma consumption_columns_prefixed :
  Forall (fun c => startswith "ME_Consumption_" c
                   || startswith "AE_Consumption_" c
                   || startswith "Boiler_Consumption_" c = true)
    consumption_columns.
Proof. repeat constructor. Qed.

Lemma transform_unsorted_inv (lib : pylib) (df pre : frame) :
  wf_frame df -> transform_unsorted lib df = Ok pre ->
  exists fuel,
    map_fuel_type_consumption lib df = Ok fuel
    /\ nrows pre = nrows df
    /\ (forall c, c ∈ consumption_columns -> cols pre !! c = cols fuel !! c)
    /\ exists d t,
         cols pre !! "Date_UTC" = Some d /\ cols pre !! "Time_UTC" = Some t
         /\ length d = nrows df /\ length t = nrows df.
Proof.
  intros Hwf H. unfold transform_unsorted in H.
  bind_step H built Hbuilt. bind_step H fuel Hfuel.
  apply Ok_inj in H. subst pre.
  destruct (build_transformed_dates lib df built Hwf Hbuilt)
    as (Hn & d & t & Hd & Ht & Ld & Lt).
  exists fuel. split; [reflexivity |]. split; [exact Hn |]. split.
  - intros c Hc.
    destruct (map_fuel_type_consumption_inv lib df fuel Hwf Hfuel)
      as (_ & _ & _ & _ & Hcc).
    destruct (Hcc c Hc) as (v & Hv & _).
    pose proof consumption_columns_prefixed as P. rewrite Forall_forall in P.
    specialize (P c Hc). rewrite !copy_prefixed_lookup, Hv.
    destruct (startswith "Boiler_Consumption_" c); [reflexivity |].
    destruct (startswith "AE_Consumption_" c); [reflexivity |].
    destruct (startswith "ME_Consumption_" c); [reflexivity | discriminate].
  - exists d, t. rewrite !copy_prefixed_lookup.
    cbn [startswith Ascii.eqb Bool.eqb]. auto.
Qed.

Lemma consumption_columns_not_key :
  Forall (fun c => c <> "DateTime_UTC") consumption_columns.
Proof. compute_done. Qed.

Lemma datetime_utc_length (lib : pylib) (df : frame) (keys d t : list pyval) :
  datetime_utc lib df = Ok keys ->
  cols df !! "Date_UTC" = Some d -> cols df !! "Time_UTC" = Some t ->
  length keys = Nat.min (length d) (length t).
Proof.
  unfold datetime_utc. intros H Hd Ht.
  apply get_col_Ok in Hd, Ht. rewrite Hd, Ht in H. cbn [rbind] in H.
  destruct (traverse_Ok_lookup _ _ _ H) as [Hlen _].
  rewrite Hlen. apply length_zip_with.
Qed.

Lemma take_rows_is_float (order : list nat) (v : list pyval) :
  Forall (fun x => is_float x = true) v ->
  Forall (fun x => is_float x = true) (take_rows order v).
Proof.
  intros Hv. unfold take_rows. apply Forall_fmap, Forall_forall.
  intros i _. cbn. destruct (v !! i) as [x|] eqn:E; [| reflexivity].
  rewrite Forall_lookup in Hv. exact (Hv i x E).
Qed.

(** C7. On a well-formed input the transformer returns as many rows as it
    was given, and every target column the three mapping tables name is a
    column of the result, with a float in every row; when the input has no
    column of that name, the float is 0.0 in every output row whose input
    row does not feed the column. [order] gives, for each output row, the
    input row it comes from. *)
Theorem C7_consumption_columns_default_zero
  (lib : pylib) (navfleet_data out : frame) :
  wf_frame navfleet_data ->
  transform_navfleet_data lib navfleet_data = Ok out ->
  nrows out = nrows navfleet_data
  /\ exists order,
       order ≡ₚ seq 0 (nrows navfleet_data)
       /\ forall c, c ∈ consumption_columns ->
          exists col,
            cols out !! c = Some col
            /\ length col = nrows navfleet_data
            /\ Forall (fun x => is_float x = true) col
            /\ (cols navfleet_data !! c = None ->
                forall j i, order !! j = Some i ->
                  feeds lib navfleet_data c i = false ->
                  col !! j = Some (VFloat 0)).
Proof.
  intros Hwf H.
  apply transform_inv in H as (pre & keys & Hpre & Hkeys & Hn & Hout).
  destruct (transform_unsorted_inv lib navfleet_data pre Hwf Hpre)
    as (fuel & Hfuel & Hnp & Hcols & d & t & Hd & Ht & Ld & Lt).
  assert (Hlen : length keys = nrows navfleet_data).
  { rewrite (datetime_utc_length lib pre keys d t Hkeys Hd Ht). lia. }
  split; [congruence |].
  exists (nargsort keys). split.
  { rewrite nargsort_Permutation, Hlen. reflexivity. }
  intros c Hc.
  destruct (map_fuel_type_consumption_inv lib navfleet_data fuel Hwf Hfuel)
    as (_ & Hwf' & _ & _ & Hcc).
  destruct (Hcc c Hc) as (v & Hv & Hfl & Hzero).
  pose proof consumption_columns_not_key as K. rewrite Forall_forall in K.
  exists (take_rows (nargsort keys) v). split.
  { rewrite Hout, lookup_fmap, lookup_delete_ne by (intros E; exact (K c Hc (eq_sym E))).
    rewrite (Hcols c Hc), Hv. reflexivity. }
  split.
  { rewrite take_rows_length, nargsort_length. exact Hlen. }
  split; [apply take_rows_is_float; exact Hfl |].
  intros Hnone j i Hj Hfeeds.
  apply (take_rows_lookup _ _ j i); [exact Hj |].
  apply Hzero; [exact Hnone | | exact Hfeeds].
  rewrite <- Hlen. eapply nargsort_in_range. exact Hj.
Qed.

Lemma sample_reports_wf : wf_frame sample_reports.
Proof. unfold wf_frame. compute_done. Qed.

Lemma C7_consumption_columns_default_zero_witness :
  nrows sample_output = nrows sample_reports
  /\ exists order,
       order ≡ₚ seq 0 (nrows sample_reports)
       /\ forall c, c ∈ consumption_columns ->
          exists col,
            cols sample_output !! c = Some col
            /\ length col = nrows sample_reports
            /\ Forall (fun x => is_float x = true) col
            /\ (cols sample_reports !! c = None ->
                forall j i, order !! j = Some i ->
                  feeds iso_lib sample_reports c i = false ->
                  col !! j = Some (VFloat 0)).
Proof.
  exact (C7_consumption_columns_default_zero iso_lib sample_reports
           sample_output sample_reports_wf sample_transformed).
Defined.

(** ** More properties of text *)
Lemma rstrip_idem (s : string) : rstrip (rstrip s) = rstrip s.
Proof.
  induction s as [|c s IH]; [reflexivity |].
  cbn [rstrip]. destruct (rstrip s) as [|c' r] eqn:R.
  - destruct (is_space c) eqn:E; [reflexivity |].
    cbn [rstrip]. rewrite E. reflexivity.
  - cbn [rstrip]. cbn [rstrip] in IH. 
    destruct (match rstrip r with
              | "" => if is_space c' then "" else String c' ""
              | String a s0 => String c' (String a s0)
              end) eqn:M; [discriminate IH |].
    rewrite IH. reflexivity.
Qed.

Lemma lstrip_head (s : string) :
  lstrip s = "" \/ exists c t, lstrip s = String c t /\ is_space c = false.
Proof.
  induction s as [|c s IH]; [left; reflexivity |].
  cbn [lstrip]. destruct (is_space c) eqn:E; [exact IH |].
  right. eauto.
Qed.

Lemma rstrip_head (c : ascii) (t : string) :
  is_space c = false -> exists t', rstrip (String c t) = String c t'.
Proof.
  intros E. cbn [rstrip]. destruct (rstrip t); [rewrite E |]; eauto.
Qed.

Lemma lstrip_nonspace (c : ascii) (t : string) :
  is_space c = false -> lstrip (String c t) = String c t.
Proof. intros E. cbn [lstrip]. rewrite E. reflexivity. Qed.

Lemma strip_idem (s : string) : strip (strip s) = strip s.
Proof.
  unfold strip. destruct (lstrip_head s) as [E | (c & t & E & Hc)].
  - rewrite E. reflexivity.
  - rewrite E. destruct (rstrip_head c t Hc) as [t' R]. 
    rewrite R at 1. rewrite (lstrip_nonspace c t' Hc), <- R.
    apply rstrip_idem.
Qed.

Lemma blank_cons (c : ascii) (s : string) :
  blank (String c s) <-> is_space c = true /\ blank s.
Proof.
  unfold blank. cbn [ink]. destruct (is_space c); split; intros H.
  - split; [reflexivity | exact H].
  - apply H.
  - discriminate H.
  - destruct H as [H _]. discriminate H.
Qed.

Lemma lstrip_blank (s : string) : blank s -> lstrip s = "".
Proof.
  induction s as [|c s IH]; [reflexivity |].
  intros H. apply blank_cons in H as [Hc Hs]. cbn [lstrip]. rewrite Hc. auto.
Qed.

Lemma rstrip_blank (s : string) : blank s -> rstrip s = "".
Proof.
  induction s as [|c s IH]; [reflexivity |].
  intros H. apply blank_cons in H as [Hc Hs]. cbn [rstrip].
  rewrite (IH Hs), Hc. reflexivity.
Qed.

Lemma lstrip_app_blank (pre s : string) : blank pre -> lstrip (pre ++ s) = lstrip s.
Proof.
  induction pre as [|c pre IH]; [reflexivity |].
  intros H. apply blank_cons in H as [Hc Hs]. rewrite append_cons.
  cbn [lstrip]. rewrite Hc. auto.
Qed.

Lemma rstrip_app_blank (s post : string) : blank post -> rstrip (s ++ post) = rstrip s.
Proof.
  intros H. induction s as [|c s IH].
  - rewrite append_empty. apply rstrip_blank. exact H.
  - rewrite append_cons. cbn [rstrip]. rewrite IH. reflexivity.
Qed.

Lemma strip_app_blank_r (w post : string) :
  blank post -> strip (w ++ post) = strip w.
Proof.
  intros H. unfold strip. induction w as [|c w IH].
  - rewrite append_empty, (lstrip_blank post H). reflexivity.
  - rewrite append_cons. cbn [lstrip]. destruct (is_space c); [exact IH |].
    rewrite <- append_cons. apply rstrip_app_blank. exact H.
Qed.

(** Blanks around a text do not change what [strip] returns. *)
Lemma strip_padding (pre w post : string) :
  blank pre -> blank post -> strip (pre ++ w ++ post) = strip w.
Proof.
  intros Hpre Hpost. unfold strip at 1. rewrite (lstrip_app_blank _ _ Hpre).
  apply (strip_app_blank_r w post Hpost).
Qed.

Lemma strip_empty_iff (s : string) : strip s = "" <-> blank s.
Proof.
  split.
  - intros H. unfold blank. rewrite <- ink_strip, H. reflexivity.
  - intros H. unfold strip. rewrite (lstrip_blank s H). reflexivity.
Qed.

Lemma upper_space (c : ascii) : is_space c = true -> upper_ascii c = c.
Proof.
  destruct c as [[] [] [] [] [] [] [] []]; vm_compute; congruence.
Qed.

Lemma upper_utc_trimmed (w : string) : upper w = "UTC" -> strip w = w.
Proof.
  intros H. destruct w as [|c1 [|c2 [|c3 [|c4 w]]]]; try discriminate H.
  cbn in H. injection H as H1 H2 H3.
  assert (N1 : is_space c1 = false).
  { destruct (is_space c1) eqn:E; [| reflexivity].
    rewrite (upper_space c1 E) in H1. subst c1. discriminate E. }
  assert (N3 : is_space c3 = false).
  { destruct (is_space c3) eqn:E; [| reflexivity].
    rewrite (upper_space c3 E) in H3. subst c3. discriminate E. }
  unfold strip. cbn [lstrip]. rewrite N1. cbn [rstrip]. rewrite N3. reflexivity.
Qed.

(** ** More properties of the timezone normalizer *)

(** X1. The descriptor UTC is recognised in any letter case and with blanks
    around it: the normalizer then returns the time and the date of the
    parsed timestamp as they are. *)
Theorem X1_utc_descriptor_any_case_and_padding
  (lib : pylib) (report_to : pyval) (st : stamp) (pre w post : string) :
  parse_report_to lib report_to = Ok (Some st) ->
  blank pre -> blank post -> upper w = "UTC" ->
  adjust_to_utc lib report_to (VStr (pre ++ w ++ post))
  = (VTime (dt_time (stamp_value st)), VDate (dt_date (stamp_value st))).
Proof.
  intros Hparse Hpre Hpost Hw.
  pose proof (strip_padding pre w post Hpre Hpost) as Hs.
  rewrite (upper_utc_trimmed w Hw) in Hs.
  assert (Hne : (pre ++ w ++ post =? "")%string = false).
  { apply String.eqb_neq. intros E. rewrite E in Hs. cbn in Hs. subst w.
    discriminate Hw. }
  unfold adjust_to_utc, adjust_to_utc_try. rewrite Hparse. cbn [rbind truthy].
  rewrite Hne. cbn [negb as_text rbind]. rewrite Hs, Hw. reflexivity.
Qed.

Lemma X1_utc_descriptor_any_case_and_padding_witness :
  adjust_to_utc iso_lib (VStr "2024-03-02 10:00") (VStr "  Utc ")
  = (VTime (Time 10 0 0), VDate (Date 2024 3 2)).
Proof.
  apply (X1_utc_descriptor_any_case_and_padding iso_lib
           (VStr "2024-03-02 10:00")
           (PyDatetime (DateTime (Date 2024 3 2) (Time 10 0 0)))
           "  " "Utc" " "); reflexivity.
Defined.

(** X2. A descriptor that is not text gives the absent pair, whatever the
    timestamp: a false object by the test of line 71, any other (a NaN
    cell, a number) because calling [strip] on it raises and the handler
    swallows the exception. *)
Theorem X2_non_text_descriptor_gives_absent_pair
  (lib : pylib) (report_to timezone : pyval) :
  (forall s, timezone <> VStr s) ->
  adjust_to_utc lib report_to timezone = (VNone, VNone).
Proof.
  intros Hnot. unfold adjust_to_utc, adjust_to_utc_try.
  destruct (parse_report_to lib report_to) as [[st|]|e]; cbn [rbind];
    try reflexivity.
  destruct (truthy timezone); cbn [negb]; [| reflexivity].
  destruct timezone; try reflexivity.
  exfalso. eapply Hnot. reflexivity.
Qed.

Lemma X2_non_text_descriptor_gives_absent_pair_witness :
  adjust_to_utc iso_lib (VStr "2024-03-02 10:00") VNaN = (VNone, VNone)
  /\ parse_report_to iso_lib (VStr "2024-03-02 10:00")
     = Ok (Some (PyDatetime (DateTime (Date 2024 3 2) (Time 10 0 0)))).
Proof.
  split; [| reflexivity].
  apply (X2_non_text_descriptor_gives_absent_pair iso_lib
           (VStr "2024-03-02 10:00") VNaN).
  intros s. discriminate.
Defined.

(** No digit follows: the text is empty or starts with another
    character. *)
Lemma read_digits_stop (rest : string) (acc : option Z) :
  no_digit_ahead rest -> read_digits rest acc = acc.
Proof.
  destruct rest as [|c rest]; [reflexivity |]. cbn. intros ->. reflexivity.
Qed.

Lemma read_digits_uint_pos (d : Decimal.uint) (p : positive) (rest : string) :
  no_digit_ahead rest ->
  read_digits (NilEmpty.string_of_uint d ++ rest) (Some (Z.pos p))
  = Some (Z.pos (Pos.of_uint_acc d p)).
Proof.
  intros Hrest. revert p.
  induction d as [|d IH|d IH|d IH|d IH|d IH|d IH|d IH|d IH|d IH|d IH];
    intros p; cbn [NilEmpty.string_of_uint Pos.of_uint_acc];
    [rewrite append_empty; apply read_digits_stop; exact Hrest | ..];
    rewrite append_cons; cbn [read_digits];
    match goal with
    | |- context [is_digit ?c] => change (is_digit c) with true
    end; cbv iota;
    match goal with
    | |- context [Z.of_nat ?k] =>
        let k' := eval vm_compute in (Z.of_nat k) in
        change (Z.of_nat k) with k'
    end;
    match goal with
    | |- read_digits _ (Some ?z) = Some (Z.pos (Pos.of_uint_acc _ ?q)) =>
        replace z with (Z.pos q) by lia
    end; apply IH.
Qed.

Lemma read_digits_uint_zero (d : Decimal.uint) (rest : string) :
  no_digit_ahead rest ->
  read_digits (NilEmpty.string_of_uint d ++ rest) (Some 0)
  = Some (Z.of_N (Pos.of_uint d)).
Proof.
  intros Hrest.
  induction d as [|d IH|d IH|d IH|d IH|d IH|d IH|d IH|d IH|d IH|d IH];
    cbn [NilEmpty.string_of_uint Pos.of_uint];
    [rewrite append_empty; apply read_digits_stop; exact Hrest | ..];
    rewrite append_cons; cbn [read_digits];
    match goal with
    | |- context [is_digit ?c] => change (is_digit c) with true
    end; cbv iota;
    [exact IH | ..];
    match goal with
    | |- read_digits _ (Some ?z) = _ =>
        let z' := eval vm_compute in z in change z with z'
    end; cbn [Z.of_N]; apply read_digits_uint_pos; exact Hrest.
Qed.

(** Reading back the digits [str] prints for a number that is not
    negative. *)
Lemma read_digits_str_of_Z (n : Z) (rest : string) :
  0 <= n -> no_digit_ahead rest ->
  read_digits (str_of_Z n ++ rest) None = Some n.
Proof.
  intros Hn Hrest. unfold str_of_Z.
  destruct n as [|p|p]; [| | lia].
  - cbn. rewrite append_cons, append_empty. cbn.
    apply (read_digits_stop rest (Some 0) Hrest).
  - cbn [Z.to_int NilZero.string_of_int].
    pose proof (DecimalPos.Unsigned.of_to p) as E.
    unfold NilZero.string_of_uint.
    destruct (Pos.to_uint p) as [|d|d|d|d|d|d|d|d|d|d] eqn:D;
      [cbn in E; discriminate E | ..];
      cbn [NilEmpty.string_of_uint]; rewrite append_cons; cbn [read_digits];
      match goal with
      | |- context [is_digit ?c] => change (is_digit c) with true
      end; cbv iota;
      match goal with
      | |- read_digits _ (Some ?z) = _ =>
          let z' := eval vm_compute in z in change z with z'
      end.
    + rewrite (read_digits_uint_zero d rest Hrest). cbn [Pos.of_uint] in E.
      rewrite E. reflexivity.
    + rewrite (read_digits_uint_pos d 1 rest Hrest). cbn [Pos.of_uint] in E.
      injection E as ->. reflexivity.
    + rewrite (read_digits_uint_pos d 2 rest Hrest). cbn [Pos.of_uint] in E.
      injection E as ->. reflexivity.
    + rewrite (read_digits_uint_pos d 3 rest Hrest). cbn [Pos.of_uint] in E.
      injection E as ->. reflexivity.
    + rewrite (read_digits_uint_pos d 4 rest Hrest). cbn [Pos.of_uint] in E.
      injection E as ->. reflexivity.
    + rewrite (read_digits_uint_pos d 5 rest Hrest). cbn [Pos.of_uint] in E.
      injection E as ->. reflexivity.
    + rewrite (read_digits_uint_pos d 6 rest Hrest). cbn [Pos.of_uint] in E.
      injection E as ->. reflexivity.
    + rewrite (read_digits_uint_pos d 7 rest Hrest). cbn [Pos.of_uint] in E.
      injection E as ->. reflexivity.
    + rewrite (read_digits_uint_pos d 8 rest Hrest). cbn [Pos.of_uint] in E.
      injection E as ->. reflexivity.
    + rewrite (read_digits_uint_pos d 9 rest Hrest). cbn [Pos.of_uint] in E.
      injection E as ->. reflexivity.
Qed.

(** X3. The offset of a descriptor is read back as printed: [TVA/GMT+]
    followed by the decimal digits of a number [n] that is not negative
    gives the offset [n], and [TVA/GMT-] followed by them gives [-n],
    whatever follows the digits. *)
Theorem X3_offset_descriptor_reads_back (n : Z) (rest : string) :
  0 <= n -> no_digit_ahead rest ->
  search_offset ("TVA/GMT+" ++ str_of_Z n ++ rest) = Some n
  /\ search_offset ("TVA/GMT-" ++ str_of_Z n ++ rest) = Some (- n).
Proof.
  intros Hn Hrest.
  pose proof (read_digits_str_of_Z n rest Hn Hrest) as R.
  split.
  - rewrite !append_cons, append_empty.
    unfold search_offset, match_offset_at.
    cbn [startswith Ascii.eqb Bool.eqb drop_string]. rewrite R. reflexivity.
  - rewrite !append_cons, append_empty.
    unfold search_offset, match_offset_at.
    cbn [startswith Ascii.eqb Bool.eqb drop_string]. rewrite R. reflexivity.
Qed.

Lemma X3_offset_descriptor_reads_back_witness :
  search_offset ("TVA/GMT+" ++ str_of_Z 12 ++ " (Moscow)") = Some 12
  /\ search_offset ("TVA/GMT-" ++ str_of_Z 12 ++ " (Moscow)") = Some (- 12).
Proof.
  apply (X3_offset_descriptor_reads_back 12 " (Moscow)");
    [lia | reflexivity].
Defined.

(** ** More properties of the coordinate converter *)

Lemma round_half_even_bounds (y : Q) :
  Qfloor y <= round_half_even y <= Qfloor y + 1.
Proof.
  unfold round_half_even.
  destruct (y - inject_Z (Qfloor y) ?= 1 # 2)%Q; [destruct (Z.even _) | |]; lia.
Qed.

(** Rounding to one decimal keeps a value of the range 0 to 60 in it. *)
Lemma round1_range (x : Q) : (0 <= x)%Q -> (x < 60)%Q ->
  (0 <= round1 x)%Q /\ (round1 x <= 60)%Q.
Proof.
  intros Hlo Hhi.
  pose proof (round_half_even_bounds (x * 10)) as [L U].
  assert (F0 : 0 <= Qfloor (x * 10)).
  { change 0 with (Qfloor 0). apply Qfloor_resp_le. lra. }
  assert (F1 : Qfloor (x * 10) < 600).
  { apply Z.lt_nge. intros G.
    assert (Hq : (inject_Z 600 <= inject_Z (Qfloor (x * 10)))%Q)
      by (rewrite <- Zle_Qle; exact G).
    pose proof (Qfloor_le (x * 10)) as Q1.
    change (inject_Z 600) with 600%Q in Hq. lra. }
  pose proof (round1_tenths x) as T.
  assert (A : (inject_Z 0 <= inject_Z (round_half_even (x * 10)))%Q)
    by (rewrite <- Zle_Qle; lia).
  assert (B : (inject_Z (round_half_even (x * 10)) <= inject_Z 600)%Q)
    by (rewrite <- Zle_Qle; lia).
  change (inject_Z 0) with 0%Q in A. change (inject_Z 600) with 600%Q in B.
  split; lra.
Qed.




(** ** More properties of the event normalizer *)

(** X6. The event normalizer is idempotent: run on its own output it
    changes nothing, so the four labels and every trimmed text it returns
    are fixed points. *)
Theorem X6_process_event_idempotent (lib : pylib) (event_text : pyval) :
  process_event lib (process_event lib event_text)
  = process_event lib event_text.
Proof.
  unfold process_event at 2 3.
  destruct (isna event_text) eqn:Hna.
  { unfold process_event. rewrite Hna. reflexivity. }
  set (t := strip (py_str lib event_text)).
  destruct (contains "Sea" t) eqn:H1; [reflexivity |].
  destruct (contains "Port" t) eqn:H2; [reflexivity |].
  destruct (contains "Arrival" t) eqn:H3; [reflexivity |].
  destruct (contains "Departure" t) eqn:H4; [reflexivity |].
  unfold process_event. cbn [isna py_str]. unfold t at 1 2 3 4 5.
  rewrite strip_idem. fold t. rewrite H1, H2, H3, H4. reflexivity.
Qed.

(** ** More properties of the port code resolver *)

Lemma length_take_string (n : nat) (s : string) :
  (String.length (take_string n s) <= n)%nat.
Proof.
  revert s. induction n as [|n IH]; intros [|c s]; cbn; try lia.
  specialize (IH s). lia.
Qed.

Lemma map_values_Ok (column : list pyval) (reference_df : frame)
  (reference_key target_key : string) (r : list pyval) :
  map_values column reference_df reference_key target_key = Ok r ->
  exists keys values,
    cols reference_df !! reference_key = Some keys
    /\ cols reference_df !! target_key = Some values
    /\ r = zip_with fillna column
             ((fun v => default VNaN (dict_get (zip keys values) v)) <$> column).
Proof.
  unfold map_values. intros H.
  bind_step H keys Hk. bind_step H values Hv. apply Ok_inj in H.
  apply get_col_Ok in Hk, Hv. eauto.
Qed.

(** What [update_column] does to the shape of the table. *)
Lemma update_column_frame (reference_data output_data out : frame)
  (column : string) :
  update_column reference_data output_data column = Ok out ->
  nrows out = nrows output_data
  /\ (forall c, is_Some (cols out !! c) <-> is_Some (cols output_data !! c))
  /\ (wf_frame output_data -> wf_frame out).
Proof.
  unfold update_column. destruct (has_col output_data column) eqn:Hhas.
  - intros H. bind_step H c0 Hc0. bind_step H c1 Hc1. bind_step H c2 Hc2.
    apply Ok_inj in H. subst out. apply get_col_Ok in Hc0.
    apply str_lower_strip_Ok in Hc1.
    apply map_values_Ok in Hc2 as (keys & values & _ & _ & Hc2).
    split; [reflexivity |]. split.
    + intros c. cbn. destruct (decide (c = column)) as [-> | Hne].
      * rewrite lookup_insert_eq, Hc0. split; eauto.
      * rewrite lookup_insert_ne by congruence. reflexivity.
    + intros Hwf. apply wf_set_col; [exact Hwf |].
      rewrite Hc2, length_zip_with, length_fmap, Hc1, !length_fmap.
      rewrite (Hwf _ _ Hc0). lia.
  - intros H. apply Ok_inj in H. subst out. split; [reflexivity |].
    split; [reflexivity | auto].
Qed.

(** The three stages of [update_voyage_columns]. *)
Lemma update_voyage_columns_stages (lib : pylib)
  (output_data reference_data out : frame) :
  update_voyage_columns lib output_data reference_data = Ok out ->
  exists ref out1 out2,
    prepare_reference reference_data = Ok ref
    /\ update_column ref output_data "Voyage_From" = Ok out1
    /\ update_column ref out1 "Voyage_To" = Ok out2
    /\ match cols out2 !! "Date_UTC" with
       | Some dates =>
           exists dates', traverse (to_date lib) dates = Ok dates'
                          /\ out = set_col out2 "Date_UTC" dates'
       | None => out = out2
       end.
Proof.
  unfold update_voyage_columns. intros H.
  bind_step H ref Href. bind_step H out2 Hloop.
  cbn [for_each] in Hloop.
  bind_step Hloop out1 Hfrom. bind_step Hloop out2' Hto.
  apply Ok_inj in Hloop. subst out2'.
  exists ref, out1, out2. repeat split; try reflexivity; try assumption.
  unfold has_col, get_col in H.
  destruct (cols out2 !! "Date_UTC") as [dates|] eqn:Hd.
  - rewrite bool_decide_eq_true_2 in H by eauto. cbn [rbind] in H.
    bind_step H dates' Hdates. apply Ok_inj in H. eauto.
  - rewrite bool_decide_eq_false_2 in H by (intros [? ?]; discriminate).
    apply Ok_inj in H. congruence.
Qed.

Lemma prepare_reference_Ok (reference_data ref : frame) :
  prepare_reference reference_data = Ok ref ->
  exists names country location codes,
    cols reference_data !! "NameWoDiacritics" = Some names
    /\ cols reference_data !! "Country" = Some country
    /\ cols reference_data !! "Location" = Some location
    /\ traverse (fun cl : pyval * pyval => series_add cl.1 cl.2)
         (zip country location) = Ok codes
    /\ ref = set_col
               (set_col reference_data "NameWoDiacritics"
                  (str_method strip <$> (str_method lower <$> names)))
               "PortCode" (str_method (take_string 5) <$> codes).
Proof.
  unfold prepare_reference. intros H.
  bind_step H names Hn. bind_step H names' Hn'.
  bind_step H country Hc. bind_step H location Hl.
  bind_step H codes Hcodes. bind_step H codes' Hcodes'.
  apply Ok_inj in H. apply str_lower_strip_Ok in Hn'. subst names'.
  apply str_accessor_Ok in Hcodes'. subst codes'.
  apply get_col_Ok in Hn, Hc, Hl. cbn in Hc, Hl.
  rewrite lookup_insert_ne in Hc by discriminate.
  rewrite lookup_insert_ne in Hl by discriminate.
  exists names, country, location, codes. repeat split; try assumption.
  symmetry. exact H.
Qed.


(** X8. The port code of a reference row is the first five characters of
    its country followed by its location when both are text, and missing
    otherwise; no code is longer than five characters. The reference table
    must have the columns [NameWoDiacritics], [Country] and [Location]. *)
Theorem X8_port_code_is_first_five_characters (reference_data ref : frame) :
  prepare_reference reference_data = Ok ref ->
  is_Some (cols reference_data !! "NameWoDiacritics")
  /\ exists country location codes,
       cols reference_data !! "Country" = Some country
       /\ cols reference_data !! "Location" = Some location
       /\ cols ref !! "PortCode" = Some codes
       /\ (forall i a b,
             country !! i = Some a -> location !! i = Some b ->
             codes !! i
             = Some (match a, b with
                     | VStr x, VStr y => VStr (take_string 5 (x ++ y))
                     | _, _ => VNaN
                     end))
       /\ Forall (fun v => v = VNaN
                           \/ exists s, v = VStr s /\ (String.length s <= 5)%nat)
            codes.
Proof.
  intros H.
  apply prepare_reference_Ok in H
    as (names & country & location & sums & Hn & Hc & Hl & Hsums & ->).
  split; [eauto |].
  exists country, location, (str_method (take_string 5) <$> sums).
  split; [exact Hc |]. split; [exact Hl |].
  split; [cbn; apply lookup_insert_eq |].
  destruct (traverse_Ok_lookup _ _ _ Hsums) as [Hlen Hall]. split.
  - intros i a b Ha Hb.
    destruct (Hall i (a, b)) as (y & Hy & Hadd).
    { rewrite lookup_zip_with, Ha, Hb. reflexivity. }
    rewrite list_lookup_fmap, Hy. cbn [fmap option_fmap option_map fst snd] in *.
    f_equal. unfold series_add in Hadd.
    destruct (isna a || isna b) eqn:E.
    + apply Ok_inj in Hadd. subst y.
      destruct a; try reflexivity; destruct b; try reflexivity;
        discriminate E.
    + destruct a; try discriminate E; destruct b; try discriminate E;
        cbn in Hadd; try discriminate Hadd; apply Ok_inj in Hadd; subst y;
        try reflexivity;
        match goal with
        | |- str_method _ (of_float ?f) = _ => destruct f eqn:F; reflexivity
        end.
  - apply Forall_fmap, Forall_forall. intros v _.
    destruct v; cbn [str_method]; auto. right. eexists.
    split; [reflexivity |]. apply length_take_string.
Qed.

Lemma X8_port_code_is_first_five_characters_witness :
  is_Some (cols rotterdam_reference !! "NameWoDiacritics")
  /\ exists country location codes,
       cols rotterdam_reference !! "Country" = Some country
       /\ cols rotterdam_reference !! "Location" = Some location
       /\ cols (Frame 1 (list_to_map [
                  ("NameWoDiacritics", [VStr "rotterdam"]);
                  ("Country", [VStr "NL"]);
                  ("Location", [VStr "ROTT"]);
                  ("PortCode", [VStr "NLROT"]) ])) !! "PortCode" = Some codes
       /\ (forall i a b,
             country !! i = Some a -> location !! i = Some b ->
             codes !! i
             = Some (match a, b with
                     | VStr x, VStr y => VStr (take_string 5 (x ++ y))
                     | _, _ => VNaN
                     end))
       /\ Forall (fun v => v = VNaN
                           \/ exists s, v = VStr s /\ (String.length s <= 5)%nat)
            codes.
Proof.
  apply (X8_port_code_is_first_five_characters rotterdam_reference).
  vm_compute. reflexivity.
Defined.

(** X9. The resolver keeps the shape of the output table: the number of
    rows, the set of columns, every column other than [Voyage_From],
    [Voyage_To] and [Date_UTC] as it was, and the length of the columns. A
    voyage column that the table lacks is skipped, not created. *)
Theorem X9_resolver_keeps_the_other_columns (lib : pylib)
  (output_data reference_data out : frame) :
  update_voyage_columns lib output_data reference_data = Ok out ->
  nrows out = nrows output_data
  /\ (forall c, is_Some (cols out !! c) <-> is_Some (cols output_data !! c))
  /\ (forall c, c ∉ resolver_columns ->
        cols out !! c = cols output_data !! c)
  /\ (wf_frame output_data -> wf_frame out).
Proof.
  intros H.
  apply update_voyage_columns_stages in H
    as (ref & out1 & out2 & _ & Hfrom & Hto & Hdate).
  destruct (update_column_frame _ _ _ _ Hfrom) as (N1 & S1 & W1).
  destruct (update_column_frame _ _ _ _ Hto) as (N2 & S2 & W2).
  apply update_column_spec in Hfrom as [O1 _].
  apply update_column_spec in Hto as [O2 _].
  assert (Hother : forall c, c ∉ resolver_columns ->
            cols out2 !! c = cols output_data !! c).
  { intros c Hc. rewrite O2, O1; [reflexivity | |];
      intros ->; apply Hc; unfold resolver_columns; repeat constructor. }
  destruct (cols out2 !! "Date_UTC") as [dates|] eqn:Hd.
  - destruct Hdate as (dates' & Hdates' & ->).
    destruct (traverse_Ok_lookup _ _ _ Hdates') as [Hlen _].
    split; [cbn; congruence |]. split; [| split].
    + intros c. cbn. destruct (decide (c = "Date_UTC")) as [-> | Hne].
      * rewrite lookup_insert_eq, <- S1, <- S2, Hd. split; eauto.
      * rewrite lookup_insert_ne by congruence. rewrite S2. apply S1.
    + intros c Hc. cbn. rewrite lookup_insert_ne; [apply Hother; exact Hc |].
      intros <-. apply Hc. unfold resolver_columns. repeat constructor.
    + intros Hwf. specialize (W2 (W1 Hwf)). apply wf_set_col; [exact W2 |].
      rewrite Hlen. apply (W2 _ _ Hd).
  - subst out. split; [congruence |]. split; [| split].
    + intros c. rewrite S2. apply S1.
    + exact Hother.
    + auto.
Qed.

Lemma resolver_reloaded :
  update_voyage_columns iso_lib reloaded_output rotterdam_reference
  = Ok reloaded_resolved.
Proof. vm_compute. reflexivity. Qed.

Lemma X9_resolver_keeps_the_other_columns_witness :
  nrows reloaded_resolved = nrows reloaded_output
  /\ (forall c, is_Some (cols reloaded_resolved !! c)
                <-> is_Some (cols reloaded_output !! c))
  /\ (forall c, c ∉ resolver_columns ->
        cols reloaded_resolved !! c = cols reloaded_output !! c)
  /\ (wf_frame reloaded_output -> wf_frame reloaded_resolved).
Proof.
  exact (X9_resolver_keeps_the_other_columns iso_lib reloaded_output
           rotterdam_reference reloaded_resolved resolver_reloaded).
Defined.

(** X10. A cell of a voyage column that is not text (a number, a date, a
    missing cell) comes out missing, when every name of the reference table
    is text, so that the mapping has no missing key. *)
Theorem X10_non_text_port_becomes_missing (lib : pylib)
  (output_data reference_data out : frame) (column : string)
  (names c : list pyval) (i : nat) (v : pyval) :
  update_voyage_columns lib output_data reference_data = Ok out ->
  cols reference_data !! "NameWoDiacritics" = Some names ->
  Forall (fun k => is_text k = true) names ->
  column = "Voyage_From" \/ column = "Voyage_To" ->
  cols output_data !! column = Some c ->
  c !! i = Some v -> is_text v = false ->
  exists c', cols out !! column = Some c' /\ c' !! i = Some VNaN.
Proof.
  intros Hrun _ _ Hcolumn Hc Hi Hv.
  apply update_voyage_columns_inv in Hrun
    as (ref & out1 & out2 & Hprep & Hfrom & Hto & Efrom & Eto).
  apply update_column_spec in Hfrom as [Hfrom_other Hfrom].
  apply update_column_spec in Hto as [Hto_other Hto].
  assert (Hcol : exists keys codes,
             cols out !! column
             = Some (zip_with fillna
                       (str_method strip <$> (str_method lower <$> c))
                       ((fun v => default VNaN (dict_get (zip keys codes) v))
                        <$> (str_method strip <$> (str_method lower <$> c))))).
  { destruct Hcolumn as [-> | ->].
    - destruct (Hfrom c Hc) as (keys & codes & _ & _ & Hout).
      exists keys, codes. rewrite Efrom, Hto_other by discriminate. exact Hout.
    - assert (Hc1 : cols out1 !! "Voyage_To" = Some c)
        by (rewrite Hfrom_other by discriminate; exact Hc).
      destruct (Hto c Hc1) as (keys & codes & _ & _ & Hout).
      exists keys, codes. rewrite Eto. exact Hout. }
  destruct Hcol as (keys & codes & Hout). eexists. split; [exact Hout |].
  rewrite lookup_zip_with, !list_lookup_fmap, Hi.
  destruct v; try discriminate Hv; reflexivity.
Qed.

Lemma X10_non_text_port_becomes_missing_witness :
  exists c',
    cols reloaded_resolved !! "Voyage_To" = Some c'
    /\ c' !! 1%nat = Some VNaN.
Proof.
  apply (X10_non_text_port_becomes_missing iso_lib reloaded_output
           rotterdam_reference reloaded_resolved "Voyage_To"
           [VStr "Rotterdam"] [VStr "Rotterdam "; VInt 7] 1 (VInt 7)).
  - exact resolver_reloaded.
  - reflexivity.
  - repeat constructor.
  - right. reflexivity.
  - reflexivity.
  - reflexivity.
  - reflexivity.
Defined.

(** X11. After the resolver the column [Date_UTC] holds dates only: each
    cell is the date of what [pd.to_datetime] reads in the cell of the
    input, and missing where it reads nothing. *)
Theorem X11_date_column_is_date_only (lib : pylib)
  (output_data reference_data out : frame) (dates : list pyval) :
  update_voyage_columns lib output_data reference_data = Ok out ->
  cols output_data !! "Date_UTC" = Some dates ->
  exists dates',
    cols out !! "Date_UTC" = Some dates'
    /\ length dates' = length dates
    /\ Forall (fun v => v = VNaN \/ exists d, v = VDate d) dates'
    /\ forall i v, dates !! i = Some v ->
       exists r, to_datetime lib false v = Ok r
         /\ dates' !! i
            = Some (match r with
                    | Some dt => VDate (dt_date dt)
                    | None => VNaN
                    end).
Proof.
  intros H Hd.
  apply update_voyage_columns_stages in H
    as (ref & out1 & out2 & _ & Hfrom & Hto & Hdate).
  apply update_column_spec in Hfrom as [O1 _].
  apply update_column_spec in Hto as [O2 _].
  rewrite O2, O1, Hd in Hdate by discriminate.
  destruct Hdate as (dates' & Hdates' & ->).
  destruct (traverse_Ok_lookup _ _ _ Hdates') as [Hlen Hall].
  exists dates'. split; [cbn; apply lookup_insert_eq |].
  split; [exact Hlen |]. split.
  - eapply traverse_Forall; [| exact Hdates'].
    intros a b Hab. unfold to_date in Hab.
    bind_step Hab r Hr. apply Ok_inj in Hab. subst b.
    destruct r; eauto.
  - intros i v Hv. destruct (Hall i v Hv) as (y & Hy & Hdt).
    unfold to_date in Hdt. bind_step Hdt r Hr. apply Ok_inj in Hdt.
    subst y. eauto.
Qed.

Lemma X11_date_column_is_date_only_witness :
  exists dates',
    cols reloaded_resolved !! "Date_UTC" = Some dates'
    /\ length dates'
       = length [VTimestamp (DateTime (Date 2024 3 2) (Time 10 0 0));
                 VStr "soon"]
    /\ Forall (fun v => v = VNaN \/ exists d, v = VDate d) dates'
    /\ forall i v,
       [VTimestamp (DateTime (Date 2024 3 2) (Time 10 0 0)); VStr "soon"] !! i
       = Some v ->
       exists r, to_datetime iso_lib false v = Ok r
         /\ dates' !! i
            = Some (match r with
                    | Some dt => VDate (dt_date dt)
                    | None => VNaN
                    end).
Proof.
  apply (X11_date_column_is_date_only iso_lib reloaded_output
           rotterdam_reference reloaded_resolved _ resolver_reloaded).
  reflexivity.
Defined.

(** ** Properties of the record transformer *)

Lemma list_to_map_assoc {A} (l : list (string * A)) (k : string) :
  (list_to_map l : gmap string A) !! k = assoc k l.
Proof.
  induction l as [|[k' a] l IH]; [apply lookup_empty |].
  cbn [list_to_map foldr assoc]. destruct (String.eqb_spec k k') as [-> | Hne].
  - apply lookup_insert_eq.
  - rewrite lookup_insert_ne by (intros E; apply Hne; symmetry; exact E).
    exact IH.
Qed.

Lemma assoc_Some_elem {A} (l : list (string * A)) (k : string) (a : A) :
  assoc k l = Some a -> k ∈ l.*1.
Proof.
  induction l as [|[k' a'] l IH]; [discriminate |].
  cbn [assoc]. destruct (String.eqb_spec k k') as [-> | Hne]; intros H.
  - left.
  - right. apply IH. exact H.
Qed.

(** The table of the [pd.DataFrame({...})] expression, column by column. *)
Lemma build_transformed_Ok (lib : pylib) (df built : frame) :
  build_transformed lib df = Ok built ->
  exists imo report_to timezone type report_period distance latitude
         lat_deg lat_min lat_dir longitude lon_deg lon_min lon_dir
         next_port cargo wind_force wind_speed wind_dir wind_dir'
         sea_swell current_speed current_dir current_dir'
         log_speed gps_speed comments,
    (cols df !! "IMO No" = Some imo
     /\ cols df !! "Report To" = Some report_to
     /\ cols df !! "Timezone" = Some timezone
     /\ cols df !! "Type" = Some type
     /\ cols df !! "Report Period" = Some report_period
     /\ cols df !! "GPS Dist." = Some distance
     /\ cols df !! "Latitude" = Some latitude
     /\ cols df !! "Longitude" = Some longitude
     /\ cols df !! "Next Port" = Some next_port
     /\ cols df !! "Cargo Quantity" = Some cargo)
    /\ (cols df !! "True Wind Force" = Some wind_force
        /\ cols df !! "WNI Relative Wind Speed" = Some wind_speed
        /\ cols df !! "WNI Relative Wind Direction" = Some wind_dir
        /\ cols df !! "Sea Swell" = Some sea_swell
        /\ cols df !! "WNI Current Speed" = Some current_speed
        /\ cols df !! "WNI Current Direction" = Some current_dir
        /\ cols df !! "Log Speed" = Some log_speed
        /\ cols df !! "GPS Speed" = Some gps_speed
        /\ cols df !! "Comments" = Some comments)
    /\ (traverse (dms_part (fun r => r.1.1) true) latitude = Ok lat_deg
        /\ traverse (dms_part (fun r => r.1.2) true) latitude = Ok lat_min
        /\ traverse (dms_part (fun r => r.2) true) latitude = Ok lat_dir
        /\ traverse (dms_part (fun r => r.1.1) false) longitude = Ok lon_deg
        /\ traverse (dms_part (fun r => r.1.2) false) longitude = Ok lon_min
        /\ traverse (dms_part (fun r => r.2) false) longitude = Ok lon_dir
        /\ traverse (to_int_coerce lib) wind_dir = Ok wind_dir'
        /\ traverse (to_int_coerce lib) current_dir = Ok current_dir')
    /\ nrows built = nrows df
    /\ forall c,
         cols built !! c
         = assoc c [
             ("IMO", imo);
             ("Date_UTC",
              zip_with (fun r t => (adjust_to_utc lib r t).2) report_to timezone);
             ("Time_UTC",
              zip_with (fun r t => (adjust_to_utc lib r t).1) report_to timezone);
             ("Event", process_event lib <$> type);
             ("Time_Since_Previous_Report", report_period);
             ("Distance", distance);
             ("Latitude_Degree", lat_deg);
             ("Latitude_Minutes", lat_min);
             ("Latitude_North_South", lat_dir);
             ("Longitude_Degree", lon_deg);
             ("Longitude_Minutes", lon_min);
             ("Longitude_East_West", lon_dir);
             ("Voyage_From", shift1 next_port);
             ("Voyage_To", next_port);
             ("Cargo_Mt", cargo);
             ("Time_Elapsed_Sailing", report_period);
             ("Wind_Force_Bft", wind_force);
             ("Wind_Force_Kn", wind_speed);
             ("Wind_Dir_Degree", wind_dir');
             ("Sea_state_Force_Douglas", sea_swell);
             ("Current_Speed", current_speed);
             ("Current_Dir", current_dir');
             ("Speed_Through_Water", log_speed);
             ("Speed_GPS", gps_speed);
             ("Comments", comments) ].
Proof.
  intros H. unfold build_transformed in H. cbv zeta in H.
  bind_step H imo Himo. bind_step H report_to Hreport_to.
  bind_step H timezone Htimezone. bind_step H type Htype.
  bind_step H report_period Hreport_period. bind_step H distance Hdistance.
  bind_step H latitude Hlatitude. bind_step H lat_deg Hlat_deg.
  bind_step H lat_min Hlat_min. bind_step H lat_dir Hlat_dir.
  bind_step H longitude Hlongitude. bind_step H lon_deg Hlon_deg.
  bind_step H lon_min Hlon_min. bind_step H lon_dir Hlon_dir.
  bind_step H next_port Hnext_port. bind_step H cargo Hcargo.
  bind_step H wind_force Hwind_force. bind_step H wind_speed Hwind_speed.
  bind_step H wind_dir Hwind_dir. bind_step H wind_dir' Hwind_dir'.
  bind_step H sea_swell Hsea_swell. bind_step H current_speed Hcurrent_speed.
  bind_step H current_dir Hcurrent_dir. bind_step H current_dir' Hcurrent_dir'.
  bind_step H log_speed Hlog_speed. bind_step H gps_speed Hgps_speed.
  bind_step H comments Hcomments.
  apply Ok_inj in H. subst built.
  exists imo, report_to, timezone, type, report_period, distance, latitude,
    lat_deg, lat_min, lat_dir, longitude, lon_deg, lon_min, lon_dir,
    next_port, cargo, wind_force, wind_speed, wind_dir, wind_dir',
    sea_swell, current_speed, current_dir, current_dir',
    log_speed, gps_speed, comments.
  split; [repeat split; apply get_col_Ok; assumption |].
  split; [repeat split; apply get_col_Ok; assumption |].
  split; [repeat split; assumption |].
  split; [reflexivity |].
  intros c. cbn [cols]. apply list_to_map_assoc.
Qed.

(** The columns of the returned table: the rows of the built table, and of
    the columns copied from the aggregated input, in the order
    [row_order]. *)
Lemma transform_rows (lib : pylib) (df out : frame) :
  wf_frame df -> transform_navfleet_data lib df = Ok out ->
  exists built fuel,
    build_transformed lib df = Ok built
    /\ map_fuel_type_consumption lib df = Ok fuel
    /\ row_order lib df ≡ₚ seq 0 (nrows df)
    /\ nrows out = nrows df
    /\ forall c,
         cols out !! c
         = if (c =? "DateTime_UTC")%string then None
           else take_rows (row_order lib df)
                  <$> (if consumption_named c
                       then match cols fuel !! c with
                            | Some v => Some v
                            | None => cols built !! c
                            end
                       else cols built !! c).
Proof.
  intros Hwf H.
  apply transform_inv in H as (pre & keys & Hpre & Hkeys & Hn & Hout).
  destruct (transform_unsorted_inv lib df pre Hwf Hpre)
    as (fuel0 & _ & Hnp & _ & d & t & Hd & Ht & Ld & Lt).
  assert (Hlen : length keys = nrows df).
  { rewrite (datetime_utc_length lib pre keys d t Hkeys Hd Ht). lia. }
  assert (Horder : row_order lib df = nargsort keys).
  { unfold row_order. rewrite Hpre. cbn [rbind]. rewrite Hkeys. reflexivity. }
  unfold transform_unsorted in Hpre.
  bind_step Hpre built Hbuilt. bind_step Hpre fuel Hfuel.
  apply Ok_inj in Hpre.
  exists built, fuel. split; [reflexivity |]. split; [reflexivity |].
  split; [rewrite Horder, nargsort_Permutation, Hlen; reflexivity |].
  split; [congruence |].
  intros c. rewrite Hout, lookup_fmap, Horder.
  destruct (String.eqb_spec c "DateTime_UTC") as [-> | Hne].
  { rewrite lookup_delete_eq. reflexivity. }
  rewrite lookup_delete_ne by congruence. f_equal.
  rewrite <- Hpre, !copy_prefixed_lookup. unfold consumption_named.
  destruct (startswith "ME_Consumption_" c),
    (startswith "AE_Consumption_" c),
    (startswith "Boiler_Consumption_" c),
    (cols fuel !! c); reflexivity.
Qed.

Lemma output_columns_not_consumption :
  Forall (fun c => consumption_named c = false
                   /\ (c =? "DateTime_UTC")%string = false) output_columns.
Proof. repeat constructor. Qed.

Lemma type_columns_not_consumption (c : string) :
  c ∈ type_columns -> consumption_named c = false.
Proof.
  unfold type_columns. rewrite !elem_of_cons, elem_of_nil.
  intros [-> | [-> | [-> | []]]]; reflexivity.
Qed.

(** [shift(1)]: a missing value first, then the cells but the last. *)
Lemma shift1_lookup (c : list pyval) (i : nat) :
  (i < length c)%nat ->
  shift1 c !! i = match i with
                  | O => Some VNaN
                  | S k => c !! k
                  end.
Proof.
  intros Hi. destruct c as [|x c]; [cbn in Hi; lia |].
  unfold shift1. destruct i as [|k]; [reflexivity |].
  rewrite removelast_firstn_len. cbn [length Init.Nat.pred] in *.
  change ((VNaN :: take (length c) (x :: c)) !! S k)
    with (take (length c) (x :: c) !! k).
  apply lookup_take_lt. lia.
Qed.

(** A row of the order is a row of the input. *)
Lemma row_order_lookup (lib : pylib) (df : frame) (j i : nat) :
  row_order lib df ≡ₚ seq 0 (nrows df) ->
  row_order lib df !! j = Some i -> (i < nrows df)%nat.
Proof.
  intros Hp Hj. apply list_elem_of_lookup_2 in Hj. rewrite Hp in Hj.
  apply elem_of_seq in Hj. lia.
Qed.

(** The three passes of the converter over a coordinate column agree row by
    row: each cell of the three columns is a part of one triple. *)
Lemma dms_columns (is_latitude : bool) (c deg mins dir : list pyval) :
  traverse (dms_part (fun r => r.1.1) is_latitude) c = Ok deg ->
  traverse (dms_part (fun r => r.1.2) is_latitude) c = Ok mins ->
  traverse (dms_part (fun r => r.2) is_latitude) c = Ok dir ->
  forall i x, c !! i = Some x ->
    exists d m h,
      convert_decimal_to_dms x is_latitude = Ok (d, m, h)
      /\ deg !! i = Some d /\ mins !! i = Some m /\ dir !! i = Some h.
Proof.
  intros H1 H2 H3 i x Hx.
  destruct (traverse_Ok_lookup _ _ _ H1) as [_ A1].
  destruct (traverse_Ok_lookup _ _ _ H2) as [_ A2].
  destruct (traverse_Ok_lookup _ _ _ H3) as [_ A3].
  destruct (A1 i x Hx) as (d & Hd & E1).
  destruct (A2 i x Hx) as (m & Hm & E2).
  destruct (A3 i x Hx) as (h & Hh & E3).
  unfold dms_part in E1, E2, E3.
  destruct (convert_decimal_to_dms x is_latitude) as [[[d' m'] h']|e];
    [| discriminate E1].
  cbn in E1, E2, E3. apply Ok_inj in E1, E2, E3. subst d m h.
  exists d', m', h'. auto.
Qed.

Lemma to_int_coerce_int (lib : pylib) (v w : pyval) :
  to_int_coerce lib v = Ok w -> exists n, w = VInt n.
Proof.
  unfold to_int_coerce. intros H.
  destruct v; try (apply Ok_inj in H; subst w; eauto); try discriminate H.
  destruct (float_of_text lib s) as [[q| |]|]; try discriminate H;
    apply Ok_inj in H; subst w; eauto.
Qed.

(** X12. The schema of the transformer. It returns only when the input has
    the nineteen columns it reads. The result has the twenty-five columns
    of the table it builds, and besides them only columns named with one of
    the three consumption prefixes: the target columns of the mapping
    tables, and every column of that kind the input already had, which is
    carried over with its rows reordered. There is no column
    [DateTime_UTC]. *)
Theorem X12_transformer_schema (lib : pylib) (navfleet_data out : frame) :
  wf_frame navfleet_data ->
  transform_navfleet_data lib navfleet_data = Ok out ->
  Forall (fun c => is_Some (cols navfleet_data !! c)) required_columns
  /\ Forall (fun c => is_Some (cols out !! c)) output_columns
  /\ (forall c, is_Some (cols out !! c) ->
        c ∈ output_columns
        \/ (consumption_named c = true
            /\ (c ∈ consumption_columns
                \/ is_Some (cols navfleet_data !! c))))
  /\ (forall c, consumption_named c = true -> c ∉ consumption_columns ->
        cols out !! c
        = take_rows (row_order lib navfleet_data)
            <$> cols navfleet_data !! c).
Proof.
  intros Hwf H.
  destruct (transform_rows lib navfleet_data out Hwf H)
    as (built & fuel & Hbuilt & Hfuel & _ & _ & Hcols).
  destruct (build_transformed_Ok lib navfleet_data built Hbuilt)
    as (imo & report_to & timezone & type & report_period & distance
        & latitude & lat_deg & lat_min & lat_dir & longitude & lon_deg
        & lon_min & lon_dir & next_port & cargo & wind_force & wind_speed
        & wind_dir & wind_dir' & sea_swell & current_speed & current_dir
        & current_dir' & log_speed & gps_speed & comments
        & In1 & In2 & _ & _ & Hb).
  destruct (map_fuel_type_consumption_inv lib navfleet_data fuel Hwf Hfuel)
    as (_ & _ & Hother & _ & _).
  assert (Hfuel_other : forall c, consumption_named c = true ->
            c ∉ consumption_columns ->
            cols fuel !! c = cols navfleet_data !! c).
  { intros c Hc Hn. apply Hother; [exact Hn |]. intros Ht.
    apply type_columns_not_consumption in Ht. congruence. }
  assert (Hbuilt_named : forall c, consumption_named c = true ->
            cols built !! c = None).
  { intros c Hc. destruct (cols built !! c) as [v|] eqn:E; [| reflexivity].
    rewrite Hb in E. apply assoc_Some_elem in E.
    pose proof output_columns_not_consumption as N.
    rewrite Forall_forall in N. destruct (N c E) as [N1 _]. congruence. }
  split.
  { destruct In1 as (? & ? & ? & ? & ? & ? & ? & ? & ? & ?).
    destruct In2 as (? & ? & ? & ? & ? & ? & ? & ? & ?).
    unfold required_columns. repeat (apply Forall_cons; split; [eauto |]).
    apply Forall_nil_2. }
  split.
  { unfold output_columns.
    repeat (apply Forall_cons; split;
            [rewrite Hcols, Hb; cbn; eauto |]).
    apply Forall_nil_2. }
  split.
  - intros c [v Hv]. rewrite Hcols in Hv.
    destruct (c =? "DateTime_UTC")%string; [discriminate |].
    destruct (consumption_named c) eqn:Hc.
    + right. split; [reflexivity |].
      destruct (decide (c ∈ consumption_columns)) as [Hin | Hn]; [auto |].
      right. rewrite (Hbuilt_named c Hc), (Hfuel_other c Hc Hn) in Hv.
      destruct (cols navfleet_data !! c); [eauto | discriminate].
    + left. destruct (cols built !! c) as [w|] eqn:E; [| discriminate].
      rewrite Hb in E. exact (assoc_Some_elem _ _ _ E).
  - intros c Hc Hn. rewrite Hcols, Hc, (Hbuilt_named c Hc), (Hfuel_other c Hc Hn).
    assert (Hk : (c =? "DateTime_UTC")%string = false).
    { apply String.eqb_neq. intros ->. discriminate Hc. }
    rewrite Hk. destruct (cols navfleet_data !! c); reflexivity.
Qed.

(** X13. The rows are kept together: one order, a permutation of the input
    rows, serves every column, and every column of the result has as many
    cells as the input has rows. Each of the thirteen output columns that
    is an input column as it is holds the cells of that input column in
    this order; [Time_Elapsed_Sailing] and [Time_Since_Previous_Report] are
    both the column [Report Period]. *)
Theorem X13_rows_kept_together (lib : pylib) (navfleet_data out : frame) :
  wf_frame navfleet_data ->
  transform_navfleet_data lib navfleet_data = Ok out ->
  row_order lib navfleet_data ≡ₚ seq 0 (nrows navfleet_data)
  /\ wf_frame out
  /\ forall to from, (to, from) ∈ copied_columns ->
     exists c,
       cols navfleet_data !! from = Some c
       /\ cols out !! to = Some (take_rows (row_order lib navfleet_data) c).
Proof.
  intros Hwf H.
  destruct (transform_rows lib navfleet_data out Hwf H)
    as (built & fuel & Hbuilt & Hfuel & Hperm & Hn & Hcols).
  destruct (build_transformed_Ok lib navfleet_data built Hbuilt)
    as (imo & report_to & timezone & type & report_period & distance
        & latitude & lat_deg & lat_min & lat_dir & longitude & lon_deg
        & lon_min & lon_dir & next_port & cargo & wind_force & wind_speed
        & wind_dir & wind_dir' & sea_swell & current_speed & current_dir
        & current_dir' & log_speed & gps_speed & comments
        & In1 & In2 & _ & _ & Hb).
  split; [exact Hperm |]. split.
  { intros c v Hv. rewrite Hcols in Hv.
    destruct (c =? "DateTime_UTC")%string; [discriminate |].
    apply fmap_Some in Hv as (x & _ & ->).
    rewrite take_rows_length, Hn, Hperm. apply length_seq. }
  destruct In1 as (? & ? & ? & ? & ? & ? & ? & ? & ? & ?).
  destruct In2 as (? & ? & ? & ? & ? & ? & ? & ? & ?).
  assert (Hall : Forall (fun p : string * string =>
            exists c, cols navfleet_data !! p.2 = Some c
              /\ cols out !! p.1
                 = Some (take_rows (row_order lib navfleet_data) c))
            copied_columns).
  { unfold copied_columns.
    repeat (apply Forall_cons; split;
            [eexists; split; [eassumption | rewrite Hcols, Hb; reflexivity] |]).
    apply Forall_nil_2. }
  intros to from Hin. rewrite Forall_forall in Hall. exact (Hall _ Hin).
Qed.

(** X14. [Voyage_From] is taken from the row that precedes in the input,
    not from the row that precedes in the chronological order: the output
    row that comes from input row [i] holds the [Next Port] of input row
    [i - 1], and a missing value when [i] is the first row of the input. *)
Theorem X14_voyage_from_follows_input_order
  (lib : pylib) (navfleet_data out : frame) :
  wf_frame navfleet_data ->
  transform_navfleet_data lib navfleet_data = Ok out ->
  exists next_port voyage_from,
    cols navfleet_data !! "Next Port" = Some next_port
    /\ cols out !! "Voyage_From" = Some voyage_from
    /\ forall j i, row_order lib navfleet_data !! j = Some i ->
       voyage_from !! j
       = match i with
         | O => Some VNaN
         | S k => next_port !! k
         end.
Proof.
  intros Hwf H.
  destruct (transform_rows lib navfleet_data out Hwf H)
    as (built & fuel & Hbuilt & Hfuel & Hperm & _ & Hcols).
  destruct (build_transformed_Ok lib navfleet_data built Hbuilt)
    as (imo & report_to & timezone & type & report_period & distance
        & latitude & lat_deg & lat_min & lat_dir & longitude & lon_deg
        & lon_min & lon_dir & next_port & cargo & wind_force & wind_speed
        & wind_dir & wind_dir' & sea_swell & current_speed & current_dir
        & current_dir' & log_speed & gps_speed & comments
        & In1 & _ & _ & _ & Hb).
  destruct In1 as (_ & _ & _ & _ & _ & _ & _ & _ & Hnp & _).
  exists next_port, (take_rows (row_order lib navfleet_data) (shift1 next_port)).
  split; [exact Hnp |].
  split; [rewrite Hcols, Hb; reflexivity |].
  intros j i Hj.
  pose proof (row_order_lookup lib navfleet_data j i Hperm Hj) as Hi.
  rewrite <- (Hwf _ _ Hnp) in Hi.
  pose proof (shift1_lookup next_port i Hi) as Hs.
  destruct i as [|k].
  - apply (take_rows_lookup _ _ j 0%nat); assumption.
  - destruct (lookup_lt_is_Some_2 next_port k) as [y Hy]; [lia |].
    rewrite Hy in Hs |- *. apply (take_rows_lookup _ _ j (S k)); assumption.
Qed.

(** X15. The date, the time and the event of an output row are those the
    timezone normalizer and the event normalizer give for the input row it
    comes from. Hence the date and the time of a row are both present or
    both [None]. *)
Theorem X15_date_time_event_by_row (lib : pylib) (navfleet_data out : frame) :
  wf_frame navfleet_data ->
  transform_navfleet_data lib navfleet_data = Ok out ->
  exists report_to timezone type dates times events,
    (cols navfleet_data !! "Report To" = Some report_to
     /\ cols navfleet_data !! "Timezone" = Some timezone
     /\ cols navfleet_data !! "Type" = Some type)
    /\ (cols out !! "Date_UTC" = Some dates
        /\ cols out !! "Time_UTC" = Some times
        /\ cols out !! "Event" = Some events)
    /\ forall j i r z e,
         row_order lib navfleet_data !! j = Some i ->
         report_to !! i = Some r -> timezone !! i = Some z ->
         type !! i = Some e ->
         dates !! j = Some (adjust_to_utc lib r z).2
         /\ times !! j = Some (adjust_to_utc lib r z).1
         /\ events !! j = Some (process_event lib e)
         /\ ((exists d t, dates !! j = Some (VDate d)
                          /\ times !! j = Some (VTime t))
             \/ (dates !! j = Some VNone /\ times !! j = Some VNone)).
Proof.
  intros Hwf H.
  destruct (transform_rows lib navfleet_data out Hwf H)
    as (built & fuel & Hbuilt & Hfuel & Hperm & _ & Hcols).
  destruct (build_transformed_Ok lib navfleet_data built Hbuilt)
    as (imo & report_to & timezone & type & report_period & distance
        & latitude & lat_deg & lat_min & lat_dir & longitude & lon_deg
        & lon_min & lon_dir & next_port & cargo & wind_force & wind_speed
        & wind_dir & wind_dir' & sea_swell & current_speed & current_dir
        & current_dir' & log_speed & gps_speed & comments
        & In1 & _ & _ & _ & Hb).
  destruct In1 as (_ & Hr & Hz & Ht & _).
  do 6 eexists. split; [repeat split; eassumption |].
  split; [repeat split; rewrite Hcols, Hb; reflexivity |].
  intros j i r z e Hj Hri Hzi Hei.
  assert (Hd : take_rows (row_order lib navfleet_data)
                 (zip_with (fun r t => (adjust_to_utc lib r t).2) report_to timezone)
               !! j = Some (adjust_to_utc lib r z).2).
  { apply (take_rows_lookup _ _ j i); [exact Hj |].
    rewrite lookup_zip_with, Hri, Hzi. reflexivity. }
  assert (Htm : take_rows (row_order lib navfleet_data)
                  (zip_with (fun r t => (adjust_to_utc lib r t).1) report_to timezone)
                !! j = Some (adjust_to_utc lib r z).1).
  { apply (take_rows_lookup _ _ j i); [exact Hj |].
    rewrite lookup_zip_with, Hri, Hzi. reflexivity. }
  split; [exact Hd |]. split; [exact Htm |]. split.
  { apply (take_rows_lookup _ _ j i); [exact Hj |].
    rewrite list_lookup_fmap, Hei. reflexivity. }
  rewrite Hd, Htm.
  destruct (adjust_to_utc_shape lib r z) as [(t & d & E) | E]; rewrite E.
  - left. eauto.
  - right. split; reflexivity.
Qed.



Lemma X12_transformer_schema_witness :
  Forall (fun c => is_Some (cols sample_reports !! c)) required_columns
  /\ Forall (fun c => is_Some (cols sample_output !! c)) output_columns
  /\ (forall c, is_Some (cols sample_output !! c) ->
        c ∈ output_columns
        \/ (consumption_named c = true
            /\ (c ∈ consumption_columns
                \/ is_Some (cols sample_reports !! c))))
  /\ (forall c, consumption_named c = true -> c ∉ consumption_columns ->
        cols sample_output !! c
        = take_rows (row_order iso_lib sample_reports)
            <$> cols sample_reports !! c).
Proof.
  exact (X12_transformer_schema iso_lib sample_reports sample_output
           sample_reports_wf sample_transformed).
Defined.

Lemma X13_rows_kept_together_witness :
  row_order iso_lib sample_reports ≡ₚ seq 0 (nrows sample_reports)
  /\ wf_frame sample_output
  /\ forall to from, (to, from) ∈ copied_columns ->
     exists c,
       cols sample_reports !! from = Some c
       /\ cols sample_output !! to
          = Some (take_rows (row_order iso_lib sample_reports) c).
Proof.
  exact (X13_rows_kept_together iso_lib sample_reports sample_output
           sample_reports_wf sample_transformed).
Defined.

Lemma X14_voyage_from_follows_input_order_witness :
  exists next_port voyage_from,
    cols sample_reports !! "Next Port" = Some next_port
    /\ cols sample_output !! "Voyage_From" = Some voyage_from
    /\ forall j i, row_order iso_lib sample_reports !! j = Some i ->
       voyage_from !! j
       = match i with
         | O => Some VNaN
         | S k => next_port !! k
         end.
Proof.
  exact (X14_voyage_from_follows_input_order iso_lib sample_reports sample_output
           sample_reports_wf sample_transformed).
Defined.

Lemma X15_date_time_event_by_row_witness :
  exists report_to timezone type dates times events,
    (cols sample_reports !! "Report To" = Some report_to
     /\ cols sample_reports !! "Timezone" = Some timezone
     /\ cols sample_reports !! "Type" = Some type)
    /\ (cols sample_output !! "Date_UTC" = Some dates
        /\ cols sample_output !! "Time_UTC" = Some times
        /\ cols sample_output !! "Event" = Some events)
    /\ forall j i r z e,
         row_order iso_lib sample_reports !! j = Some i ->
         report_to !! i = Some r -> timezone !! i = Some z ->
         type !! i = Some e ->
         dates !! j = Some (adjust_to_utc iso_lib r z).2
         /\ times !! j = Some (adjust_to_utc iso_lib r z).1
         /\ events !! j = Some (process_event iso_lib e)
         /\ ((exists d t, dates !! j = Some (VDate d)
                          /\ times !! j = Some (VTime t))
             \/ (dates !! j = Some VNone /\ times !! j = Some VNone)).
Proof.
  exact (X15_date_time_event_by_row iso_lib sample_reports sample_output
           sample_reports_wf sample_transformed).
Defined.



Lemma traverse_returns {A B} (f : A -> result B) (l : list A) :
  Forall (fun a => returns (f a)) l <-> returns (traverse f l).
Proof.
  split.
  - induction 1 as [|a l [b Hb] _ [bs Hbs]]; [exists []; reflexivity |].
    exists (b :: bs). cbn [traverse]. rewrite Hb. cbn [rbind]. rewrite Hbs.
    reflexivity.
  - intros [l' H]. destruct (traverse_Ok_lookup f l l' H) as [_ Hall].
    apply Forall_lookup. intros i a Ha. destruct (Hall i a Ha) as (b & _ & Hb).
    exists b. exact Hb.
Qed.

Lemma convert_returns (x : pyval) (is_latitude : bool) :
  returns (convert_decimal_to_dms x is_latitude) <-> is_coordinate x = true.
Proof.
  unfold returns.
  destruct x; cbn; (split; [intros [a H] | intros H]);
    try reflexivity; try discriminate H; eauto.
Qed.

Lemma dms_part_returns {A} (part : pyval * pyval * pyval -> A)
  (is_latitude : bool) (x : pyval) :
  returns (dms_part part is_latitude x) <-> is_coordinate x = true.
Proof.
  rewrite <- (convert_returns x is_latitude). unfold dms_part, returns.
  destruct (convert_decimal_to_dms x is_latitude) as [r|e]; cbn [rbind].
  - split; intros _; eauto.
  - split; intros [a H]; discriminate H.
Qed.

Lemma to_int_coerce_returns (lib : pylib) (x : pyval) :
  returns (to_int_coerce lib x) <-> is_direction lib x = true.
Proof.
  unfold returns, to_int_coerce, is_direction.
  destruct x; try (split; [reflexivity | eauto]);
    try (split; [intros [a H]; discriminate H | discriminate]).
  destruct (float_of_text lib s) as [[q|b|]|];
    try (split; [reflexivity | eauto]).
  split; [intros [a H]; discriminate H | discriminate].
Qed.

Lemma coordinates_return {A} (part : pyval * pyval * pyval -> A)
  (is_latitude : bool) (col : list pyval) :
  Forall (fun x => is_coordinate x = true) col <->
  returns (traverse (dms_part part is_latitude) col).
Proof.
  rewrite <- traverse_returns. apply Forall_iff. intros x. symmetry.
  apply dms_part_returns.
Qed.

Lemma directions_return (lib : pylib) (col : list pyval) :
  Forall (fun x => is_direction lib x = true) col <->
  returns (traverse (to_int_coerce lib) col).
Proof.
  rewrite <- traverse_returns. apply Forall_iff. intros x. symmetry.
  apply to_int_coerce_returns.
Qed.

(** The table of the [pd.DataFrame({...})] expression is built whenever
    the input has the columns it reads, its coordinates are finite numbers
    or missing, and its directions can be cast. *)
Lemma build_transformed_returns (lib : pylib) (df : frame)
  (latitude longitude wind_dir current_dir : list pyval) :
  Forall (fun c => is_Some (cols df !! c)) required_columns ->
  cols df !! "Latitude" = Some latitude ->
  cols df !! "Longitude" = Some longitude ->
  cols df !! "WNI Relative Wind Direction" = Some wind_dir ->
  cols df !! "WNI Current Direction" = Some current_dir ->
  Forall (fun x => is_coordinate x = true) latitude ->
  Forall (fun x => is_coordinate x = true) longitude ->
  Forall (fun x => is_direction lib x = true) wind_dir ->
  Forall (fun x => is_direction lib x = true) current_dir ->
  returns (build_transformed lib df).
Proof.
  intros Hreq Hlat Hlon Hwd Hcd Flat Flon Fwd Fcd.
  unfold required_columns in Hreq.
  repeat match type of Hreq with
         | Forall _ (_ :: _) =>
             let x := fresh "col" in let E := fresh "E" in
             apply Forall_cons in Hreq as [[x E] Hreq];
             apply get_col_Ok in E
         end.
  apply get_col_Ok in Hlat, Hlon, Hwd, Hcd.
  destruct (proj1 (coordinates_return (fun r => r.1.1) true latitude) Flat)
    as [lat_deg T1].
  destruct (proj1 (coordinates_return (fun r => r.1.2) true latitude) Flat)
    as [lat_min T2].
  destruct (proj1 (coordinates_return (fun r => r.2) true latitude) Flat)
    as [lat_dir T3].
  destruct (proj1 (coordinates_return (fun r => r.1.1) false longitude) Flon)
    as [lon_deg T4].
  destruct (proj1 (coordinates_return (fun r => r.1.2) false longitude) Flon)
    as [lon_min T5].
  destruct (proj1 (coordinates_return (fun r => r.2) false longitude) Flon)
    as [lon_dir T6].
  destruct (proj1 (directions_return lib wind_dir) Fwd) as [wind_dir' T7].
  destruct (proj1 (directions_return lib current_dir) Fcd) as [current_dir' T8].
  unfold build_transformed. cbv zeta.
  repeat match goal with
         | H : get_col df ?c = Ok _ |- context [get_col df ?c] =>
             rewrite H; cbn [rbind]
         | H : traverse ?f ?l = Ok _ |- context [traverse ?f ?l] =>
             rewrite H; cbn [rbind]
         end.
  eexists. reflexivity.
Qed.

Lemma combine_key_returns (lib : pylib) (d t : pyval) :
  returns (combine_key lib d t)
  <-> returns (to_datetime lib false (VStr (py_str lib d ++ " " ++ py_str lib t))).
Proof.
  unfold combine_key, returns.
  destruct (to_datetime lib false _) as [r|e]; cbn [rbind].
  - split; intros _; eauto.
  - split; intros [a H]; discriminate H.
Qed.

(** The dates and the times of the table before the sort. *)
Lemma transform_unsorted_dates (lib : pylib) (df pre : frame)
  (report_to timezone : list pyval) :
  transform_unsorted lib df = Ok pre ->
  cols df !! "Report To" = Some report_to ->
  cols df !! "Timezone" = Some timezone ->
  cols pre !! "Date_UTC"
  = Some (zip_with (fun r t => (adjust_to_utc lib r t).2) report_to timezone)
  /\ cols pre !! "Time_UTC"
     = Some (zip_with (fun r t => (adjust_to_utc lib r t).1) report_to timezone).
Proof.
  intros H Hr Hz. unfold transform_unsorted in H.
  bind_step H built Hbuilt. bind_step H fuel Hfuel. apply Ok_inj in H.
  subst pre.
  destruct (build_transformed_Ok lib df built Hbuilt)
    as (imo & report_to' & timezone' & type & report_period & distance
        & latitude & lat_deg & lat_min & lat_dir & longitude & lon_deg
        & lon_min & lon_dir & next_port & cargo & wind_force & wind_speed
        & wind_dir & wind_dir' & sea_swell & current_speed & current_dir
        & current_dir' & log_speed & gps_speed & comments
        & In1 & _ & _ & _ & Hb).
  destruct In1 as (_ & Hr' & Hz' & _).
  rewrite Hr in Hr'. rewrite Hz in Hz'. injection Hr' as <-. injection Hz' as <-.
  rewrite !copy_prefixed_lookup. cbn [startswith Ascii.eqb Bool.eqb].
  rewrite !Hb. split; reflexivity.
Qed.

(** X18. What makes the transformer return, and nothing else does: the
    input has the nineteen columns it reads; every latitude and longitude
    is a finite number or missing; no direction is an infinite float or
    text that reads as one; the aggregator returns; and the parser of
    pandas does not raise on the date and time of a row printed as text.
    The timezone normalizer, the event normalizer, the sort and the drop of
    the key column never make it fail. *)
Theorem X18_transformer_returns_iff (lib : pylib) (navfleet_data : frame) :
  returns (transform_navfleet_data lib navfleet_data) <->
  Forall (fun c => is_Some (cols navfleet_data !! c)) required_columns
  /\ (forall c col, c ∈ ["Latitude"; "Longitude"] ->
        cols navfleet_data !! c = Some col ->
        Forall (fun x => is_coordinate x = true) col)
  /\ (forall c col,
        c ∈ ["WNI Relative Wind Direction"; "WNI Current Direction"] ->
        cols navfleet_data !! c = Some col ->
        Forall (fun x => is_direction lib x = true) col)
  /\ returns (map_fuel_type_consumption lib navfleet_data)
  /\ (forall report_to timezone i r z,
        cols navfleet_data !! "Report To" = Some report_to ->
        cols navfleet_data !! "Timezone" = Some timezone ->
        report_to !! i = Some r -> timezone !! i = Some z ->
        returns (to_datetime lib false
                   (VStr (py_str lib (adjust_to_utc lib r z).2 ++ " "
                          ++ py_str lib (adjust_to_utc lib r z).1)))).
Proof.
  split.
  - intros [out H].
    apply transform_inv in H as (pre & keys & Hpre & Hkeys & _ & _).
    pose proof Hpre as Hpre'. unfold transform_unsorted in Hpre'.
    bind_step Hpre' built Hbuilt. bind_step Hpre' fuel Hfuel.
    destruct (build_transformed_Ok lib navfleet_data built Hbuilt)
      as (imo & report_to & timezone & type & report_period & distance
          & latitude & lat_deg & lat_min & lat_dir & longitude & lon_deg
          & lon_min & lon_dir & next_port & cargo & wind_force & wind_speed
          & wind_dir & wind_dir' & sea_swell & current_speed & current_dir
          & current_dir' & log_speed & gps_speed & comments
          & In1 & In2 & Tr & _ & _).
    destruct In1 as (? & Hr & Hz & ? & ? & ? & Hlat & Hlon & ? & ?).
    destruct In2 as (? & ? & Hwd & ? & ? & Hcd & ? & ? & ?).
    destruct Tr as (T1 & _ & _ & T4 & _ & _ & T7 & T8).
    split.
    { unfold required_columns. repeat (apply Forall_cons; split; [eauto |]).
      apply Forall_nil_2. }
    split.
    { intros c col Hc Hcol. rewrite !elem_of_cons, elem_of_nil in Hc.
      destruct Hc as [-> | [-> | []]].
      - rewrite Hlat in Hcol. injection Hcol as <-.
        apply (coordinates_return (fun r => r.1.1) true). eexists. exact T1.
      - rewrite Hlon in Hcol. injection Hcol as <-.
        apply (coordinates_return (fun r => r.1.1) false). eexists. exact T4. }
    split.
    { intros c col Hc Hcol. rewrite !elem_of_cons, elem_of_nil in Hc.
      destruct Hc as [-> | [-> | []]].
      - rewrite Hwd in Hcol. injection Hcol as <-.
        apply directions_return. eexists. exact T7.
      - rewrite Hcd in Hcol. injection Hcol as <-.
        apply directions_return. eexists. exact T8. }
    split; [eexists; reflexivity |].
    intros report_to' timezone' i r z Hr' Hz' Hi Hj.
    rewrite Hr in Hr'. rewrite Hz in Hz'. injection Hr' as <-. injection Hz' as <-.
    destruct (transform_unsorted_dates lib navfleet_data pre report_to timezone
                Hpre Hr Hz) as [Hd Ht].
    apply combine_key_returns.
    destruct (datetime_utc_lookup lib pre keys _ _ i
                (adjust_to_utc lib r z).2 (adjust_to_utc lib r z).1
                Hkeys Hd Ht)
      as (k & _ & Hk); [| | eexists; exact Hk].
    + rewrite lookup_zip_with, Hi, Hj. reflexivity.
    + rewrite lookup_zip_with, Hi, Hj. reflexivity.
  - intros (Hreq & Hcoord & Hdir & [fuel Hfuel] & Hkey).
    assert (Hlookup : forall c, c ∈ required_columns ->
              exists col, cols navfleet_data !! c = Some col).
    { intros c Hc. rewrite Forall_forall in Hreq. exact (Hreq c Hc). }
    destruct (Hlookup "Latitude") as [latitude Hlat];
      [unfold required_columns; repeat constructor |].
    destruct (Hlookup "Longitude") as [longitude Hlon];
      [unfold required_columns; repeat constructor |].
    destruct (Hlookup "WNI Relative Wind Direction") as [wind_dir Hwd];
      [unfold required_columns; repeat constructor |].
    destruct (Hlookup "WNI Current Direction") as [current_dir Hcd];
      [unfold required_columns; repeat constructor |].
    destruct (Hlookup "Report To") as [report_to Hr];
      [unfold required_columns; repeat constructor |].
    destruct (Hlookup "Timezone") as [timezone Hz];
      [unfold required_columns; repeat constructor |].
    destruct (build_transformed_returns lib navfleet_data latitude longitude
                wind_dir current_dir Hreq Hlat Hlon Hwd Hcd) as [built Hbuilt].
    { apply (Hcoord "Latitude"); [repeat constructor | exact Hlat]. }
    { apply (Hcoord "Longitude"); [repeat constructor | exact Hlon]. }
    { apply (Hdir "WNI Relative Wind Direction"); [repeat constructor | exact Hwd]. }
    { apply (Hdir "WNI Current Direction"); [repeat constructor | exact Hcd]. }
    set (pre := copy_prefixed "Boiler_Consumption_" fuel
                  (copy_prefixed "AE_Consumption_" fuel
                     (copy_prefixed "ME_Consumption_" fuel built))).
    assert (Hpre : transform_unsorted lib navfleet_data = Ok pre).
    { unfold transform_unsorted. rewrite Hbuilt. cbn [rbind]. rewrite Hfuel.
      reflexivity. }
    destruct (transform_unsorted_dates lib navfleet_data pre report_to timezone
                Hpre Hr Hz) as [Hd Ht].
    assert (Hkeys : returns (datetime_utc lib pre)).
    { unfold datetime_utc.
      rewrite (proj2 (get_col_Ok _ _ _) Hd), (proj2 (get_col_Ok _ _ _) Ht).
      cbn [rbind]. apply traverse_returns, Forall_lookup.
      intros i [d t] Hi. rewrite !lookup_zip_with in Hi.
      destruct (report_to !! i) as [r|] eqn:Hri; [| discriminate Hi].
      destruct (timezone !! i) as [z|] eqn:Hzi; [| discriminate Hi].
      cbn in Hi. injection Hi as <- <-. cbn [fst snd].
      apply combine_key_returns.
      exact (Hkey report_to timezone i r z Hr Hz Hri Hzi). }
    destruct Hkeys as [keys Hkeys].
    unfold transform_navfleet_data. rewrite Hpre. cbn [rbind].
    rewrite Hkeys. cbn [rbind].
    unfold sort_values, get_col, set_col. cbn [cols nrows].
    rewrite lookup_insert_eq. cbn [rbind].
    unfold drop_col, has_col. cbn [cols nrows].
    rewrite lookup_fmap, lookup_insert_eq. cbn [fmap option_fmap option_map].
    rewrite bool_decide_eq_true_2 by eauto. eexists. reflexivity.
Qed.

Lemma X18_transformer_returns_iff_witness :
  Forall (fun c => is_Some (cols sample_reports !! c)) required_columns
  /\ (forall c col, c ∈ ["Latitude"; "Longitude"] ->
        cols sample_reports !! c = Some col ->
        Forall (fun x => is_coordinate x = true) col)
  /\ (forall c col,
        c ∈ ["WNI Relative Wind Direction"; "WNI Current Direction"] ->
        cols sample_reports !! c = Some col ->
        Forall (fun x => is_direction iso_lib x = true) col)
  /\ returns (map_fuel_type_consumption iso_lib sample_reports)
  /\ (forall report_to timezone i r z,
        cols sample_reports !! "Report To" = Some report_to ->
        cols sample_reports !! "Timezone" = Some timezone ->
        report_to !! i = Some r -> timezone !! i = Some z ->
        returns (to_datetime iso_lib false
                   (VStr (py_str iso_lib (adjust_to_utc iso_lib r z).2 ++ " "
                          ++ py_str iso_lib (adjust_to_utc iso_lib r z).1)))).
Proof.
  exact (proj1 (X18_transformer_returns_iff iso_lib sample_reports)
           (ex_intro _ sample_output sample_transformed)).
Defined.

(** ** What the aggregator leaves in a cell *)

Lemma cell_set_col_ne (df : frame) (col c : string) (v : list pyval) (i : nat) :
  c <> col -> cell (set_col df col v) c i = cell df c i.
Proof.
  intros Hne. unfold cell, set_col. cbn [cols].
  rewrite lookup_insert_ne by congruence. reflexivity.
Qed.

Lemma cell_set_col_eq (df : frame) (col : string) (v : list pyval) (i : nat) :
  cell (set_col df col v) col i = v !! i.
Proof.
  unfold cell, set_col. cbn [cols]. rewrite lookup_insert_eq. reflexivity.
Qed.

Lemma cell_lookup (df : frame) (c : string) (v : list pyval) (i : nat) :
  cols df !! c = Some v -> cell df c i = v !! i.
Proof. unfold cell. intros ->. reflexivity. Qed.

(** One round of an initialisation loop casts its column and keeps the
    columns that were cast before. *)
Lemma ensure_float_cast (lib : pylib) (df0 df df1 : frame) (col : string) :
  wf_frame df0 -> nrows df = nrows df0 -> wf_frame df ->
  (forall c, cols df !! c = cols df0 !! c \/ cast_done lib df0 df c) ->
  ensure_float lib df col = Ok df1 ->
  nrows df1 = nrows df0 /\ wf_frame df1
  /\ (forall c, cols df1 !! c = cols df0 !! c \/ cast_done lib df0 df1 c)
  /\ (forall c, cast_done lib df0 df c -> cast_done lib df0 df1 c)
  /\ cast_done lib df0 df1 col.
Proof.
  intros Hwf0 Hn Hwf Hst H.
  assert (Hcol : cast_done lib df0 df1 col
                 /\ nrows df1 = nrows df0 /\ wf_frame df1
                 /\ forall c, c <> col -> forall i, cell df1 c i = cell df c i).
  { unfold ensure_float in H. destruct (cols df !! col) as [v|] eqn:E.
    - bind_step H v' Hv'. apply Ok_inj in H. subst df1.
      destruct (traverse_Ok_lookup _ _ _ Hv') as [Hlen Hall].
      pose proof (Hwf _ _ E) as Hlv. cbn beta in Hlv.
      split; [| split; [exact Hn | split]].
      + intros i Hi.
        destruct (lookup_lt_is_Some_2 v i) as [x Hx]; [lia |].
        destruct (Hall i x Hx) as (y & Hy & Hxy).
        destruct (Hst col) as [Hu | Hd].
        * exists y. split.
          { unfold starts_from. rewrite <- Hu, E. eauto. }
          split; [rewrite cell_set_col_eq; exact Hy |].
          eapply astype_float_is_float. exact Hxy.
        * destruct (Hd i Hi) as (start & Hs & Hc & Hf).
          rewrite (cell_lookup _ _ _ _ E), Hx in Hc. injection Hc as ->.
          rewrite (astype_float_id lib start Hf) in Hxy. injection Hxy as <-.
          exists start. split; [exact Hs |].
          split; [rewrite cell_set_col_eq; exact Hy | exact Hf].
      + apply wf_set_col; [exact Hwf | lia].
      + intros c Hne i. apply cell_set_col_ne. exact Hne.
    - apply Ok_inj in H. subst df1.
      split; [| split; [exact Hn | split]].
      + intros i Hi. destruct (Hst col) as [Hu | Hd].
        * exists (VFloat 0). split.
          { unfold starts_from. rewrite <- Hu, E. reflexivity. }
          split; [| reflexivity].
          unfold set_scalar. rewrite cell_set_col_eq.
          apply lookup_replicate_2. lia.
        * destruct (Hd i Hi) as (start & _ & Hc & _).
          unfold cell in Hc. rewrite E in Hc. discriminate Hc.
      + apply wf_set_col; [exact Hwf | apply length_replicate].
      + intros c Hne i. apply cell_set_col_ne. exact Hne. }
  destruct Hcol as (Hdone & Hn1 & Hwf1 & Hother).
  assert (Hkeep : forall c, cast_done lib df0 df c -> cast_done lib df0 df1 c).
  { intros c Hc. destruct (decide (c = col)) as [-> | Hne]; [exact Hdone |].
    intros i Hi. destruct (Hc i Hi) as (start & Hs & Hcell & Hf).
    exists start. rewrite (Hother c Hne). auto. }
  split; [exact Hn1 |]. split; [exact Hwf1 |]. split; [| split; assumption].
  intros c. destruct (decide (c = col)) as [-> | Hne]; [right; exact Hdone |].
  destruct (Hst c) as [Hu | Hd]; [left | right; apply Hkeep; exact Hd].
  rewrite <- Hu. unfold ensure_float in H.
  destruct (cols df !! col); [bind_step H v' Hv' |]; apply Ok_inj in H;
    subst df1; cbn [cols set_scalar set_col];
    apply lookup_insert_ne; congruence.
Qed.

Lemma ensure_float_loop_keeps (lib : pylib) (df0 : frame) (l : list string)
  (df df' : frame) :
  wf_frame df0 -> nrows df = nrows df0 -> wf_frame df ->
  (forall c, cols df !! c = cols df0 !! c \/ cast_done lib df0 df c) ->
  for_each (ensure_float lib) l df = Ok df' ->
  forall c, cast_done lib df0 df c -> cast_done lib df0 df' c.
Proof.
  intros Hwf0. revert df. induction l as [|col l IH]; intros df Hn Hwf Hst H c Hc.
  - cbn in H. apply Ok_inj in H. subst df'. exact Hc.
  - cbn [for_each] in H. bind_step H df1 H1.
    destruct (ensure_float_cast lib df0 df df1 col Hwf0 Hn Hwf Hst H1)
      as (Hn1 & Hwf1 & Hst1 & Hkeep & _).
    apply (IH df1 Hn1 Hwf1 Hst1 H). apply Hkeep. exact Hc.
Qed.

(** After an initialisation loop the columns it names have been cast. *)
Lemma ensure_float_loop_cast (lib : pylib) (df0 : frame) (l : list string)
  (df df' : frame) :
  wf_frame df0 -> nrows df = nrows df0 -> wf_frame df ->
  (forall c, cols df !! c = cols df0 !! c \/ cast_done lib df0 df c) ->
  for_each (ensure_float lib) l df = Ok df' ->
  forall c, c ∈ l -> cast_done lib df0 df' c.
Proof.
  intros Hwf0. revert df. induction l as [|col l IH]; intros df Hn Hwf Hst H c Hc.
  - inversion Hc.
  - cbn [for_each] in H. bind_step H df1 H1.
    destruct (ensure_float_cast lib df0 df df1 col Hwf0 Hn Hwf Hst H1)
      as (Hn1 & Hwf1 & Hst1 & Hkeep & Hdone).
    apply elem_of_cons in Hc as [-> | Hc].
    + apply (ensure_float_loop_keeps lib df0 l df1 df' Hwf0 Hn1 Hwf1 Hst1 H).
      exact Hdone.
    + exact (IH df1 Hn1 Hwf1 Hst1 H c Hc).
Qed.

Lemma declares_unique (lib : pylib) (df : frame) (type_col a b : string)
  (i : nat) :
  declares lib df type_col a i = true -> declares lib df type_col b i = true ->
  a = b.
Proof.
  unfold declares. destruct (cols df !! type_col) as [types|]; [| discriminate].
  destruct (types !! i) as [v|]; [| discriminate].
  intros Ha Hb. apply String.eqb_eq in Ha, Hb. congruence.
Qed.

Lemma fuel_tables_NoDup :
  Forall (fun slot : string * string * list (string * string) =>
            NoDup slot.2.*1) fuel_slots.
Proof. compute_done. Qed.

(** What one round of a block's loop does to a target cell. *)
Lemma add_fuel_cells (lib : pylib) (df0 df df' : frame)
  (slot : string * string * list (string * string)) (entry : string * string) :
  slot ∈ fuel_slots -> entry ∈ slot.2 ->
  has_col df0 slot.1.1 = true -> has_col df0 slot.1.2 = true ->
  fuel_inv lib df0 df ->
  add_fuel lib slot.1.1 slot.1.2 df entry = Ok df' ->
  forall c i t, c ∈ consumption_columns -> (i < nrows df0)%nat ->
    cell df c i = Some t ->
    exists t',
      cell df' c i = Some t'
      /\ if (entry.2 =? c)%string && declares lib df0 slot.1.1 entry.1 i
         then exists q, cell df0 slot.1.2 i = Some q
                        /\ series_add t (fillna (VInt 0) q) = Ok t'
         else t' = t.
Proof.
  intros Hslot Hentry Hhas1 Hhas2 Hinv H c i t Hc Hi Ht.
  pose proof fuel_slots_ok as Hok. rewrite Forall_forall in Hok.
  destruct (Hok slot Hslot) as (Htc & Hq1 & Hq2 & _).
  destruct slot as [[type_col quantity_col] table].
  destruct entry as [fuel_type target_col]. cbn [fst snd] in *.
  unfold add_fuel in H.
  bind_step H types Htypes. bind_step H quantity Hquantity.
  bind_step H target Htarget. bind_step H target' Hadd.
  apply Ok_inj in H. subst df'.
  apply get_col_Ok in Htypes, Hquantity, Htarget.
  pose proof Hinv as (Hn & Hwf & Hother & _ & _).
  destruct (String.eqb_spec target_col c) as [<- | Hne].
  2:{ exists t. rewrite cell_set_col_ne by congruence.
      split; [exact Ht | reflexivity]. }
  apply masked_add_spec in Hadd as [Hlen Hcells].
  2:{ rewrite length_fmap, (Hwf _ _ Htypes), (Hwf _ _ Htarget). reflexivity. }
  2:{ rewrite length_fmap, (Hwf _ _ Hquantity), (Hwf _ _ Htarget). reflexivity. }
  rewrite (cell_lookup _ _ _ _ Htarget) in Ht.
  destruct (Hcells i t Ht) as (m & q & t' & Hmask & Hq & Ht' & Hm).
  exists t'. split; [rewrite cell_set_col_eq; exact Ht' |].
  assert (Hd : declares lib df0 type_col fuel_type i = m).
  { rewrite <- (fuel_inv_declares lib df0 df _ _ _ Hinv Htc).
    unfold declares. rewrite Htypes. rewrite list_lookup_fmap in Hmask.
    destruct (types !! i); cbn in Hmask; [| discriminate].
    injection Hmask as ->. reflexivity. }
  rewrite Hd. cbn [andb]. destruct m; [| exact Hm].
  rewrite list_lookup_fmap in Hq.
  destruct (quantity !! i) as [q0|] eqn:Hq0; [| discriminate].
  cbn in Hq. injection Hq as <-. exists q0. split; [| exact Hm].
  rewrite (Hother _ Hq1 Hq2) in Hquantity.
  rewrite (cell_lookup _ _ _ _ Hquantity). exact Hq0.
Qed.

(** The loop of a block over its table: each target cell receives the
    quantity of its row once, if the table sends the fuel type of the row
    to it, and stays as it is otherwise. *)
Lemma table_loop_cells (lib : pylib) (df0 dfs : frame)
  (slot : string * string * list (string * string)) :
  slot ∈ fuel_slots ->
  has_col df0 slot.1.1 = true -> has_col df0 slot.1.2 = true ->
  forall (rest done : list (string * string)) (df df' : frame),
    (done ++ rest)%list = slot.2 ->
    fuel_inv lib df0 df ->
    (forall c i p, c ∈ consumption_columns -> (i < nrows df0)%nat ->
       cell dfs c i = Some p ->
       exists cur,
         cell df c i = Some cur
         /\ if sends lib df0 (slot.1, done) c i
            then exists q, cell df0 slot.1.2 i = Some q
                           /\ series_add p (fillna (VInt 0) q) = Ok cur
            else cur = p) ->
    for_each (add_fuel lib slot.1.1 slot.1.2) rest df = Ok df' ->
    forall c i p, c ∈ consumption_columns -> (i < nrows df0)%nat ->
      cell dfs c i = Some p ->
      exists cur,
        cell df' c i = Some cur
        /\ if sends lib df0 slot c i
           then exists q, cell df0 slot.1.2 i = Some q
                          /\ series_add p (fillna (VInt 0) q) = Ok cur
           else cur = p.
Proof.
  intros Hslot Hhas1 Hhas2.
  pose proof fuel_tables_NoDup as Hnd. rewrite Forall_forall in Hnd.
  specialize (Hnd slot Hslot).
  induction rest as [|entry rest IH]; intros done df df' Hsplit Hinv Hcur H.
  - cbn in H. apply Ok_inj in H. subst df'. rewrite app_nil_r in Hsplit.
    subst done. destruct slot as [[tc qc] table]. exact Hcur.
  - cbn [for_each] in H. bind_step H df1 H1.
    assert (Hentry : entry ∈ slot.2).
    { rewrite <- Hsplit. apply elem_of_app. right. left. }
    pose proof (add_fuel_inv lib df0 df df1 slot entry Hslot Hentry Hhas1 Hhas2
                  Hinv H1) as Hinv1.
    apply (IH (done ++ [entry])%list df1 df');
      [rewrite <- app_assoc; exact Hsplit | exact Hinv1 | | exact H].
    intros c i p Hc Hi Hp.
    destruct (Hcur c i p Hc Hi Hp) as (cur & Hcell & Hrel).
    destruct (add_fuel_cells lib df0 df df1 slot entry Hslot Hentry Hhas1 Hhas2
                Hinv H1 c i cur Hc Hi Hcell) as (t' & Ht' & Hstep).
    exists t'. split; [exact Ht' |].
    unfold sends in *. cbn [fst snd] in *. rewrite existsb_app. cbn [existsb].
    rewrite orb_false_r.
    destruct ((entry.2 =? c)%string && declares lib df0 slot.1.1 entry.1 i)
      eqn:Hm.
    + destruct (existsb _ done) eqn:Hex.
      * exfalso. apply existsb_exists in Hex as (e' & He' & Hf).
        apply andb_true_iff in Hf as [_ Hd'].
        apply andb_true_iff in Hm as [_ Hd].
        pose proof (declares_unique lib df0 _ _ _ _ Hd' Hd) as E.
        rewrite <- Hsplit, fmap_app in Hnd. apply NoDup_app in Hnd as (_ & Hdis & _).
        apply (Hdis e'.1).
        -- apply list_elem_of_fmap. exists e'. split; [reflexivity |].
           apply list_elem_of_In. exact He'.
        -- rewrite E. cbn. left.
      * cbn [orb]. subst cur. exact Hstep.
    + rewrite orb_false_r. subst t'. exact Hrel.
Qed.

(** The cast of the fuel types to text at the head of a block keeps the
    invariant. *)
Lemma cast_types_inv (lib : pylib) (df0 df : frame)
  (slot : string * string * list (string * string)) (types : list pyval) :
  slot ∈ fuel_slots -> fuel_inv lib df0 df ->
  cols df !! slot.1.1 = Some types ->
  fuel_inv lib df0
    (set_col df slot.1.1 ((fun v => VStr (py_str lib v)) <$> types)).
Proof.
  intros Hslot Hinv Htypes.
  pose proof fuel_slots_ok as Hok. rewrite Forall_forall in Hok.
  destruct (Hok slot Hslot) as (Htc & _).
  pose proof consumption_columns_disjoint as Hdisj.
  rewrite Forall_forall in Hdisj.
  destruct Hinv as (Hn & Hwf & Hother & Hty & Hcc).
  split; [exact Hn |]. split.
  { apply wf_set_col; [exact Hwf |]. rewrite length_fmap.
    exact (Hwf _ _ Htypes). }
  split.
  { intros c Hc1 Hc2. cbn. rewrite lookup_insert_ne by congruence. auto. }
  split.
  { intros c Hc. unfold set_col. cbn [cols].
    destruct (decide (c = slot.1.1)) as [E|Hne].
    - subst c. rewrite lookup_insert_eq, <- (Hty _ Htc), Htypes.
      cbn [fmap option_fmap option_map]. f_equal.
      rewrite <- list_fmap_compose. apply list_fmap_ext. reflexivity.
    - rewrite lookup_insert_ne by congruence. auto. }
  intros c Hc. cbn. rewrite lookup_insert_ne; [auto |].
  intros E. subst c. exact (Hdisj _ Hc Htc).
Qed.

Lemma omap_singleton {A B} (f : A -> option B) (x : A) :
  omap f [x] = match f x with Some y => [y] | None => [] end.
Proof. reflexivity. Qed.

(** One block adds its contribution to every target cell. *)
Lemma map_slot_cells (lib : pylib) (df0 df df' : frame)
  (done : list (string * string * list (string * string)))
  (slot : string * string * list (string * string)) :
  slot ∈ fuel_slots ->
  fuel_inv lib df0 df -> cells_inv lib df0 done df ->
  map_slot lib slot.1.1 slot.1.2 slot.2 df = Ok df' ->
  cells_inv lib df0 (done ++ [slot]) df'.
Proof.
  intros Hslot Hinv Hcells H.
  pose proof fuel_slots_ok as Hok. rewrite Forall_forall in Hok.
  destruct (Hok slot Hslot) as (Htc & Hq1 & Hq2 & _).
  pose proof consumption_columns_disjoint as Hdisj.
  rewrite Forall_forall in Hdisj.
  unfold map_slot in H.
  rewrite (fuel_inv_has_type_col lib df0 df _ Hinv Htc) in H.
  rewrite (fuel_inv_has_other_col lib df0 df _ Hinv Hq1 Hq2) in H.
  intros c i Hc Hi. destruct (Hcells c i Hc Hi) as (start & cur & Hs & Hsum & Hcur).
  enough (exists cur',
            cell df' c i = Some cur'
            /\ for_each series_add
                 (omap (contribution lib df0 c i) [slot]) cur = Ok cur')
    as (cur' & Hcur' & Hsum').
  { exists start, cur'. split; [exact Hs |]. split; [| exact Hcur'].
    rewrite omap_app, for_each_app, Hsum. exact Hsum'. }
  rewrite omap_singleton. unfold contribution.
  destruct (has_col df0 slot.1.1 && has_col df0 slot.1.2) eqn:Hhas.
  2:{ apply Ok_inj in H. subst df'. exists cur.
      split; [exact Hcur | reflexivity]. }
  apply andb_true_iff in Hhas as [Hhas1 Hhas2].
  bind_step H types Htypes. apply get_col_Ok in Htypes.
  pose proof (cast_types_inv lib df0 df slot types Hslot Hinv Htypes) as Hinv1.
  set (dfs := set_col df slot.1.1 ((fun v => VStr (py_str lib v)) <$> types))
    in *.
  assert (Hstart : forall c i p, c ∈ consumption_columns ->
            (i < nrows df0)%nat -> cell dfs c i = Some p ->
            exists cur,
              cell dfs c i = Some cur
              /\ if sends lib df0 (slot.1, []) c i
                 then exists q, cell df0 slot.1.2 i = Some q
                                /\ series_add p (fillna (VInt 0) q) = Ok cur
                 else cur = p).
  { intros c' i' p _ _ Hp. exists p. split; [exact Hp | reflexivity]. }
  assert (Hdfs : cell dfs c i = Some cur).
  { unfold dfs. rewrite cell_set_col_ne; [exact Hcur |].
    intros E. subst c. exact (Hdisj _ Hc Htc). }
  destruct (table_loop_cells lib df0 dfs slot Hslot Hhas1 Hhas2 slot.2 [] dfs df'
              eq_refl Hinv1 Hstart H c i cur Hc Hi Hdfs) as (cur' & Hcur' & Hrel).
  exists cur'. split; [exact Hcur' |].
  cbn [andb]. destruct (sends lib df0 slot c i).
  - destruct Hrel as (q & Hq & Hadd). rewrite Hq.
    cbn [fmap option_fmap option_map for_each]. rewrite Hadd. reflexivity.
  - subst cur'. reflexivity.
Qed.

Lemma slots_loop_cells (lib : pylib) (df0 : frame)
  (rest done : list (string * string * list (string * string)))
  (df df' : frame) :
  (done ++ rest)%list = fuel_slots ->
  fuel_inv lib df0 df -> cells_inv lib df0 done df ->
  for_each (fun df (slot : string * string * list (string * string)) =>
              map_slot lib slot.1.1 slot.1.2 slot.2 df) rest df = Ok df' ->
  cells_inv lib df0 fuel_slots df'.
Proof.
  revert done df. induction rest as [|slot rest IH]; intros done df Hsplit Hinv Hc H.
  - cbn in H. apply Ok_inj in H. subst df'. rewrite app_nil_r in Hsplit.
    subst done. exact Hc.
  - cbn [for_each] in H. bind_step H df1 H1.
    assert (Hslot : slot ∈ fuel_slots).
    { rewrite <- Hsplit. apply elem_of_app. right. left. }
    apply (IH (done ++ [slot])%list df1).
    + rewrite <- app_assoc. exact Hsplit.
    + exact (map_slot_inv lib df0 df df1 slot Hslot Hinv H1).
    + exact (map_slot_cells lib df0 df df1 done slot Hslot Hinv Hc H1).
    + exact H.
Qed.

(** X19. What the aggregator leaves in a target cell. The cell of a target
    column at a row starts from 0.0 when the input has no such column, and
    from the cell of the input cast to float when it has; each of the five
    blocks that runs, and whose table sends the fuel type the row declares
    in the block's slot to this column, adds the quantity of the row, with
    0 for a missing quantity; the cell ends as the sum of these, taken in
    the order of the blocks. *)
Theorem X19_target_cell_is_sum_of_contributions
  (lib : pylib) (navfleet_data df : frame) (target : string) (i : nat) :
  wf_frame navfleet_data ->
  map_fuel_type_consumption lib navfleet_data = Ok df ->
  target ∈ consumption_columns -> (i < nrows navfleet_data)%nat ->
  exists start total,
    starts_from lib navfleet_data target i start
    /\ for_each series_add (contributions lib navfleet_data target i) start
       = Ok total
    /\ cell df target i = Some total.
Proof.
  intros Hwf H Hc Hi. rewrite map_fuel_type_consumption_loops in H.
  bind_step H df1 Hinit.
  pose proof (init_fuel_inv lib navfleet_data df1 Hwf Hinit) as Hinv.
  assert (Hcells : cells_inv lib navfleet_data [] df1).
  { intros c j Hcc Hj.
    destruct (ensure_float_loop_cast lib navfleet_data consumption_columns
                navfleet_data df1 Hwf eq_refl Hwf (fun c => or_introl eq_refl)
                Hinit c Hcc j Hj) as (start & Hs & Hcell & _).
    exists start, start. auto. }
  exact (slots_loop_cells lib navfleet_data fuel_slots [] df1 df eq_refl
           Hinv Hcells H target i Hc Hi).
Qed.

Lemma slot1_row_wf : wf_frame slot1_row.
Proof. unfold wf_frame. compute_done. Qed.

Lemma slot1_row_aggregated :
  map_fuel_type_consumption iso_lib slot1_row = Ok slot1_aggregated.
Proof. vm_compute. reflexivity. Qed.

Example slot1_contributions :
  contributions iso_lib slot1_row "ME_Consumption_HFO" 0
  = [VInt 10; VInt 2; VInt 3]
  /\ contributions iso_lib slot1_row "AE_Consumption_HFO" 0 = [].
Proof. split; vm_compute; reflexivity. Qed.

Lemma X19_target_cell_is_sum_of_contributions_witness :
  exists start total,
    starts_from iso_lib slot1_row "ME_Consumption_HFO" 0 start
    /\ for_each series_add
         (contributions iso_lib slot1_row "ME_Consumption_HFO" 0) start
       = Ok total
    /\ cell slot1_aggregated "ME_Consumption_HFO" 0 = Some total.
Proof.
  apply (X19_target_cell_is_sum_of_contributions iso_lib slot1_row
           slot1_aggregated "ME_Consumption_HFO" 0 slot1_row_wf
           slot1_row_aggregated).
  - unfold consumption_columns. cbn. left.
  - cbn. lia.
Defined.



Lemma ends_in_bind {A B} (E : exn -> Prop) (r : result A) (k : A -> result B) :
  ends_in E r -> (forall a, r = Ok a -> ends_in E (k a)) ->
  ends_in E (rbind r k).
Proof. destruct r as [a|e]; cbn; auto. Qed.

(** A loop whose rounds keep [P] and raise only what [E] allows ends with
    [P], or raises what [E] allows. *)
Lemma for_each_ends_in {A S} (E : exn -> Prop) (P : S -> Prop) (Q : A -> Prop)
  (body : S -> A -> result S) (l : list A) (s : S) :
  (forall s a, P s -> Q a ->
     match body s a with Ok s' => P s' | Raise e => E e end) ->
  Forall Q l -> P s ->
  match for_each body l s with Ok s' => P s' | Raise e => E e end.
Proof.
  intros Hstep HQ. revert s. induction HQ as [|a l Ha HQ IH]; intros s HP.
  - exact HP.
  - cbn [for_each]. specialize (Hstep s a HP Ha).
    destruct (body s a) as [s1|e]; cbn [rbind]; [apply IH |]; exact Hstep.
Qed.

Lemma traverse_ends_in {A B} (E : exn -> Prop) (f : A -> result B)
  (l : list A) :
  Forall (fun a => ends_in E (f a)) l -> ends_in E (traverse f l).
Proof.
  induction 1 as [|a l Ha _ IH]; [exact I |].
  cbn [traverse]. destruct (f a) as [b|e]; cbn [rbind]; [| exact Ha].
  destruct (traverse f l) as [bs|e]; cbn [rbind]; [exact I | exact IH].
Qed.

Lemma masked_add_ends_in (E : exn -> Prop) (mask : list bool)
  (target quantity : list pyval) :
  (forall i t q, target !! i = Some t -> quantity !! i = Some q ->
     ends_in E (series_add t q)) ->
  ends_in E (masked_add mask target quantity).
Proof.
  revert target quantity.
  induction mask as [|m mask IH]; intros target quantity H; [exact I |].
  destruct target as [|t target]; [exact I |].
  destruct quantity as [|q quantity]; [exact I |].
  cbn [masked_add]. apply ends_in_bind.
  - destruct m; [exact (H 0%nat t q eq_refl eq_refl) | exact I].
  - intros t' _. apply ends_in_bind; [| intros; exact I].
    apply IH. intros i t0 q0 Ht Hq. exact (H (S i) t0 q0 Ht Hq).
Qed.

Lemma astype_float_raises (lib : pylib) (v : pyval) :
  ends_in (fun e => e = ValueError \/ e = TypeError) (astype_float lib v).
Proof.
  destruct v; cbn; auto. destruct (float_of_text lib s); cbn; auto.
Qed.

Lemma astype_float_number (lib : pylib) (v : pyval) :
  is_number_or_missing v = true ->
  ends_in (fun _ => False) (astype_float lib v).
Proof. destruct v; cbn; intros H; try discriminate H; exact I. Qed.

Lemma series_add_raises (t q : pyval) :
  ends_in (fun e => e = ValueError \/ e = TypeError) (series_add t q).
Proof.
  unfold series_add. destruct (isna t || isna q); [exact I |].
  unfold py_add. destruct t, q; cbn; auto.
Qed.

Lemma series_add_number (t q : pyval) :
  is_float t = true -> is_number_or_missing q = true ->
  ends_in (fun _ => False) (series_add t (fillna (VInt 0) q)).
Proof.
  destruct t; intros Ht; try discriminate Ht;
    destruct q; intros Hq; try discriminate Hq; exact I.
Qed.

(** The aggregator ends in a table, or raises an exception that the cast
    of a target cell of the input or the addition of a quantity of the
    input to a float raises. *)
Lemma map_fuel_type_consumption_ends_in (lib : pylib) (E : exn -> Prop)
  (df0 : frame) :
  wf_frame df0 ->
  (forall c col x, c ∈ consumption_columns -> cols df0 !! c = Some col ->
     x ∈ col -> ends_in E (astype_float lib x)) ->
  (forall c col q t, c ∈ quantity_columns -> cols df0 !! c = Some col ->
     q ∈ col -> is_float t = true ->
     ends_in E (series_add t (fillna (VInt 0) q))) ->
  ends_in E (map_fuel_type_consumption lib df0).
Proof.
  intros Hwf Hcast Hadd. rewrite map_fuel_type_consumption_loops.
  pose proof (for_each_ends_in E
    (fun df => nrows df = nrows df0 /\ wf_frame df
               /\ forall c, cols df !! c = cols df0 !! c
                            \/ cast_done lib df0 df c)
    (fun c => c ∈ consumption_columns)
    (ensure_float lib) consumption_columns df0) as Hinit.
  destruct (for_each (ensure_float lib) consumption_columns df0) as [df1|e]
    eqn:Hloop; cbn [rbind].
  2:{ apply Hinit; [| apply Forall_forall; auto | auto].
      clear Hinit Hloop. intros df col (Hn & Hwfd & Hst) Hcol.
      destruct (ensure_float lib df col) as [df'|e'] eqn:Hbody.
      - destruct (ensure_float_cast lib df0 df df' col Hwf Hn Hwfd Hst Hbody)
          as (? & ? & ? & _). auto.
      - unfold ensure_float in Hbody.
        destruct (cols df !! col) as [v|] eqn:Ev; [| discriminate Hbody].
        assert (Hv : ends_in E (traverse (astype_float lib) v)).
        { apply traverse_ends_in, Forall_forall. intros x Hx.
          destruct (Hst col) as [Hu | Hd].
          - rewrite Ev in Hu. symmetry in Hu. exact (Hcast col v x Hcol Hu Hx).
          - apply list_elem_of_lookup in Hx as [i Hi].
            assert (Hlt : (i < nrows df0)%nat).
            { rewrite <- Hn, <- (Hwfd _ _ Ev). eapply lookup_lt_Some. exact Hi. }
            destruct (Hd i Hlt) as (start & _ & Hc & Hf).
            rewrite (cell_lookup _ _ _ _ Ev), Hi in Hc. injection Hc as ->.
            rewrite (astype_float_id lib start Hf). exact I. }
        destruct (traverse (astype_float lib) v); [discriminate Hbody |].
        cbn in Hbody. injection Hbody as <-. exact Hv. }
  pose proof (init_fuel_inv lib df0 df1 Hwf Hloop) as Hinv. clear Hinit Hloop.
  pose proof fuel_slots_ok as Hok. rewrite Forall_forall in Hok.
  assert (Hslots :
    match for_each
            (fun df (slot : string * string * list (string * string)) =>
               map_slot lib slot.1.1 slot.1.2 slot.2 df) fuel_slots df1 with
    | Ok df => fuel_inv lib df0 df
    | Raise e => E e
    end).
  { apply (for_each_ends_in E (fuel_inv lib df0) (fun slot => slot ∈ fuel_slots));
      [| apply Forall_forall; auto | exact Hinv].
    clear df1 Hinv. intros df slot Hinv Hslot.
    destruct (map_slot lib slot.1.1 slot.1.2 slot.2 df) as [df'|e'] eqn:Hbody.
    { exact (map_slot_inv lib df0 df df' slot Hslot Hinv Hbody). }
    destruct (Hok slot Hslot) as (Htc & Hq1 & Hq2 & Htargets).
    unfold map_slot in Hbody.
    rewrite (fuel_inv_has_type_col lib df0 df _ Hinv Htc) in Hbody.
    rewrite (fuel_inv_has_other_col lib df0 df _ Hinv Hq1 Hq2) in Hbody.
    destruct (has_col df0 slot.1.1 && has_col df0 slot.1.2) eqn:Hhas;
      [| discriminate Hbody].
    apply andb_true_iff in Hhas as [Hhas1 Hhas2].
    assert (Htypes : exists types, cols df !! slot.1.1 = Some types).
    { apply has_col_true.
      rewrite (fuel_inv_has_type_col lib df0 df _ Hinv Htc). exact Hhas1. }
    destruct Htypes as [types Htypes].
    rewrite (proj2 (get_col_Ok _ _ _) Htypes) in Hbody. cbn [rbind] in Hbody.
    pose proof (cast_types_inv lib df0 df slot types Hslot Hinv Htypes) as Hinv1.
    pose proof (for_each_ends_in E (fuel_inv lib df0)
                  (fun entry => entry ∈ slot.2)
                  (add_fuel lib slot.1.1 slot.1.2) slot.2
                  (set_col df slot.1.1 ((fun v => VStr (py_str lib v)) <$> types)))
      as Htable.
    rewrite Hbody in Htable. apply Htable;
      [| apply Forall_forall; auto | exact Hinv1].
    clear Htable Hbody Hinv1 Htypes types Hinv df.
    intros df entry Hinv Hentry.
    destruct (add_fuel lib slot.1.1 slot.1.2 df entry) as [df'|e''] eqn:Hadd'.
    { exact (add_fuel_inv lib df0 df df' slot entry Hslot Hentry Hhas1 Hhas2
               Hinv Hadd'). }
    rewrite Forall_forall in Htargets. specialize (Htargets entry Hentry).
    destruct entry as [fuel_type target_col]. cbn [fst snd] in *.
    unfold add_fuel in Hadd'.
    assert (Ht : exists types, cols df !! slot.1.1 = Some types).
    { apply has_col_true.
      rewrite (fuel_inv_has_type_col lib df0 df _ Hinv Htc). exact Hhas1. }
    destruct Ht as [types Ht].
    assert (Hq : exists quantity, cols df0 !! slot.1.2 = Some quantity)
      by (apply has_col_true; exact Hhas2).
    destruct Hq as [quantity Hq].
    destruct Hinv as (Hn & Hwfd & Hother & _ & Hcc).
    destruct (Hcc target_col Htargets) as (target & Htarget & Hfl & _).
    rewrite (proj2 (get_col_Ok _ _ _) Ht) in Hadd'. cbn [rbind] in Hadd'.
    assert (Hq' : cols df !! slot.1.2 = Some quantity)
      by (rewrite (Hother _ Hq1 Hq2); exact Hq).
    rewrite (proj2 (get_col_Ok _ _ _) Hq') in Hadd'. cbn [rbind] in Hadd'.
    rewrite (proj2 (get_col_Ok _ _ _) Htarget) in Hadd'. cbn [rbind] in Hadd'.
    match type of Hadd' with
    | rbind (masked_add ?m ?t ?q) _ = _ =>
        pose proof (masked_add_ends_in E m t q) as Hm;
        destruct (masked_add m t q); [discriminate Hadd' |]
    end.
    cbn in Hadd'. injection Hadd' as <-. apply Hm.
    intros i t q Hti Hqi. rewrite list_lookup_fmap in Hqi.
    destruct (quantity !! i) as [q0|] eqn:Hq0; [| discriminate Hqi].
    cbn in Hqi. injection Hqi as <-.
    apply (Hadd slot.1.2 quantity q0 t).
    - unfold quantity_columns. apply list_elem_of_fmap. exists slot.1.
      split; [reflexivity |]. apply list_elem_of_fmap. exists slot.
      split; [reflexivity | exact Hslot].
    - exact Hq.
    - eapply list_elem_of_lookup_2. exact Hq0.
    - rewrite Forall_lookup in Hfl. exact (Hfl i t Hti). }
  destruct (for_each _ fuel_slots df1); [exact I | exact Hslots].
Qed.

(** X21. The aggregator returns a table whenever the input is well formed
    and the target columns and quantity columns it has hold numbers and
    missing values only. *)
Theorem X21_aggregator_returns_on_numbers (lib : pylib) (navfleet_data : frame) :
  wf_frame navfleet_data ->
  (forall c col, c ∈ (consumption_columns ++ quantity_columns)%list ->
     cols navfleet_data !! c = Some col ->
     Forall (fun v => is_number_or_missing v = true) col) ->
  exists df, map_fuel_type_consumption lib navfleet_data = Ok df.
Proof.
  intros Hwf Hnum.
  pose proof (map_fuel_type_consumption_ends_in lib (fun _ => False)
                navfleet_data Hwf) as H.
  destruct (map_fuel_type_consumption lib navfleet_data) as [df|e];
    [eauto | exfalso; apply H].
  - intros c col x Hc Hcol Hx. apply astype_float_number.
    assert (Hin : c ∈ (consumption_columns ++ quantity_columns)%list)
      by (apply elem_of_app; auto).
    pose proof (Hnum c col Hin Hcol) as F. rewrite Forall_forall in F. auto.
  - intros c col q t Hc Hcol Hq Ht. apply series_add_number; [exact Ht |].
    assert (Hin : c ∈ (consumption_columns ++ quantity_columns)%list)
      by (apply elem_of_app; auto).
    pose proof (Hnum c col Hin Hcol) as F. rewrite Forall_forall in F. auto.
Qed.

Lemma slot1_row_numbers (c : string) (col : list pyval) :
  c ∈ (consumption_columns ++ quantity_columns)%list ->
  cols slot1_row !! c = Some col ->
  Forall (fun v => is_number_or_missing v = true) col.
Proof.
  assert (Hall : Forall (fun c => forall col, cols slot1_row !! c = Some col ->
                           Forall (fun v => is_number_or_missing v = true) col)
                   (consumption_columns ++ quantity_columns)%list).
  { let l := eval vm_compute in (consumption_columns ++ quantity_columns)%list in
    change (consumption_columns ++ quantity_columns)%list with l.
    repeat (apply Forall_cons; split;
            [intros col' H; vm_compute in H;
             first [discriminate H | injection H as <-; repeat constructor] |]).
    apply Forall_nil_2. }
  rewrite Forall_forall in Hall. intros Hc. exact (Hall c Hc col).
Qed.

Lemma X21_aggregator_returns_on_numbers_witness :
  exists df, map_fuel_type_consumption iso_lib slot1_row = Ok df.
Proof.
  exact (X21_aggregator_returns_on_numbers iso_lib slot1_row slot1_row_wf
           slot1_row_numbers).
Defined.

(** X22. When the aggregator raises on a well-formed input, it raises
    [ValueError] or [TypeError]: a column it needs is never missing. *)
Theorem X22_aggregator_raises_on_bad_cells_only
  (lib : pylib) (navfleet_data : frame) (e : exn) :
  wf_frame navfleet_data ->
  map_fuel_type_consumption lib navfleet_data = Raise e ->
  e = ValueError \/ e = TypeError.
Proof.
  intros Hwf H.
  pose proof (map_fuel_type_consumption_ends_in lib
                (fun e => e = ValueError \/ e = TypeError)
                navfleet_data Hwf) as Hends.
  rewrite H in Hends. apply Hends.
  - intros. apply astype_float_raises.
  - intros. apply series_add_raises.
Qed.

Lemma bad_fuel_row_wf : wf_frame bad_fuel_row.
Proof. unfold wf_frame. compute_done. Qed.

Lemma bad_fuel_row_raises :
  map_fuel_type_consumption iso_lib bad_fuel_row = Raise ValueError.
Proof. vm_compute. reflexivity. Qed.

Lemma X22_aggregator_raises_on_bad_cells_only_witness :
  map_fuel_type_consumption iso_lib bad_fuel_row = Raise ValueError
  /\ (ValueError = ValueError \/ ValueError = TypeError).
Proof.
  split; [exact bad_fuel_row_raises |].
  exact (X22_aggregator_raises_on_bad_cells_only iso_lib bad_fuel_row
           ValueError bad_fuel_row_wf bad_fuel_row_raises).
Defined.

(** ** Properties of the files and dialogs *)

Lemma load_file_loop_csv (w : world) (file_path : string)
  (encodings : list string) (df : frame) :
  load_file_loop w file_path "csv" encodings = Ok df <->
  exists before encoding after,
    encodings = (before ++ encoding :: after)%list
    /\ Forall (fun e => exists x, read_csv w file_path e = Raise x) before
    /\ read_csv w file_path encoding = Ok df.
Proof.
  induction encodings as [|encoding encodings IH]; cbn [load_file_loop].
  - split; [discriminate |]. intros (before & e & after & E & _).
    destruct before; discriminate E.
  - change ("csv" =? "csv")%string with true. cbv iota.
    destruct (read_csv w file_path encoding) as [df'|x] eqn:R.
    + split.
      * intros H. exists [], encoding, encodings.
        split; [reflexivity |]. split; [constructor | congruence].
      * intros (before & e & after & E & Hb & He).
        destruct before as [|b before]; cbn in E; injection E as -> ->.
        -- congruence.
        -- apply Forall_cons in Hb as [[y Hy] _]. congruence.
    + rewrite IH. split.
      * intros (before & e & after & -> & Hb & He).
        exists (encoding :: before), e, after.
        split; [reflexivity |]. split; [constructor; eauto | exact He].
      * intros (before & e & after & E & Hb & He).
        destruct before as [|b before]; cbn in E; injection E as -> ->.
        -- congruence.
        -- apply Forall_cons in Hb as [_ Hb]. eauto 6.
Qed.

Lemma load_file_loop_raises (w : world) (file_path file_type : string)
  (encodings : list string) (e : exn) :
  load_file_loop w file_path file_type encodings = Raise e -> e = ValueError.
Proof.
  induction encodings as [|encoding encodings IH]; cbn [load_file_loop].
  - congruence.
  - destruct (file_type =? "csv")%string.
    + destruct (read_csv w file_path encoding); [discriminate | exact IH].
    + destruct (file_type =? "excel")%string; [| exact IH].
      destruct (read_excel w file_path); [discriminate | exact IH].
Qed.

Lemma load_file_loop_unknown (w : world) (file_path file_type : string)
  (encodings : list string) :
  file_type <> "csv" -> file_type <> "excel" ->
  load_file_loop w file_path file_type encodings = Raise ValueError.
Proof.
  intros H1 H2. apply String.eqb_neq in H1, H2.
  induction encodings as [|encoding encodings IH]; cbn [load_file_loop];
    [reflexivity |].
  rewrite H1, H2. exact IH.
Qed.

Lemma load_file_loop_excel (w : world) (file_path : string)
  (encodings : list string) :
  encodings <> [] ->
  load_file_loop w file_path "excel" encodings
  = match read_excel w file_path with
    | Ok df => Ok df
    | Raise _ => Raise ValueError
    end.
Proof.
  intros Hne. destruct encodings as [|encoding encodings]; [contradiction |].
  clear Hne. revert encoding.
  induction encodings as [|e' encodings IH]; intros encoding.
  - cbn. destruct (read_excel w file_path); reflexivity.
  - specialize (IH e'). cbn [load_file_loop] in *.
    change ("excel" =? "csv")%string with false in *.
    change ("excel" =? "excel")%string with true in *. cbv iota in *.
    destruct (read_excel w file_path); [reflexivity | exact IH].
Qed.

Example process_transformation_sample :
  process_transformation iso_lib sample_world
  = [AskOpen "Select NavFleet CSV File"; ReadFile "reports.csv" "csv";
     AskName; AskSave "Aurora_Step1_Formatting_20240301_120000.xlsx";
     Save "Aurora_Step1_Formatting_20240301_120000.xlsx" sample_output;
     ShowInfo "Success" "Aurora_Step1_Formatting_20240301_120000.xlsx"].
Proof. vm_compute. reflexivity. Qed.

Example process_update_sample :
  process_update iso_lib sample_world
  = [AskOpen "Select Output File to Update"; AskOpen "Select PortCode File";
     ReadFile "step1.xlsx" "excel"; ReadFile "ports.csv" "csv";
     AskSave "OVD_READY_20240301_120000.xlsx";
     Save "OVD_READY_20240301_120000.xlsx" reloaded_resolved;
     ShowInfo "Success" "OVD_READY_20240301_120000.xlsx"].
Proof. vm_compute. reflexivity. Qed.

(** X23. The vessel name is checked before it is trimmed. The function
    raises, and then [ValueError], exactly when the dialog is cancelled or
    left empty; the name it returns has no blanks around it; and it returns
    the empty name exactly when the answer is not empty and holds blanks
    only. *)
Theorem X23_vessel_name_checked_before_trimming (w : world) :
  (forall e, get_vessel_name w = Raise e <->
     e = ValueError /\ (askstring w = None \/ askstring w = Some ""))
  /\ (forall name, get_vessel_name w = Ok name -> strip name = name)
  /\ (get_vessel_name w = Ok "" <->
      exists s, askstring w = Some s /\ s <> "" /\ blank s).
Proof.
  unfold get_vessel_name. destruct (askstring w) as [s|]; cbn [truthy negb].
  2:{ split; [| split].
      - intros e. split; [intros H; injection H as <-; auto |].
        intros [-> _]. reflexivity.
      - intros name H. discriminate H.
      - split; [discriminate |]. intros (s & Hs & _). discriminate Hs. }
  destruct (String.eqb_spec s "") as [-> | Hne]; cbn [negb as_text rbind].
  - split; [| split].
    + intros e. split; [intros H; injection H as <-; auto |].
      intros [-> _]. reflexivity.
    + intros name H. discriminate H.
    + split; [discriminate |]. intros (s & Hs & Hn & _). congruence.
  - split; [| split].
    + intros e. split; [discriminate |].
      intros [_ [H | H]]; [discriminate | congruence].
    + intros name H. apply Ok_inj in H. subst name. apply strip_idem.
    + split.
      * intros H. apply Ok_inj in H. exists s.
        split; [reflexivity |]. split; [exact Hne |].
        apply strip_empty_iff. exact H.
      * intros (s' & Hs & _ & Hb). injection Hs as <-. f_equal.
        apply strip_empty_iff. exact Hb.
Qed.

(** X24. A CSV file is loaded with the first encoding of the list under
    which the reader does not raise: [load_file] returns a table exactly
    when there is such an encoding, and returns what the reader gives under
    it. The list is [utf-8], [latin1], [windows-1252] when none is given. *)
Theorem X24_csv_loaded_with_first_readable_encoding
  (w : world) (file_path : string) (encodings : option (list string))
  (df : frame) :
  load_file w file_path "csv" encodings = Ok df <->
  exists before encoding after,
    default default_encodings encodings = (before ++ encoding :: after)%list
    /\ Forall (fun e => exists x, read_csv w file_path e = Raise x) before
    /\ read_csv w file_path encoding = Ok df.
Proof. unfold load_file. apply load_file_loop_csv. Qed.

(** X25. [load_file] raises [ValueError] and nothing else, whatever the
    readers raise. It does so for every file when the file type is neither
    [csv] nor [excel] and when the list of encodings is empty. An Excel
    file is read without regard to the encodings: the result is that of
    the reader, its exception turned into [ValueError]. *)
Theorem X25_load_file_raises_value_error_only
  (w : world) (file_path file_type : string)
  (encodings : option (list string)) :
  (forall e, load_file w file_path file_type encodings = Raise e ->
     e = ValueError)
  /\ (file_type <> "csv" -> file_type <> "excel" ->
      load_file w file_path file_type encodings = Raise ValueError)
  /\ load_file w file_path file_type (Some []) = Raise ValueError
  /\ (encodings <> Some [] ->
      load_file w file_path "excel" encodings
      = match read_excel w file_path with
        | Ok df => Ok df
        | Raise _ => Raise ValueError
        end).
Proof.
  unfold load_file. split; [intros e; apply load_file_loop_raises |].
  split; [apply load_file_loop_unknown |]. split; [reflexivity |].
  intros Hne. apply load_file_loop_excel.
  destruct encodings as [[|e l]|]; [contradiction | discriminate..].
Qed.

(** X26. The first command writes a file only when everything before
    succeeded: a file was chosen, it loaded as CSV, the transformer
    returned, a vessel name was given and the save dialog was not
    cancelled. What it writes is the transformed table, at the path chosen
    in the save dialog, which was opened on the vessel name followed by
    [_Step1_Formatting_], the time stamp and [.xlsx]. The success box is
    shown only when the write did not raise, and no trace holds both the
    success box and an error box. *)
Theorem X26_transformation_saves_only_on_success (lib : pylib) (w : world) :
  (forall path df, Save path df ∈ process_transformation lib w ->
     exists navfleet_data vessel_name,
       askopenfilename w "Select NavFleet CSV File" <> ""
       /\ load_file w (askopenfilename w "Select NavFleet CSV File") "csv" None
          = Ok navfleet_data
       /\ transform_navfleet_data lib navfleet_data = Ok df
       /\ get_vessel_name w = Ok vessel_name
       /\ path = asksaveasfilename w
                   (vessel_name ++ "_Step1_Formatting_" ++ now w ++ ".xlsx")
       /\ path <> "")
  /\ (forall title path, ShowInfo title path ∈ process_transformation lib w ->
        (exists df, Save path df ∈ process_transformation lib w
                    /\ to_excel w path df = Ok tt)
        /\ forall title' prefix e,
             ShowError title' prefix e ∉ process_transformation lib w).
Proof.
  unfold process_transformation. run_gui.
  set (file_path := askopenfilename w "Select NavFleet CSV File").
  destruct (String.eqb_spec file_path "") as [E0 | Hfile]; run_gui.
  { split; [intros path df H | intros title path H]; in_trace H. }
  destruct (load_file w file_path "csv" None) as [navfleet_data|e1] eqn:Hload;
    run_gui.
  2:{ split; [intros path df H | intros title path H]; in_trace H. }
  destruct (transform_navfleet_data lib navfleet_data) as [out|e2] eqn:Htr;
    run_gui.
  2:{ split; [intros path df H | intros title path H]; in_trace H. }
  destruct (get_vessel_name w) as [vessel_name|e3] eqn:Hname; run_gui.
  2:{ split; [intros path df H | intros title path H]; in_trace H. }
  set (default_name := vessel_name ++ "_Step1_Formatting_" ++ now w ++ ".xlsx").
  destruct (String.eqb_spec (asksaveasfilename w default_name) "")
    as [E1 | Hsave]; run_gui.
  { split; [intros path df H | intros title path H]; in_trace H. }
  destruct (to_excel w (asksaveasfilename w default_name) out) as [[]|e4]
    eqn:Hwrite; run_gui.
  - split.
    + intros path df H. in_trace H. injection H as -> ->.
      exists navfleet_data, vessel_name. auto 7.
    + intros title path H. in_trace H. injection H as -> ->. split.
      * exists out. split; [| exact Hwrite]. do 4 right. left.
      * intros title' prefix e H. in_trace H.
  - split.
    + intros path df H. in_trace H. injection H as -> ->.
      exists navfleet_data, vessel_name. auto 7.
    + intros title path H. in_trace H.
Qed.

Lemma X26_transformation_saves_only_on_success_witness :
  exists navfleet_data vessel_name,
    askopenfilename sample_world "Select NavFleet CSV File" <> ""
    /\ load_file sample_world
         (askopenfilename sample_world "Select NavFleet CSV File") "csv" None
       = Ok navfleet_data
    /\ transform_navfleet_data iso_lib navfleet_data = Ok sample_output
    /\ get_vessel_name sample_world = Ok vessel_name
    /\ "Aurora_Step1_Formatting_20240301_120000.xlsx"
       = asksaveasfilename sample_world
           (vessel_name ++ "_Step1_Formatting_" ++ now sample_world ++ ".xlsx")
    /\ "Aurora_Step1_Formatting_20240301_120000.xlsx" <> "".
Proof.
  apply (proj1 (X26_transformation_saves_only_on_success iso_lib sample_world)
           "Aurora_Step1_Formatting_20240301_120000.xlsx" sample_output).
  rewrite process_transformation_sample. do 4 right. left.
Defined.

(** X27. The second command asks for both files before it looks at either
    answer. It writes a file only when both were chosen, the first loaded
    as Excel and the second as CSV, the resolver returned and the save
    dialog was not cancelled; what it writes is the table the resolver
    returned, at the path chosen in the save dialog, opened on [OVD_READY_]
    followed by the time stamp and [.xlsx]. When a file was not chosen it
    reads nothing. *)
Theorem X27_update_saves_only_on_success (lib : pylib) (w : world) :
  (exists rest,
     process_update lib w
     = AskOpen "Select Output File to Update"
       :: AskOpen "Select PortCode File" :: rest)
  /\ (forall path df, Save path df ∈ process_update lib w ->
        exists output_data reference_data,
          load_file w (askopenfilename w "Select Output File to Update")
            "excel" None = Ok output_data
          /\ load_file w (askopenfilename w "Select PortCode File") "csv" None
             = Ok reference_data
          /\ update_voyage_columns lib output_data reference_data = Ok df
          /\ path = asksaveasfilename w ("OVD_READY_" ++ now w ++ ".xlsx")
          /\ path <> "")
  /\ (askopenfilename w "Select Output File to Update" = ""
      \/ askopenfilename w "Select PortCode File" = "" ->
      process_update lib w
      = [AskOpen "Select Output File to Update";
         AskOpen "Select PortCode File";
         ShowError "Error" "Update failed: " ValueError]).
Proof.
  unfold process_update. run_gui.
  set (output_file := askopenfilename w "Select Output File to Update").
  set (update_file := askopenfilename w "Select PortCode File").
  destruct ((output_file =? "")%string || (update_file =? "")%string) eqn:Hsel;
    run_gui.
  { split; [eauto |]. split; [intros path df H; in_trace H | reflexivity]. }
  apply orb_false_iff in Hsel as [H1 H2].
  apply String.eqb_neq in H1, H2.
  assert (Hnone : output_file = "" \/ update_file = "" -> False)
    by (intros [E | E]; congruence).
  destruct (load_file w output_file "excel" None) as [output_data|e1]
    eqn:Hout; run_gui.
  2:{ split; [eauto |].
      split; [intros path df H; in_trace H | intros E; destruct (Hnone E)]. }
  destruct (load_file w update_file "csv" None) as [reference_data|e2]
    eqn:Href; run_gui.
  2:{ split; [eauto |].
      split; [intros path df H; in_trace H | intros E; destruct (Hnone E)]. }
  destruct (update_voyage_columns lib output_data reference_data)
    as [updated|e3] eqn:Hupd; run_gui.
  2:{ split; [eauto |].
      split; [intros path df H; in_trace H | intros E; destruct (Hnone E)]. }
  set (default_name := "OVD_READY_" ++ now w ++ ".xlsx").
  destruct (String.eqb_spec (asksaveasfilename w default_name) "")
    as [E1 | Hsave]; run_gui.
  { split; [eauto |].
    split; [intros path df H; in_trace H | intros E; destruct (Hnone E)]. }
  destruct (to_excel w (asksaveasfilename w default_name) updated) as [[]|e4];
    run_gui.
  - split; [eauto |]. split; [| intros E; destruct (Hnone E)].
    intros path df H. in_trace H. injection H as -> ->.
    exists output_data, reference_data. auto 6.
  - split; [eauto |]. split; [| intros E; destruct (Hnone E)].
    intros path df H. in_trace H. injection H as -> ->.
    exists output_data, reference_data. auto 6.
Qed.

Lemma X27_update_saves_only_on_success_witness :
  exists output_data reference_data,
    load_file sample_world
      (askopenfilename sample_world "Select Output File to Update")
      "excel" None = Ok output_data
    /\ load_file sample_world
         (askopenfilename sample_world "Select PortCode File") "csv" None
       = Ok reference_data
    /\ update_voyage_columns iso_lib output_data reference_data
       = Ok reloaded_resolved
    /\ "OVD_READY_20240301_120000.xlsx"
       = asksaveasfilename sample_world
           ("OVD_READY_" ++ now sample_world ++ ".xlsx")
    /\ "OVD_READY_20240301_120000.xlsx" <> "".
Proof.
  apply (proj1 (proj2 (X27_update_saves_only_on_success iso_lib sample_world))
           "OVD_READY_20240301_120000.xlsx" reloaded_resolved).
  rewrite process_update_sample. do 5 right. left.
Defined.
